(** * Final-Vertex (StatusMono): the data pipeline of the dashboard

    A shallow embedding of the relay [api/proxy.js] and of the client
    pipeline of [src/App.jsx] (normalisation, fallback generator and
    [fetchFinancialData]), with the properties of the natural-language
    specification stated over it.

    Modelling conventions.
    - A JavaScript value is a [val]; numbers are IEEE binary64 ([float]),
      strings are [string], one character per code unit.  Text outside ASCII
      only occurs in messages and labels that the code never inspects; it is
      kept as written in the source.
    - An object is an association list in property order; a property is
      read at its first occurrence.
    - Code that may throw returns a [result]; code that also talks to the
      network runs in [M], which threads the list of requests made so far.
    - Time values are integers in milliseconds, [None] standing for NaN;
      [Array.prototype.sort] is insertion sort, which every stable sort
      agrees with on a consistent comparator.
    - What ECMA-262, WHATWG URL and the platform define (number/string
      conversions, [Date.parse] outside the date-only form, upper-casing,
      URL parsing past the scheme, [JSON.parse], percent-encoding) is a
      field of [Host] and every statement is proved for an arbitrary host;
      [Example.host] runs the model on concrete inputs. *)

From Stdlib Require Import ZArith List String Ascii Bool Lia.
From Stdlib Require Import Permutation Sorted PrimFloat DecimalString.
Import ListNotations.

Set Warnings "-register-all,-inexact-float".

Local Open Scope list_scope.
Local Open Scope string_scope.

(* ================================================================= *)
(** ** JavaScript values *)

Inductive val : Type :=
| VUndefined
| VNull
| VBool (b : bool)
| VNum (x : float)
| VStr (s : string)
| VArr (items : list val)
| VObj (fields : list (string * val)).

(** What a [throw] carries.  [Error m] is [new Error(m)]: its message is
    [m] converted to a string. *)
Inductive exn : Type :=
| TypeError
| NetworkError
| SyntaxError
| URIError
| Error (message : val).

Inductive result (A : Type) : Type :=
| Ret (a : A)
| Throw (e : exn).

Arguments Ret {A} a.
Arguments Throw {A} e.

Definition bind {A B : Type} (m : result A) (k : A -> result B) : result B :=
  match m with
  | Ret a => k a
  | Throw e => Throw e
  end.

Notation "x <- m ;; k" := (bind m (fun x => k))
  (at level 61, m at next level, right associativity).

(** [list.map] with a callback that may throw: the first throw aborts. *)
Fixpoint mapM {A B : Type} (f : A -> result B) (l : list A) : result (list B) :=
  match l with
  | [] => Ret []
  | a :: l' => b <- f a ;; bs <- mapM f l' ;; Ret (b :: bs)
  end.

(** As [mapM], the callback also receiving the index. *)
Fixpoint mapiM_from {A B : Type} (i : nat) (f : A -> nat -> result B) (l : list A)
  : result (list B) :=
  match l with
  | [] => Ret []
  | a :: l' => b <- f a i ;; bs <- mapiM_from (S i) f l' ;; Ret (b :: bs)
  end.

Definition mapiM {A B : Type} (f : A -> nat -> result B) (l : list A) : result (list B) :=
  mapiM_from 0 f l.

(* ----------------------------------------------------------------- *)
(** *** Numbers *)

Definition NaN : float := PrimFloat.nan.

Fixpoint float_of_nat (n : nat) : float :=
  match n with
  | O => 0%float
  | S n' => (float_of_nat n' + 1)%float
  end.

Definition float_of_Z (z : Z) : float :=
  match z with
  | Z0 => 0%float
  | Zpos p => float_of_nat (Pos.to_nat p)
  | Zneg p => (- float_of_nat (Pos.to_nat p))%float
  end.

Definition is_NaN (x : float) : bool := negb (PrimFloat.eqb x x).

(** ToBoolean on a number: [+0], [-0] and [NaN] are falsy. *)
Definition number_truthy (x : float) : bool :=
  negb (is_NaN x) && negb (PrimFloat.eqb x 0%float).

(* ----------------------------------------------------------------- *)
(** *** Strings *)

Definition startsWith (s p : string) : bool := String.prefix p s.

Fixpoint includes (s p : string) : bool :=
  String.prefix p s ||
  match s with
  | EmptyString => false
  | String _ s' => includes s' p
  end.

Definition endsWith (s p : string) : bool :=
  (String.length p <=? String.length s)%nat &&
  String.eqb (String.substring (String.length s - String.length p) (String.length p) s) p.

(** [s.slice(0, n)]. *)
Definition slice0 (n : nat) (s : string) : string := String.substring 0 n s.

(** [s.split(c)] for a one-character separator; never empty. *)
Fixpoint split (c : ascii) (s : string) : list string :=
  match s with
  | EmptyString => [EmptyString]
  | String a s' =>
      if Ascii.eqb a c then EmptyString :: split c s'
      else match split c s' with
           | [] => [String a EmptyString]
           | p :: ps => String a p :: ps
           end
  end.

(** White space and line terminators among the code units below 256:
    TAB, LF, VT, FF, CR, SP and NBSP. *)
Definition is_space (a : ascii) : bool :=
  let n := nat_of_ascii a in
  ((9 <=? n) && (n <=? 13) || (n =? 32) || (n =? 160))%nat.

Fixpoint trimStart (s : string) : string :=
  match s with
  | EmptyString => EmptyString
  | String a s' => if is_space a then trimStart s' else s
  end.

Fixpoint rev_string_onto (s acc : string) : string :=
  match s with
  | EmptyString => acc
  | String a s' => rev_string_onto s' (String a acc)
  end.

Definition rev_string (s : string) : string := rev_string_onto s EmptyString.

Definition trimEnd (s : string) : string := rev_string (trimStart (rev_string s)).

Definition trim (s : string) : string := trimEnd (trimStart s).

Definition join (sep : string) (l : list string) : string := String.concat sep l.

Definition dquote : string := String (ascii_of_nat 34) EmptyString.

(** The decimal numeral of a natural number, as [String(i)] prints an index
    or an HTTP status. *)
Definition decimal (n : nat) : string :=
  DecimalString.NilEmpty.string_of_uint (Nat.to_uint n).

Definition is_digit (a : ascii) : bool :=
  let n := nat_of_ascii a in ((48 <=? n) && (n <=? 57))%nat.

Definition digit_value (a : ascii) : Z := (Z.of_nat (nat_of_ascii a) - 48)%Z.

(** The value of a string of decimal digits; [None] when another character
    occurs.  The empty string has value [0] and is excluded by the callers. *)
Fixpoint digits_from (acc : Z) (s : string) : option Z :=
  match s with
  | EmptyString => Some acc
  | String a s' =>
      if is_digit a then digits_from (10 * acc + digit_value a)%Z s' else None
  end.

Definition digits (s : string) : option Z := digits_from 0%Z s.

(* ----------------------------------------------------------------- *)
(** *** Truthiness and property reads *)

(** ToBoolean. *)
Definition truthy (v : val) : bool :=
  match v with
  | VUndefined | VNull => false
  | VBool b => b
  | VNum x => number_truthy x
  | VStr s => negb (String.eqb s EmptyString)
  | VArr _ | VObj _ => true
  end.

(** [a || b] and [a ?? b] on values (both operands already evaluated; the
    right operands in the source are property reads of an object already
    read, or literals). *)
Definition js_or (a b : val) : val := if truthy a then a else b.

Definition nullish (a : val) : bool :=
  match a with
  | VUndefined | VNull => true
  | _ => false
  end.

Definition js_coalesce (a b : val) : val := if nullish a then b else a.

Definition lookup (k : string) (fields : list (string * val)) : val :=
  match find (fun kv => String.eqb (fst kv) k) fields with
  | Some kv => snd kv
  | None => VUndefined
  end.

(** [v.k] for the property names the source reads other than [length]
    ([date], [d], [year], [value], [v], [categories], [series], [data],
    [assetEarningsModels], [ed], [pd], [et], [url], [error]): none of them
    is inherited from a prototype.  Reading a property of [null] or
    [undefined] throws. *)
Definition get (v : val) (k : string) : result val :=
  match v with
  | VUndefined | VNull => Throw TypeError
  | VObj fields => Ret (lookup k fields)
  | VBool _ | VNum _ | VStr _ | VArr _ => Ret VUndefined
  end.

(** [v[i]] for an index [i]. *)
Definition get_index (v : val) (i : nat) : result val :=
  match v with
  | VUndefined | VNull => Throw TypeError
  | VArr l => Ret (nth i l VUndefined)
  | VStr s =>
      Ret (match String.get i s with
           | Some c => VStr (String c EmptyString)
           | None => VUndefined
           end)
  | VObj fields => Ret (lookup (decimal i) fields)
  | VBool _ | VNum _ => Ret VUndefined
  end.

Definition isArray (v : val) : bool :=
  match v with
  | VArr _ => true
  | _ => false
  end.

(** [typeof v === 'object']. *)
Definition typeof_object (v : val) : bool :=
  match v with
  | VNull | VArr _ | VObj _ => true
  | _ => false
  end.

(** [Object.keys(v).length], the number of own enumerable string keys, for
    a value other than [null] and [undefined] (on which [Object.keys]
    throws; the callers test for [null] first and never hold [undefined]). *)
Definition keys_count (v : val) : nat :=
  match v with
  | VUndefined | VNull => 0
  | VObj fields => List.length fields
  | VArr l => List.length l
  | VStr s => String.length s
  | VBool _ | VNum _ => 0
  end.

(* ----------------------------------------------------------------- *)
(** *** The host *)

Class Host : Type := {
  (** Number::toString, radix 10. *)
  NumberToString : float -> string;
  (** StringToNumber (the StringNumericLiteral grammar). *)
  StringToNumber : string -> float;
  (** String.prototype.toUpperCase. *)
  toUpperCase : string -> string;
  encodeURIComponent : string -> string;
  (** [decodeURIComponent]; [None] is a URIError. *)
  decodeURIComponent : string -> option string;
  (** [Date.parse] on a string that is not of the date-only form
      [YYYY-MM-DD] with a month in 01..12 and a day in 01..31 that exists in
      that month: the other ISO forms and the implementation-defined
      formats.  [None] is NaN. *)
  Date_parse_other : string -> option Z;
  (** [new URL(s).hostname] for an input [s] that starts with a scheme;
      [None] when the constructor throws. *)
  URL_hostname : string -> option string;
  (** [JSON.parse]; [None] is a SyntaxError, whose message is
      [JSON_error]. *)
  JSON_parse : string -> option val;
  JSON_error : string -> string;
}.

Section Conversions.
Context {host : Host}.

(** ToString. An array prints its elements separated by commas, [null] and
    [undefined] elements as the empty string.  This is the conversion of
    JSON data whose objects have no key [toString]: an object with that
    key, which JSON data cannot make callable, makes [String] and [Number]
    throw a TypeError in JavaScript, and is outside the model. *)
Fixpoint ToString (v : val) : string :=
  match v with
  | VUndefined => "undefined"
  | VNull => "null"
  | VBool true => "true"
  | VBool false => "false"
  | VNum x => NumberToString x
  | VStr s => s
  | VArr l =>
      join ","
        ((fix elems (l : list val) : list string :=
            match l with
            | [] => []
            | e :: l' => (if nullish e then EmptyString else ToString e) :: elems l'
            end) l)
  | VObj _ => "[object Object]"
  end.

(** ToNumber; [Number(v)]. Arrays and objects go through ToPrimitive, which
    is their ToString, with the same limit. *)
Definition ToNumber (v : val) : float :=
  match v with
  | VUndefined => NaN
  | VNull => 0%float
  | VBool true => 1%float
  | VBool false => 0%float
  | VNum x => x
  | VStr s => StringToNumber s
  | VArr _ | VObj _ => StringToNumber (ToString v)
  end.

(** [v > 0]. *)
Definition gt_zero (v : val) : bool := PrimFloat.ltb 0%float (ToNumber v).

(** [v.length > 0].  The length of an array or of a string is positive
    exactly when it has an element; an object may hold any value under
    [length]; booleans and numbers have none. *)
Definition length_gt_zero (v : val) : result bool :=
  match v with
  | VUndefined | VNull => Throw TypeError
  | VArr l => Ret (negb (List.length l =? 0)%nat)
  | VStr s => Ret (negb (String.length s =? 0)%nat)
  | VObj fields => Ret (gt_zero (lookup "length" fields))
  | VBool _ | VNum _ => Ret false
  end.

(** [v.includes(p)] for a string [p]: String.prototype.includes on a
    string, Array.prototype.includes (SameValueZero) on an array; no other
    value has the method. *)
Definition includes_method (v : val) (p : string) : result bool :=
  match v with
  | VStr s => Ret (includes s p)
  | VArr l =>
      Ret (existsb (fun e => match e with VStr s => String.eqb s p | _ => false end) l)
  | _ => Throw TypeError
  end.

End Conversions.

(* ----------------------------------------------------------------- *)
(** *** Dates *)

Definition is_leap (y : Z) : bool :=
  ((y mod 4 =? 0) && negb (y mod 100 =? 0) || (y mod 400 =? 0))%Z.

Definition days_in_month (y m : Z) : Z :=
  if (m =? 2)%Z then (if is_leap y then 29 else 28)
  else if ((m =? 4) || (m =? 6) || (m =? 9) || (m =? 11))%Z then 30
  else 31.

(** Days from 1970-01-01 to the civil date [y]-[m]-[d] (proleptic
    Gregorian), MakeDay of ECMA-262. *)
Definition days_from_civil (y m d : Z) : Z :=
  (let y' := if m <=? 2 then y - 1 else y in
   let era := y' / 400 in
   let yoe := y' - era * 400 in
   let mp := (m + 9) mod 12 in
   let doy := (153 * mp + 2) / 5 + d - 1 in
   let doe := yoe * 365 + yoe / 4 - yoe / 100 + doy in
   era * 146097 + doe - 719468)%Z.

Definition msPerDay : Z := 86400000%Z.

(** The fields of a string of the shape [dddd-dd-dd]. *)
Definition date_only_fields (s : string) : option (Z * Z * Z) :=
  if ((String.length s =? 10)%nat
      && String.eqb (String.substring 4 1 s) "-"
      && String.eqb (String.substring 7 1 s) "-")
  then
    match digits (String.substring 0 4 s),
          digits (String.substring 5 2 s),
          digits (String.substring 8 2 s) with
    | Some y, Some m, Some d => Some (y, m, d)
    | _, _, _ => None
    end
  else None.

Section Dates.
Context {host : Host}.

(** [new Date(s).getTime()], [None] for NaN.  A date-only string is UTC
    midnight of that day; one with a month outside 01..12 or a day outside
    01..31 is out of bounds and gives NaN; everything else is the host's. *)
Definition Date_parse (s : string) : option Z :=
  match date_only_fields s with
  | Some (y, m, d) =>
      if ((1 <=? m) && (m <=? 12) && (1 <=? d) && (d <=? 31))%Z then
        if (d <=? days_in_month y m)%Z then Some (days_from_civil y m d * msPerDay)%Z
        else Date_parse_other s
      else None
  | None => Date_parse_other s
  end.

End Dates.

(* ----------------------------------------------------------------- *)
(** *** URLs *)

Definition is_alpha (a : ascii) : bool :=
  let n := nat_of_ascii a in
  ((65 <=? n) && (n <=? 90) || (97 <=? n) && (n <=? 122))%nat.

(** C0 control or space. *)
Definition is_c0_or_space (a : ascii) : bool := (nat_of_ascii a <=? 32)%nat.

Definition is_tab_or_newline (a : ascii) : bool :=
  let n := nat_of_ascii a in ((n =? 9) || (n =? 10) || (n =? 13))%nat.

Fixpoint drop_c0 (s : string) : string :=
  match s with
  | EmptyString => EmptyString
  | String a s' => if is_c0_or_space a then drop_c0 s' else s
  end.

Fixpoint drop_tabs (s : string) : string :=
  match s with
  | EmptyString => EmptyString
  | String a s' => if is_tab_or_newline a then drop_tabs s' else String a (drop_tabs s')
  end.

(** The input as the URL parser reads it: without leading and trailing C0
    controls and spaces, and without tabs and newlines. *)
Definition url_input (s : string) : string :=
  drop_tabs (rev_string (drop_c0 (rev_string (drop_c0 s)))).

(** The scheme state: letters, digits, [+], [-] and [.] up to a colon. *)
Fixpoint scheme_tail (s : string) : bool :=
  match s with
  | EmptyString => false
  | String a s' =>
      if Ascii.eqb a ":" then true
      else if (is_alpha a || is_digit a || Ascii.eqb a "+" || Ascii.eqb a "-"
               || Ascii.eqb a ".")%bool
      then scheme_tail s'
      else false
  end.

(** Whether the input starts with a scheme.  Without one, and without a
    base URL, parsing fails. *)
Definition has_scheme (s : string) : bool :=
  match url_input s with
  | EmptyString => false
  | String a s' => is_alpha a && scheme_tail s'
  end.

Section URLs.
Context {host : Host}.

(** [new URL(s).hostname]; [None] when the constructor throws. *)
Definition hostname_of (s : string) : option string :=
  if has_scheme s then URL_hostname s else None.

End URLs.

(* ----------------------------------------------------------------- *)
(** *** Array.prototype.sort *)

(** What the comparator returned: [Some z] for a number of the sign of [z],
    [None] for NaN, which [sort] reads as [+0]. *)
Definition sorts_before (c : option Z) : bool :=
  match c with
  | Some z => (z <? 0)%Z
  | None => false
  end.

Section ArraySort.
Context {A : Type} (comparefn : A -> A -> result (option Z)).

(** [sort] is stable and, for a comparator that is a consistent ordering of
    the elements, its result does not depend on the algorithm; the model is
    insertion sort.  [insert x l] puts [x], which precedes the elements of
    [l] in the array, before the first element that does not sort before
    it.  A throw of the comparator aborts the sort.  For a comparator that
    is no consistent ordering, as one that answers NaN for a pair is not,
    ECMA-262 leaves the order to the implementation: the model, which reads
    NaN as [+0] like CompareArrayElements, is then one permitted order; it
    is the order of the engines on two elements, and on more than two only
    what holds of every order (a permutation, a throw) is stated of it. *)
Fixpoint insert (x : A) (l : list A) : result (list A) :=
  match l with
  | [] => Ret [x]
  | y :: l' =>
      c <- comparefn y x ;;
      if sorts_before c then (r <- insert x l' ;; Ret (y :: r))
      else Ret (x :: y :: l')
  end.

Fixpoint Array_sort (l : list A) : result (list A) :=
  match l with
  | [] => Ret []
  | x :: l' => s <- Array_sort l' ;; insert x s
  end.

End ArraySort.

(* ================================================================= *)
(** ** src/App.jsx *)

Module App.

(** An element of a chart series, [{name, value}], or of the earnings
    series, [{name, value, type}]; [type] reads [undefined] on the former. *)
Record point : Type := mkPoint {
  name : val;
  value : float;
  type : val;
}.

(** The object handed to [setData]. *)
Record snapshot : Type := mkSnapshot {
  patrimonio : list point;
  receitas : list point;
  despesas : list point;
  caixa : list point;
  resultado : list point;
  proventos : list point;
  isMock : bool;
  categoria : string;
}.

(** [a || b] with [b] evaluated only when [a] is falsy. *)
Definition or_else (a : val) (b : result val) : result val :=
  if truthy a then Ret a else b.

(** [a ?? b] with [b] evaluated only when [a] is [null] or [undefined]. *)
Definition coalesce_else (a : val) (b : result val) : result val :=
  if nullish a then b else Ret a.

Section Normalize.
Context {host : Host}.

(** The callback of [data.map] in the first shape. *)
Definition chartItem (item : val) : result point :=
  date <- get item "date" ;;
  d <- or_else date (get item "d") ;;
  label <- or_else d (get item "year") ;;
  v1 <- get item "value" ;;
  v2 <- coalesce_else v1 (get item "v") ;;
  Ret (mkPoint label (ToNumber (js_coalesce v2 (VNum 0%float))) VUndefined).

(** The callback of [categories.map] in the second shape. *)
Definition seriesItem (seriesData : val) (cat : val) (index : nat) : result point :=
  x <- get_index seriesData index ;;
  Ret (mkPoint (VStr (ToString cat)) (ToNumber (js_coalesce x (VNum 0%float))) VUndefined).

(** [Array.isArray(data) && data.length > 0 && (data[0].date || data[0].d)] *)
Definition isDatedArray (data : val) : result bool :=
  match data with
  | VArr (e0 :: _) =>
      date <- get e0 "date" ;;
      d <- or_else date (get e0 "d") ;;
      Ret (truthy d)
  | _ => Ret false
  end.

(** [data.categories && data.series && data.series.length > 0] *)
Definition hasCategoriesAndSeries (data : val) : result bool :=
  categories <- get data "categories" ;;
  if truthy categories then
    series <- get data "series" ;;
    if truthy series then length_gt_zero series
    else Ret false
  else Ret false.

Definition normalizeGenericChartData (data : val) : result (list point) :=
  if negb (truthy data) then Ret []
  else
    dated <- isDatedArray data ;;
    if dated then
      match data with
      | VArr l => mapM chartItem l
      | _ => Ret []
      end
    else
      shaped <- hasCategoriesAndSeries data ;;
      if shaped then
        categories <- get data "categories" ;;
        series <- get data "series" ;;
        first <- get_index series 0 ;;
        seriesData <- get first "data" ;;
        match categories with
        | VArr cats => mapiM (seriesItem seriesData) cats
        | _ => Throw TypeError
        end
      else Ret [].

(** The callback of [assetEarningsModels.map]. *)
Definition proventoItem (item : val) : result point :=
  ed <- get item "ed" ;;
  label <- or_else ed (get item "pd") ;;
  v <- get item "v" ;;
  et <- get item "et" ;;
  Ret (mkPoint label (ToNumber (js_or v (VNum 0%float))) et).

(** [parse] of the comparator: the time value of a label, [None] for NaN. *)
Definition parse (d : val) : result (option Z) :=
  if negb (truthy d) then Ret (Some 0%Z)
  else
    match d with
    | VStr s =>
        match split "/" s with
        | [p0; p1; p2] => Ret (Date_parse (p2 ++ "-" ++ p1 ++ "-" ++ p0)%string)
        | _ => Ret (Date_parse s)
        end
    | _ => Throw TypeError
    end.

(** [parse(a.name) - parse(b.name)].  Time values are integers of
    magnitude at most 8.64e15, so the binary64 difference has the sign of
    the exact one, which is all [sort] reads. *)
Definition compareByDate (a b : point) : result (option Z) :=
  ta <- parse (name a) ;;
  tb <- parse (name b) ;;
  Ret (match ta, tb with
       | Some x, Some y => Some (x - y)%Z
       | _, _ => None
       end).

(** The time value a label sorts by, when it has one. *)
Definition timeOf (p : point) : Z :=
  match parse (name p) with
  | Ret (Some t) => t
  | _ => 0%Z
  end.

Definition normalizeProventos (data : val) : result (list point) :=
  if negb (truthy data) then Ret []
  else
    models <- get data "assetEarningsModels" ;;
    if negb (truthy models) then Ret []
    else
      match models with
      | VArr l =>
          mapped <- mapM proventoItem l ;;
          Array_sort compareByDate mapped
      | _ => Throw TypeError
      end.

End Normalize.

(* ----------------------------------------------------------------- *)
(** *** The fallback generator *)

Definition years : list string := ["2019"; "2020"; "2021"; "2022"; "2023"; "2024"].

Definition months : list string :=
  ["Jan"; "Fev"; "Mar"; "Abr"; "Mai"; "Jun"; "Jul"; "Ago"; "Set"; "Out"; "Nov"; "Dez"].

(** [ticker.length === 6 && ticker.endsWith('11')] *)
Definition isFii (ticker : string) : bool :=
  (String.length ticker =? 6)%nat && endsWith ticker "11".

(** [years.map((y, i) => ({ name: y, value: f(i, Math.random()) }))], the
    [k]-th and following draws of [Math.random] being [rnd k], [rnd (k+1)],
    and so on: one draw per element. *)
Fixpoint yearly_from (f : nat -> float -> float) (rnd : nat -> float) (k i : nat)
  (ys : list string) : list point :=
  match ys with
  | [] => []
  | y :: ys' =>
      mkPoint (VStr y) (f i (rnd k)) VUndefined :: yearly_from f rnd (S k) (S i) ys'
  end.

Definition yearly (f : nat -> float -> float) (rnd : nat -> float) (k : nat) : list point :=
  yearly_from f rnd k 0 years.

(** [months.map(...)]: a fund draws once per month, an equity once and, when
    the draw exceeds 0.7, a second time. *)
Fixpoint monthly (fii : bool) (rnd : nat -> float) (k : nat) (ms : list string)
  : list point :=
  match ms with
  | [] => []
  | m :: ms' =>
      if fii then
        mkPoint (VStr m) (0.8 + rnd k * 0.4)%float (VStr "Rendimento")
          :: monthly fii rnd (S k) ms'
      else if PrimFloat.ltb 0.7%float (rnd k) then
        mkPoint (VStr m) (1.5 + rnd (S k) * 2)%float (VStr "Dividendo")
          :: monthly fii rnd (S (S k)) ms'
      else
        mkPoint (VStr m) 0%float (VStr "Dividendo") :: monthly fii rnd (S k) ms'
  end.

Definition generateMockData (rnd : nat -> float) (ticker : string) : snapshot :=
  let fii := isFii ticker in
  {| patrimonio := yearly (fun i r => 1e9 + float_of_nat i * 1.5e8 + r * 5e7)%float rnd 0;
     receitas := yearly (fun i r => 2e8 + float_of_nat i * 2e7 + r * 1e7)%float rnd 6;
     despesas := yearly (fun i r => 1.5e8 + float_of_nat i * 1e7 + r * 5e6)%float rnd 12;
     caixa := yearly (fun _ r => 5e7 + r * 2e7)%float rnd 18;
     resultado := yearly (fun i r => 5e7 + float_of_nat i * 1e7 + r * 5e6)%float rnd 24;
     proventos := monthly fii rnd 30 months;
     isMock := true;
     categoria := if fii then "FII" else "AÇÃO" |}.

(* ----------------------------------------------------------------- *)
(** *** Requests through the relay *)

(** How [fetch(proxyUrl)] settles: rejected, or a response with a status
    and a body that [res.json()] parses ([None] when it rejects). *)
Inductive reply : Type :=
| Rejected
| Response (status : nat) (body : option val).

(** What the run depends on besides the ticker: the replies of the relay,
    by request URL, and the draws of [Math.random]. *)
Record World : Type := mkWorld {
  relay : string -> reply;
  random : nat -> float;
}.

(** Computations that issue requests: the URLs fetched so far, in order. *)
Definition M (A : Type) : Type := list string -> result A * list string.

Definition retM {A : Type} (a : A) : M A := fun tr => (Ret a, tr).

Definition throwM {A : Type} (e : exn) : M A := fun tr => (Throw e, tr).

Definition liftM {A : Type} (r : result A) : M A := fun tr => (r, tr).

Definition bindM {A B : Type} (m : M A) (k : A -> M B) : M B :=
  fun tr =>
    match m tr with
    | (Ret a, tr') => k a tr'
    | (Throw e, tr') => (Throw e, tr')
    end.

Definition catchM {A : Type} (m : M A) (h : exn -> M A) : M A :=
  fun tr =>
    match m tr with
    | (Ret a, tr') => (Ret a, tr')
    | (Throw e, tr') => h e tr'
    end.

Notation "x <~ m ;; k" := (bindM m (fun x => k))
  (at level 61, m at next level, right associativity).

Definition ok (status : nat) : bool := ((200 <=? status) && (status <=? 299))%nat.

Definition SI_BASE : string := "https://statusinvest.com.br".

Section Fetch.
Context {host : Host} (w : World).

Definition fetch (url : string) : M reply :=
  fun tr => (Ret (relay w url), (tr ++ [url])%list).

(** What [proxyFetch] does with the settled response. *)
Definition settle (res : reply) : result val :=
  match res with
  | Rejected => Throw NetworkError
  | Response status body =>
      if negb (ok status) then
        let err := match body with Some v => v | None => VObj [] end in
        e <- get err "error" ;;
        Throw (Error (js_or e (VStr ("HTTP " ++ decimal status))))
      else
        match body with
        | Some v => Ret v
        | None => Throw SyntaxError
        end
  end.

Definition proxyUrl (path : string) : string :=
  let targetUrl := SI_BASE ++ path in
  "/api/proxy?url=" ++ encodeURIComponent targetUrl.

Definition proxyFetch (path : string) : M val :=
  res <~ fetch (proxyUrl path) ;;
  liftM (settle res).

Definition safeFetch (path : string) : M val :=
  catchM (proxyFetch path) (fun _ => retM VNull).

(** The value [safeFetch path] resolves to. *)
Definition slot (path : string) : val :=
  match settle (relay w (proxyUrl path)) with
  | Ret v => v
  | Throw _ => VNull
  end.

(** The category inferred from the search result. *)
Definition inferCategoria (searchData : val) : result string :=
  match searchData with
  | VArr (first :: _) =>
      url <- get first "url" ;;
      let urlStr := js_or url (VStr "") in
      fii <- includes_method urlStr "fundos-imobiliarios" ;;
      if fii then Ret "fii"
      else
        fiagro <- includes_method urlStr "fiagros" ;;
        if fiagro then Ret "fiagro"
        else
          acoes <- includes_method urlStr "acoes" ;;
          Ret "acoes"
  | _ => Ret "acoes"
  end.

(** The element test of [allNull]:
    [r === null || (typeof r === 'object' && !Array.isArray(r)
                    && Object.keys(r).length === 0)] *)
Definition isEmptyResult (r : val) : bool :=
  match r with
  | VNull => true
  | _ => typeof_object r && negb (isArray r) && (keys_count r =? 0)%nat
  end.

Definition categoriaLabel (categoria : string) : string :=
  if String.eqb categoria "fii" then "FII"
  else if String.eqb categoria "fiagro" then "FIAGRO"
  else "AÇÃO".

(** The paths of [endpoints], in the order of [Promise.all]. *)
Definition endpoints (categoria ticker : string) : list string :=
  [ "/" ++ categoria ++ "/getpatrimonioliquido?code=" ++ ticker ++ "&type=0";
    "/" ++ categoria ++ "/getreceitas?code=" ++ ticker ++ "&type=0";
    "/" ++ categoria ++ "/getdespesas?code=" ++ ticker ++ "&type=0";
    "/" ++ categoria ++ "/getcaixa?code=" ++ ticker ++ "&type=0";
    "/" ++ categoria ++ "/getresultado?code=" ++ ticker ++ "&type=0";
    "/" ++ categoria ++ "/companytickerprovents?companyName=" ++ ticker
      ++ "&chartProventsType=1" ].

(** [Promise.all(paths.map(safeFetch))]: every call is started, in order,
    before any settles, and no call depends on another. *)
Fixpoint allSettled (paths : list string) : M (list val) :=
  match paths with
  | [] => retM []
  | p :: ps => r <~ safeFetch p ;; rs <~ allSettled ps ;; retM (r :: rs)
  end.

Definition allEmpty : exn := Error (VStr "Todos os endpoints retornaram vazios.").

(** The object literal given to [setData]; its fields are evaluated in
    order and any of the normalisers may throw. *)
Definition realSnapshot (categoria : string) (pat rec desp cx res prov : val)
  : result snapshot :=
  p1 <- normalizeGenericChartData pat ;;
  p2 <- normalizeGenericChartData rec ;;
  p3 <- normalizeGenericChartData desp ;;
  p4 <- normalizeGenericChartData cx ;;
  p5 <- normalizeGenericChartData res ;;
  p6 <- normalizeProventos prov ;;
  Ret {| patrimonio := p1; receitas := p2; despesas := p3; caixa := p4;
         resultado := p5; proventos := p6; isMock := false;
         categoria := categoriaLabel categoria |}.

Definition searchPath (ticker : string) : string := "/home/mainsearchquery?q=" ++ ticker.

(** The [try] block of [fetchFinancialData]: the snapshot given to
    [setData], or what was thrown. *)
Definition fetchReal (ticker : string) : M snapshot :=
  searchData <~ proxyFetch (searchPath ticker) ;;
  categoria <~ liftM (inferCategoria searchData) ;;
  results <~ allSettled (endpoints categoria ticker) ;;
  let pat := nth 0 results VUndefined in
  let rec := nth 1 results VUndefined in
  let desp := nth 2 results VUndefined in
  let cx := nth 3 results VUndefined in
  let res := nth 4 results VUndefined in
  let prov := nth 5 results VUndefined in
  let allNull := forallb isEmptyResult [pat; rec; desp; cx; res; prov] in
  if allNull then throwM allEmpty
  else liftM (realSnapshot categoria pat rec desp cx res prov).

(** The state of the component: [error] is [None] for the empty message and
    [Some e] for the notice built from [e.message]. *)
Record ui : Type := mkUi {
  loading : bool;
  error : option exn;
  data : option snapshot;
  currentTicker : string;
}.

(** The state after the call has settled, and the requests it made. *)
Definition fetchFinancialData (tickerRaw : string) (st : ui) : ui * list string :=
  let ticker := toUpperCase (trim tickerRaw) in
  if String.eqb ticker "" then (st, [])
  else
    let st1 := mkUi true None None ticker in
    match fetchReal ticker [] with
    | (Ret snap, tr) =>
        (mkUi false (error st1) (Some snap) (currentTicker st1), tr)
    | (Throw err, tr) =>
        (mkUi false (Some err) (Some (generateMockData (random w) ticker))
           (currentTicker st1), tr)
    end.

End Fetch.

End App.

(* ================================================================= *)
(** ** api/proxy.js *)

Module Proxy.

(** [req.query.url] as the platform delivers it, already percent-decoded:
    absent, one string, or an array when the parameter is repeated. *)
Inductive param : Type :=
| Absent
| Single (s : string)
| Repeated (l : list string).

Definition param_truthy (p : param) : bool :=
  match p with
  | Absent => false
  | Single s => negb (String.eqb s EmptyString)
  | Repeated _ => true
  end.

(** The string [new URL], [fetch] and a template literal make of it. *)
Definition param_string (p : param) : string :=
  match p with
  | Absent => "undefined"
  | Single s => s
  | Repeated l => join "," l
  end.

Record request : Type := mkRequest {
  method : string;
  query_url : param;
}.

(** How [response.text()] settles. *)
Inductive body : Type :=
| Text (rawText : string)
| Unreadable (message : string).

(** How the outbound [fetch] settles. *)
Inductive upstream : Type :=
| Failed (message : string)
| Responded (status : nat) (contentType : option string) (content : body).

(** What the handler sends back: the status, the headers it set itself
    with [setHeader], and the JSON body ([None] for [end()]). *)
Record response : Type := mkResponse {
  status : nat;
  headers : list (string * string);
  payload : option val;
}.

(** An outbound call: the URL and the request headers of its options
    ([method: 'GET'] in both variants). *)
Record call : Type := mkCall {
  target : string;
  sent : list (string * string);
}.

Definition setHeader (k v : string) (hs : list (string * string)) : list (string * string) :=
  (filter (fun kv => negb (String.eqb (fst kv) k)) hs ++ [(k, v)])%list.

Definition cors : list (string * string) :=
  setHeader "Access-Control-Allow-Headers" "Content-Type"
    (setHeader "Access-Control-Allow-Methods" "GET, OPTIONS"
       (setHeader "Access-Control-Allow-Origin" "*" [])).

Definition userAgent : string :=
  "Mozilla/5.0 (Windows NT 10.0; Win64; x64) AppleWebKit/537.36 (KHTML, like Gecko) Chrome/124.0.0.0 Safari/537.36".

Definition secChUa : string :=
  dquote ++ "Chromium" ++ dquote ++ ";v=" ++ dquote ++ "124" ++ dquote ++ ", "
  ++ dquote ++ "Google Chrome" ++ dquote ++ ";v=" ++ dquote ++ "124" ++ dquote ++ ", "
  ++ dquote ++ "Not-A.Brand" ++ dquote ++ ";v=" ++ dquote ++ "99" ++ dquote.

Definition browserHeaders : list (string * string) :=
  [("User-Agent", userAgent);
   ("Accept", "application/json, text/plain, */*");
   ("Accept-Language", "pt-BR,pt;q=0.9");
   ("Accept-Encoding", "gzip, deflate, br");
   ("Referer", "https://statusinvest.com.br/");
   ("Origin", "https://statusinvest.com.br");
   ("X-Requested-With", "XMLHttpRequest");
   ("sec-ch-ua", secChUa);
   ("sec-ch-ua-mobile", "?0");
   ("sec-ch-ua-platform", dquote ++ "Windows" ++ dquote);
   ("Sec-Fetch-Dest", "empty");
   ("Sec-Fetch-Mode", "cors");
   ("Sec-Fetch-Site", "same-origin");
   ("Cache-Control", "no-cache")].

Definition json (st : nat) (hs : list (string * string)) (fields : list (string * val))
  : response :=
  mkResponse st hs (Some (VObj fields)).

(** The test for a challenge page. *)
Definition looksBlocked (st : nat) (contentType rawText : string) : bool :=
  negb (App.ok st)
  || includes contentType "text/html"
  || startsWith (trimStart rawText) "<!"
  || startsWith (trimStart rawText) "<html".

Section Handler.
Context {host : Host} (net : string -> upstream).

(** The second [try] block, once the target is validated. *)
Definition relayTo (targetUrl : string) : response * list call :=
  let made := [mkCall targetUrl browserHeaders] in
  match net targetUrl with
  | Failed message =>
      (json 500 cors [("error", VStr "Erro interno no proxy."); ("details", VStr message)],
       made)
  | Responded st ct content =>
      let contentType := match ct with Some c => c | None => EmptyString end in
      match content with
      | Unreadable message =>
          (json 500 cors [("error", VStr "Erro interno no proxy."); ("details", VStr message)],
           made)
      | Text rawText =>
          if looksBlocked st contentType rawText then
            (json 503 cors
               [("error", VStr "StatusInvest devolveu HTML (possível bloqueio Cloudflare).");
                ("httpStatus", VNum (float_of_nat st));
                ("preview", VStr (slice0 200 rawText))],
             made)
          else
            match JSON_parse rawText with
            | None =>
                (json 502 cors
                   [("error", VStr "Resposta não é JSON válido.");
                    ("preview", VStr (slice0 200 rawText))],
                 made)
            | Some data =>
                (mkResponse 200
                   (setHeader "Content-Type" "application/json"
                      (setHeader "Cache-Control" "s-maxage=300, stale-while-revalidate=60" cors))
                   (Some data),
                 made)
            end
      end
  end.

(** The response and the outbound calls made, in order. *)
Definition handler (req : request) : response * list call :=
  if String.eqb (method req) "OPTIONS" then (mkResponse 200 cors None, [])
  else
    let url := query_url req in
    if negb (param_truthy url) then
      (json 400 cors
         [("error", VStr ("Parâmetro " ++ dquote ++ "url" ++ dquote ++ " obrigatório."))], [])
    else
      let targetUrl := url in
      match hostname_of (param_string targetUrl) with
      | None =>
          (json 400 cors [("error", VStr ("URL inválido: " ++ param_string url))], [])
      | Some hostname =>
          if negb (endsWith hostname "statusinvest.com.br") then
            (json 403 cors [("error", VStr "Domínio não permitido.")], [])
          else relayTo (param_string targetUrl)
      end.

End Handler.

End Proxy.

(** The older copy of the relay kept in the repository. *)
Module ProxyLegacy.

Import Proxy.

Definition browserHeaders : list (string * string) :=
  [("User-Agent", userAgent);
   ("Accept", "application/json, text/plain, */*");
   ("Accept-Language", "pt-BR,pt;q=0.9,en-US;q=0.8,en;q=0.7");
   ("Accept-Encoding", "gzip, deflate, br");
   ("Referer", "https://statusinvest.com.br/");
   ("Origin", "https://statusinvest.com.br");
   ("X-Requested-With", "XMLHttpRequest");
   ("sec-ch-ua", secChUa);
   ("sec-ch-ua-mobile", "?0");
   ("sec-ch-ua-platform", dquote ++ "Windows" ++ dquote);
   ("Sec-Fetch-Dest", "empty");
   ("Sec-Fetch-Mode", "cors");
   ("Sec-Fetch-Site", "same-origin");
   ("Cache-Control", "no-cache");
   ("Connection", "keep-alive")].

Section Handler.
Context {host : Host} (net : string -> upstream).

Definition relayTo (targetUrl : string) : response * list call :=
  let made := [mkCall targetUrl browserHeaders] in
  let internal message :=
    json 500 cors [("error", VStr "Erro interno no proxy."); ("details", VStr message)] in
  match net targetUrl with
  | Failed message => (internal message, made)
  | Responded st ct content =>
      if negb (App.ok st) then
        (json st cors
           [("error", VStr ("StatusInvest retornou " ++ decimal st));
            ("status", VNum (float_of_nat st))],
         made)
      else
        let contentType := match ct with Some c => c | None => EmptyString end in
        if includes contentType "text/html" then
          (json 503 cors
             [("error", VStr "Cloudflare challenge page detectada. Tente novamente.");
              ("blocked", VBool true)],
           made)
        else
          match content with
          | Unreadable message => (internal message, made)
          | Text rawText =>
              match JSON_parse rawText with
              | None => (internal (JSON_error rawText), made)
              | Some data =>
                  (mkResponse 200
                     (setHeader "Content-Type" "application/json"
                        (setHeader "Cache-Control" "s-maxage=300, stale-while-revalidate=60"
                           cors))
                     (Some data),
                   made)
              end
          end
  end.

Definition handler (req : request) : response * list call :=
  if String.eqb (method req) "OPTIONS" then (mkResponse 200 cors None, [])
  else
    let url := query_url req in
    if negb (param_truthy url) then
      (json 400 cors
         [("error", VStr ("Parâmetro " ++ dquote ++ "url" ++ dquote ++ " obrigatório."))], [])
    else
      match decodeURIComponent (param_string url) with
      | None => (json 400 cors [("error", VStr "URL inválido.")], [])
      | Some targetUrl =>
          match hostname_of targetUrl with
          | None => (json 400 cors [("error", VStr "URL inválido.")], [])
          | Some hostname =>
              if negb (endsWith hostname "statusinvest.com.br") then
                (json 403 cors [("error", VStr "Domínio não permitido.")], [])
              else relayTo targetUrl
          end
      end.

End Handler.

End ProxyLegacy.

(** The older copy of the client kept in the repository: the parts the
    statements below compare with. *)
Module AppLegacy.

Import App.

(** The element test of [results.every(...)]:
    [r === null || Object.keys(r).length === 0] *)
Definition isEmptyResult (r : val) : bool :=
  match r with
  | VNull => true
  | _ => (keys_count r =? 0)%nat
  end.

Section Normalize.
Context {host : Host}.

(** [new Date(d.split('/').reverse().join('-'))] as a time value. *)
Definition parse (d : val) : result (option Z) :=
  match d with
  | VStr s => Ret (Date_parse (join "-" (rev (split "/" s))))
  | _ => Throw TypeError
  end.

Definition compareByDate (a b : point) : result (option Z) :=
  ta <- parse (name a) ;;
  tb <- parse (name b) ;;
  Ret (match ta, tb with
       | Some x, Some y => Some (x - y)%Z
       | _, _ => None
       end).

Definition normalizeProventos (data : val) : result (list point) :=
  if negb (truthy data) then Ret []
  else
    models <- get data "assetEarningsModels" ;;
    if negb (truthy models) then Ret []
    else
      match models with
      | VArr l =>
          mapped <- mapM proventoItem l ;;
          Array_sort compareByDate mapped
      | _ => Throw TypeError
      end.

End Normalize.

End AppLegacy.

(* ================================================================= *)
(** ** The earnings table of the page (src/App.jsx, the render of [App]) *)

Module AppView.

Import App.

(** [l.slice(-n)]: the last [n] elements, all of them when there are
    fewer. *)
Definition slice_last {A : Type} (n : nat) (l : list A) : list A :=
  skipn (List.length l - n) l.

(** A row of the table: the label, the type tag or ['Rendimento'], and the
    value handed to the currency formatter. *)
Record row : Type := mkRow {
  date : val;
  kind : val;
  amount : float;
}.

(** [data.proventos.slice(-12).reverse().map(prov => ...)] *)
Definition tableRows (proventos : list point) : list row :=
  map (fun prov => mkRow (name prov) (js_or (type prov) (VStr "Rendimento")) (value prov))
    (rev (slice_last 12 proventos)).

(** [data.proventos && data.proventos.length > 0]: whether the table is
    rendered. *)
Definition showsTable (proventos : list point) : bool :=
  negb (List.length proventos =? 0)%nat.

End AppView.

(* ================================================================= *)
(** ** The page served through the relay

    The two files composed: a request of the page reaches [handler] through
    the platform, and what [handler] sends is what [fetch] resolves to. *)

Module Deployed.

(** A number after [JSON.stringify] and [JSON.parse]: an infinite number
    and NaN are written [null], negative zero is written [0], and every
    other number is written with the digits that read back as itself. *)
Definition wire_number (x : float) : val :=
  match PrimFloat.classify x with
  | FloatClass.PInf | FloatClass.NInf | FloatClass.NaN => VNull
  | FloatClass.NZero => VNum 0%float
  | _ => VNum x
  end.

(** [JSON.parse(JSON.stringify(v))] for a value inside an array or an
    object: [undefined] is written [null] in an array and left out of an
    object. *)
Fixpoint wire (v : val) : val :=
  match v with
  | VUndefined => VNull
  | VNull => VNull
  | VBool b => VBool b
  | VNum x => wire_number x
  | VStr s => VStr s
  | VArr l =>
      VArr ((fix elems (l : list val) : list val :=
               match l with
               | [] => []
               | e :: l' => wire e :: elems l'
               end) l)
  | VObj fields =>
      VObj ((fix members (fs : list (string * val)) : list (string * val) :=
               match fs with
               | [] => []
               | (k, VUndefined) :: fs' => members fs'
               | (k, u) :: fs' => (k, wire u) :: members fs'
               end) fields)
  end.

(** The body that [res.json(v)] sends, as [res.json()] reads it on the
    other side; for [undefined] nothing is sent and the read fails. *)
Definition serialised (v : val) : option val :=
  match v with
  | VUndefined => None
  | _ => Some (wire v)
  end.

(** The response of the relay as the page's [fetch] sees it: the status,
    and the body that [res.json()] parses, none after [end()].  The relay
    writes its value with [JSON.stringify] and the page parses the text
    again. *)
Definition reply_of (r : Proxy.response) : App.reply :=
  App.Response (Proxy.status r)
    (match Proxy.payload r with
     | Some v => serialised v
     | None => None
     end).

Section Deployed.
Context {host : Host}.
(** The upstream site. *)
Context (net : string -> Proxy.upstream).
(** The platform: the request that the function receives for a URL the page
    fetches, its query string parsed and decoded; [None] when the URL is
    not routed to the function. *)
Context (deliver : string -> option Proxy.request).

Definition relayed (url : string) : App.reply :=
  match deliver url with
  | Some req => reply_of (fst (Proxy.handler net req))
  | None => App.Rejected
  end.

Definition world (rnd : nat -> float) : App.World := App.mkWorld relayed rnd.

End Deployed.

End Deployed.

(* ================================================================= *)
(** ** A host to run the model on examples

    ASCII upper-casing, percent-encoding of ASCII text, URLs of the form
    [scheme://host/...], three JSON texts.  The statements below hold for
    every host; this one evaluates them on concrete inputs. *)

Module Example.

Definition upper (a : ascii) : ascii :=
  let n := nat_of_ascii a in
  if ((97 <=? n) && (n <=? 122))%nat then ascii_of_nat (n - 32) else a.

Fixpoint upperCase (s : string) : string :=
  match s with
  | EmptyString => EmptyString
  | String a s' => String (upper a) (upperCase s')
  end.

Definition unreserved (a : ascii) : bool :=
  let n := nat_of_ascii a in
  ((48 <=? n) && (n <=? 57) || (65 <=? n) && (n <=? 90) || (97 <=? n) && (n <=? 122))%nat
  || includes "-_.!~*'()" (String a EmptyString).

Definition hex_digit (n : nat) : ascii :=
  ascii_of_nat (if (n <? 10)%nat then 48 + n else 55 + n).

Fixpoint encode (s : string) : string :=
  match s with
  | EmptyString => EmptyString
  | String a s' =>
      if unreserved a then String a (encode s')
      else
        let n := nat_of_ascii a in
        String "%" (String (hex_digit (n / 16)) (String (hex_digit (n mod 16)) (encode s')))
  end.

Definition hex_value (a : ascii) : option nat :=
  let n := nat_of_ascii a in
  if ((48 <=? n) && (n <=? 57))%nat then Some (n - 48)
  else if ((65 <=? n) && (n <=? 70))%nat then Some (n - 55)
  else if ((97 <=? n) && (n <=? 102))%nat then Some (n - 87)
  else None.

Fixpoint decode (s : string) : option string :=
  match s with
  | EmptyString => Some EmptyString
  | String a s' =>
      if Ascii.eqb a "%" then
        match s' with
        | String h (String l s'') =>
            match hex_value h, hex_value l, decode s'' with
            | Some x, Some y, Some r => Some (String (ascii_of_nat (16 * x + y)) r)
            | _, _, _ => None
            end
        | _ => None
        end
      else
        match decode s' with
        | Some r => Some (String a r)
        | None => None
        end
  end.

Fixpoint after_scheme (s : string) : option string :=
  match s with
  | EmptyString => None
  | String _ s' =>
      if String.prefix "://" s then Some (String.substring 3 (String.length s - 3) s)
      else after_scheme s'
  end.

Fixpoint authority (s : string) : string :=
  match s with
  | EmptyString => EmptyString
  | String a s' =>
      if (Ascii.eqb a "/" || Ascii.eqb a "?" || Ascii.eqb a "#")%bool then EmptyString
      else String a (authority s')
  end.

Definition hostname (s : string) : option string :=
  match after_scheme s with
  | Some rest => Some (authority rest)
  | None => None
  end.

Definition parseJSON (s : string) : option val :=
  if String.eqb s "null" then Some VNull
  else if String.eqb s "[]" then Some (VArr [])
  else if String.eqb s "{}" then Some (VObj [])
  else None.

Definition host : Host :=
  {| NumberToString := fun _ => "NaN";
     StringToNumber := fun s => match digits s with Some z => float_of_Z z | None => NaN end;
     toUpperCase := upperCase;
     encodeURIComponent := encode;
     decodeURIComponent := decode;
     Date_parse_other := fun _ => None;
     URL_hostname := hostname;
     JSON_parse := parseJSON;
     JSON_error := fun _ => "Unexpected token" |}.

End Example.

(* ================================================================= *)
(** ** Vocabulary of the statements *)

(** The day, month and year written in a string of the form [DD/MM/YYYY]:
    ten characters, two slashes, digits elsewhere. *)
Definition dmy (s : string) : option (Z * Z * Z) :=
  if ((String.length s =? 10)%nat
      && String.eqb (String.substring 2 1 s) "/"
      && String.eqb (String.substring 5 1 s) "/")
  then
    match digits (String.substring 0 2 s),
          digits (String.substring 3 2 s),
          digits (String.substring 6 4 s) with
    | Some d, Some m, Some y => Some (d, m, y)
    | _, _, _ => None
    end
  else None.

(** A calendar date. *)
Definition is_date (d m y : Z) : Prop :=
  (1 <= m <= 12 /\ 1 <= d <= days_in_month y m)%Z.

(** The date [y]-[m]-[d] is earlier than [y']-[m']-[d']. *)
Definition before (y m d y' m' d' : Z) : Prop :=
  (y < y' \/ (y = y' /\ (m < m' \/ (m = m' /\ d < d'))))%Z.

(** The days in the years before the year after [Y], counted from year 0. *)
Definition year_days (Y : Z) : Z := (365 * Y + Y / 4 - Y / 100 + Y / 400)%Z.

(** The number of a day within its year, from 0. *)
Definition ordinal (y m d : Z) : Z := (days_from_civil y m d - days_from_civil y 1 1)%Z.

(** Ascending order of keys, and the elements of a given key. *)
Definition by_key {A : Type} (key : A -> Z) (a b : A) : Prop := (key a <= key b)%Z.

Definition has_key {A : Type} (key : A -> Z) (k : Z) (a : A) : bool := (key a =? k)%Z.

(** The computation throws a TypeError or nothing. *)
Definition only_TypeError {A : Type} (r : result A) : Prop :=
  forall e, r = Throw e -> e = TypeError.

(** A slot that [allNull] counts as failed. *)
Definition failed_slot (r : val) : Prop := r = VNull \/ r = VObj [].

(** The host [h] with another [decodeURIComponent]. *)
Definition with_decode (dec : string -> option string) (h : Host) : Host :=
  {| NumberToString := @NumberToString h;
     StringToNumber := @StringToNumber h;
     toUpperCase := @toUpperCase h;
     encodeURIComponent := @encodeURIComponent h;
     decodeURIComponent := dec;
     Date_parse_other := @Date_parse_other h;
     URL_hostname := @URL_hostname h;
     JSON_parse := @JSON_parse h;
     JSON_error := @JSON_error h |}.

(** What the handler tests of an upstream response, as a proposition. *)
Definition challenge (st : nat) (ct : option string) (rawText : string) : Prop :=
  App.ok st = false
  \/ includes (match ct with Some c => c | None => EmptyString end) "text/html" = true
  \/ startsWith (trimStart rawText) "<!" = true
  \/ startsWith (trimStart rawText) "<html" = true.

(** The component before any query, and a source of draws, for examples. *)
Definition idle : App.ui := App.mkUi false None None EmptyString.

Definition half : nat -> float := fun _ => 0.5%float.

(** A relay that answers every request with status 200 and the body [v],
    and one that cannot be reached. *)
Definition answering (v : val) : App.World :=
  App.mkWorld (fun _ => App.Response 200 (Some v)) half.

Definition unreachable : App.World := App.mkWorld (fun _ => App.Rejected) half.

(** An earnings record with a label, for examples. *)
Definition earning (ed : string) : val := VObj [("ed", VStr ed); ("v", VNum 1%float)].

(** The value of a header of an answer. *)
Definition header (k : string) (r : Proxy.response) : option string :=
  match find (fun kv => String.eqb (fst kv) k) (Proxy.headers r) with
  | Some kv => Some (snd kv)
  | None => None
  end.

(** A platform for examples: a URL under [/api/proxy?url=] reaches the
    function as a GET whose [url] parameter is the rest of it, decoded. *)
Definition routing (url : string) : option Proxy.request :=
  if String.prefix "/api/proxy?url=" url then
    match Example.decode (String.substring 15 (String.length url - 15) url) with
    | Some t => Some (Proxy.mkRequest "GET" (Proxy.Single t))
    | None => None
    end
  else None.

(** An upstream that answers every call with the JSON text [body], and one
    that answers every call with a challenge page. *)
Definition serving (body : string) : string -> Proxy.upstream :=
  fun _ => Proxy.Responded 200 (Some "application/json") (Proxy.Text body).

Definition blocking : string -> Proxy.upstream :=
  fun _ => Proxy.Responded 403 (Some "text/html; charset=UTF-8")
             (Proxy.Text "<!DOCTYPE html><title>Just a moment...</title>").

(** The test for a challenge page in the words of the specification: the
    status is no success, the content type holds the markup type, or the
    body begins, after white space, with a doctype or an html tag. *)
Definition success (st : nat) : Prop := (200 <= st <= 299)%nat.

Definition occurs_in (p s : string) : Prop :=
  exists before after : string, s = (before ++ p ++ after)%string.

(** TAB, LF, VT, FF, CR, SP and NBSP. *)
Definition white (a : ascii) : Prop :=
  In (nat_of_ascii a) [9; 10; 11; 12; 13; 32; 160]%nat.

Definition begins_after_white (p s : string) : Prop :=
  exists ws rest : string,
    (forall i c, String.get i ws = Some c -> white c) /\ s = (ws ++ p ++ rest)%string.

Definition markup (st : nat) (ct : option string) (rawText : string) : Prop :=
  ~ success st
  \/ (exists c, ct = Some c /\ occurs_in "text/html" c)
  \/ begins_after_white "<!" rawText
  \/ begins_after_white "<html" rawText.

(** A value that [Number] converts without calling a method of it. *)
Definition primitive (v : val) : bool :=
  match v with
  | VArr _ | VObj _ => false
  | _ => true
  end.

(** A value that serialisation gives back as it is: it holds no
    [undefined], and its numbers are finite and no negative zero. *)
Definition plain_number (x : float) : bool :=
  match PrimFloat.classify x with
  | FloatClass.PInf | FloatClass.NInf | FloatClass.NaN | FloatClass.NZero => false
  | _ => true
  end.

Fixpoint plain (v : val) : bool :=
  match v with
  | VUndefined => false
  | VNull | VBool _ | VStr _ => true
  | VNum x => plain_number x
  | VArr l => forallb plain l
  | VObj fields =>
      (fix members (fs : list (string * val)) : bool :=
         match fs with
         | [] => true
         | (_, u) :: fs' => plain u && members fs'
         end) fields
  end.

(* ================================================================= *)
(** * Properties *)

(** ** The fallback generator *)

Lemma length_yearly_from (f : nat -> float -> float) (rnd : nat -> float) (ys : list string) :
  forall k i, List.length (App.yearly_from f rnd k i ys) = List.length ys.
Proof.
  induction ys as [|y ys IH]; intros k i; simpl.
  - reflexivity.
  - now rewrite IH.
Qed.

Lemma length_yearly (f : nat -> float -> float) (rnd : nat -> float) (k : nat) :
  List.length (App.yearly f rnd k) = 6%nat.
Proof. unfold App.yearly. now rewrite length_yearly_from. Qed.

Lemma length_monthly (fii : bool) (rnd : nat -> float) (ms : list string) :
  forall k, List.length (App.monthly fii rnd k ms) = List.length ms.
Proof.
  induction ms as [|m ms IH]; intros k; simpl.
  - reflexivity.
  - destruct fii; [|destruct (PrimFloat.ltb _ _)]; simpl; now rewrite IH.
Qed.

(** C9. For every ticker and every sequence of random draws the generated
    snapshot is marked synthetic, each of the five monetary series has
    exactly 6 points and the earnings series exactly 12; the category is
    FII when the ticker has length 6 and ends in "11", and the equity
    category otherwise. *)
Theorem generateMockData_shape : forall (rnd : nat -> float) (ticker : string),
  let s := App.generateMockData rnd ticker in
  App.isMock s = true
  /\ List.length (App.patrimonio s) = 6%nat
  /\ List.length (App.receitas s) = 6%nat
  /\ List.length (App.despesas s) = 6%nat
  /\ List.length (App.caixa s) = 6%nat
  /\ List.length (App.resultado s) = 6%nat
  /\ List.length (App.proventos s) = 12%nat
  /\ (String.length ticker = 6%nat -> endsWith ticker "11" = true ->
      App.categoria s = "FII")
  /\ (~ (String.length ticker = 6%nat /\ endsWith ticker "11" = true) ->
      App.categoria s = "AÇÃO").
Proof.
  intros rnd ticker s. subst s. unfold App.generateMockData.
  cbn [App.isMock App.patrimonio App.receitas App.despesas App.caixa App.resultado
       App.proventos App.categoria].
  rewrite !length_yearly, length_monthly.
  repeat split; try reflexivity.
  - intros Hlen Hend. unfold App.isFii. rewrite Hlen, Hend. reflexivity.
  - intros Hno. unfold App.isFii.
    destruct (String.length ticker =? 6)%nat eqn:Hlen; simpl; [|reflexivity].
    destruct (endsWith ticker "11") eqn:Hend; [|reflexivity].
    exfalso. apply Hno. split; [now apply Nat.eqb_eq | reflexivity].
Qed.

(** The ticker of the specification's end-to-end example. *)
Example generateMockData_MXRF11 : forall rnd : nat -> float,
  App.categoria (App.generateMockData rnd "MXRF11") = "FII"
  /\ App.categoria (App.generateMockData rnd "PETR4") = "AÇÃO"
  /\ App.categoria (App.generateMockData rnd "XYZW12") = "AÇÃO"
  /\ App.categoria (App.generateMockData rnd "TAEE11B") = "AÇÃO".
Proof. intros rnd. repeat split. Qed.

(* ----------------------------------------------------------------- *)
(** ** normalizeGenericChartData *)

Section NormalizeSeries.
Context {host : Host}.

Lemma normalize_falsy (data : val) :
  truthy data = false -> App.normalizeGenericChartData data = Ret [].
Proof. intros H. unfold App.normalizeGenericChartData. now rewrite H. Qed.

(** Values without structure fall through both shape tests. *)
Lemma normalize_primitive (data : val) :
  match data with VArr _ | VObj _ => False | _ => True end ->
  App.normalizeGenericChartData data = Ret [].
Proof.
  destruct data as [| |b|x|s|l|fs]; intros H; try contradiction; try reflexivity;
    unfold App.normalizeGenericChartData.
  - destruct b; reflexivity.
  - destruct (negb (truthy (VNum x))); reflexivity.
  - destruct (negb (truthy (VStr s))); reflexivity.
Qed.

Lemma normalize_empty_array : App.normalizeGenericChartData (VArr []) = Ret [].
Proof. reflexivity. Qed.

Lemma normalize_array_falsy_head (e0 : val) (rest : list val) (a b : val) :
  get e0 "date" = Ret a -> truthy a = false ->
  get e0 "d" = Ret b -> truthy b = false ->
  App.normalizeGenericChartData (VArr (e0 :: rest)) = Ret [].
Proof.
  intros Ha Hfa Hb Hfb.
  unfold App.normalizeGenericChartData, App.isDatedArray, App.or_else. simpl.
  rewrite Ha. simpl. rewrite Hfa, Hb. simpl. rewrite Hfb. reflexivity.
Qed.

(** C10 (as amended). The array shape is decided on element 0 alone: a
    non-empty array whose element 0 is not [null] and has neither a [date]
    nor a [d] field normalises to the empty sequence whatever the later
    elements hold, and so does the empty array; an element 0 that is
    [null] has no field to read, and the function throws a TypeError
    whatever the later elements hold. *)
Theorem normalize_array_decided_by_first (e0 : val) (rest : list val) :
  get e0 "date" = Ret VUndefined ->
  get e0 "d" = Ret VUndefined ->
  App.normalizeGenericChartData (VArr (e0 :: rest)) = Ret []
  /\ App.normalizeGenericChartData (VArr []) = Ret []
  /\ (forall (first : val) (later : list val),
        nullish first = true ->
        App.normalizeGenericChartData (VArr (first :: later)) = Throw TypeError).
Proof.
  intros Hdate Hd. split; [|split].
  - now apply (normalize_array_falsy_head e0 rest VUndefined VUndefined).
  - apply normalize_empty_array.
  - intros first later Hn. destruct first; try discriminate Hn; reflexivity.
Qed.

(** A dated first element selects the first shape, for every element. *)
Lemma normalize_dated_array (e0 : val) (rest : list val) (a : val) :
  get e0 "date" = Ret a -> truthy a = true ->
  App.normalizeGenericChartData (VArr (e0 :: rest)) = mapM App.chartItem (e0 :: rest).
Proof.
  intros Ha Hta.
  unfold App.normalizeGenericChartData, App.isDatedArray, App.or_else.
  cbn [truthy negb]. rewrite Ha. cbn [bind]. rewrite Hta. cbn [bind]. rewrite Hta.
  reflexivity.
Qed.

Lemma mapiM_from_total {A B : Type} (f : A -> nat -> result B) (g : A -> nat -> B)
  (l : list A) :
  (forall a i, f a i = Ret (g a i)) ->
  forall k, exists out,
    mapiM_from k f l = Ret out
    /\ List.length out = List.length l
    /\ forall j a, nth_error l j = Some a -> nth_error out j = Some (g a (k + j)%nat).
Proof.
  intros Hf. induction l as [|x l IH]; intros k.
  - exists []. repeat split. intros [|j] a H; discriminate.
  - destruct (IH (S k)) as (out & Hout & Hlen & Hnth).
    exists (g x k :: out). simpl. rewrite Hf. simpl. rewrite Hout. simpl.
    repeat split.
    + now rewrite Hlen.
    + intros [|j] a H; simpl in *.
      * inversion H; subst. now rewrite Nat.add_0_r.
      * rewrite (Hnth j a H). f_equal. f_equal. lia.
Qed.

(** The test of the second shape on an object. *)
Lemma hasCategoriesAndSeries_shape (fields : list (string * val)) (cats : list val)
  (s0 : val) (more : list val) :
  lookup "categories" fields = VArr cats ->
  lookup "series" fields = VArr (s0 :: more) ->
  App.hasCategoriesAndSeries (VObj fields) = Ret true.
Proof.
  intros Hc Hs. unfold App.hasCategoriesAndSeries. simpl. rewrite Hc, Hs. reflexivity.
Qed.

(** C4 (as amended). On a payload of the categories/series shape the
    result has one element per category: its length is the length of
    [categories], element [i] is labelled [String(categories[i])] and
    valued [Number(series[0].data[i] ?? 0)], which is 0 at every index
    beyond the end of the data. *)
Theorem normalize_categories_series (fields : list (string * val)) (cats : list val)
  (s0 : val) (more values : list val) :
  lookup "categories" fields = VArr cats ->
  lookup "series" fields = VArr (s0 :: more) ->
  get s0 "data" = Ret (VArr values) ->
  exists out,
    App.normalizeGenericChartData (VObj fields) = Ret out
    /\ List.length out = List.length cats
    /\ (forall i cat, nth_error cats i = Some cat ->
          nth_error out i =
            Some (App.mkPoint (VStr (ToString cat))
                    (ToNumber (js_coalesce (nth i values VUndefined) (VNum 0%float)))
                    VUndefined))
    /\ (forall i cat, nth_error cats i = Some cat -> (List.length values <= i)%nat ->
          nth_error out i = Some (App.mkPoint (VStr (ToString cat)) 0%float VUndefined)).
Proof.
  intros Hc Hs Hd.
  pose (g := fun (cat : val) (i : nat) =>
               App.mkPoint (VStr (ToString cat))
                 (ToNumber (js_coalesce (nth i values VUndefined) (VNum 0%float)))
                 VUndefined).
  destruct (mapiM_from_total (App.seriesItem (VArr values)) g cats
              (fun a i => eq_refl) 0) as (out & Hout & Hlen & Hnth).
  exists out.
  assert (Hrun : App.normalizeGenericChartData (VObj fields) = Ret out).
  { unfold App.normalizeGenericChartData.
    rewrite (hasCategoriesAndSeries_shape fields cats s0 more Hc Hs).
    cbn [truthy negb App.isDatedArray bind get get_index nth].
    rewrite Hc, Hs. cbn [bind nth get_index]. rewrite Hd. cbn [bind]. exact Hout. }
  split; [exact Hrun | split; [exact Hlen | split]].
  - intros i cat Hi. exact (Hnth i cat Hi).
  - intros i cat Hi Hover. rewrite (Hnth i cat Hi). unfold g. cbn [Nat.add].
    now rewrite (nth_overflow values VUndefined Hover).
Qed.

(** C5. An object with categories and a series whose first element has no
    [data]: reading an index of the missing array throws. *)
Theorem normalize_series_without_data_throws :
  App.normalizeGenericChartData
    (VObj [("categories", VArr [VStr "2020"]); ("series", VArr [VObj []])])
  = Throw TypeError.
Proof. reflexivity. Qed.

(** The other inputs that are neither shape and throw all the same: a
    [null] first element, and categories that are not an array. *)
Lemma normalize_null_head_throws (rest : list val) :
  App.normalizeGenericChartData (VArr (VNull :: rest)) = Throw TypeError.
Proof. reflexivity. Qed.

Lemma normalize_categories_not_array_throws (data : list val) :
  App.normalizeGenericChartData
    (VObj [("categories", VStr "2020"); ("series", VArr [VObj [("data", VArr data)]])])
  = Throw TypeError.
Proof. reflexivity. Qed.

(** With no category the callback never runs and the missing array is
    never read. *)
Lemma normalize_no_category (s0 : val) (more : list val) (fields : list (string * val)) :
  lookup "categories" fields = VArr [] ->
  lookup "series" fields = VArr (s0 :: more) ->
  s0 <> VNull -> s0 <> VUndefined ->
  App.normalizeGenericChartData (VObj fields) = Ret [].
Proof.
  intros Hc Hs Hn Hu. unfold App.normalizeGenericChartData.
  rewrite (hasCategoriesAndSeries_shape fields [] s0 more Hc Hs).
  cbn [truthy negb App.isDatedArray bind get get_index nth].
  rewrite Hc, Hs. cbn [bind nth get_index].
  destruct s0; try contradiction; reflexivity.
Qed.

End NormalizeSeries.

(** C4, against the sentence of the specification: two categories and one value give
    two elements, not the one of the shorter array, under every host. *)
Lemma normalize_pads_short_series :
  ~ exists (host : Host) (out : list App.point),
      App.normalizeGenericChartData
        (VObj [("categories", VArr [VStr "2019"; VStr "2020"]);
               ("series", VArr [VObj [("data", VArr [VNum 10%float])]])])
      = Ret out
      /\ List.length out = Nat.min 2 1.
Proof.
  intros (host & out & Hrun & Hlen).
  cbv in Hrun. inversion Hrun; subst out. discriminate Hlen.
Qed.

Lemma normalize_categories_series_witness :
  exists out,
    App.normalizeGenericChartData (host := Example.host)
      (VObj [("categories", VArr [VStr "2019"; VStr "2020"]);
             ("series", VArr [VObj [("data", VArr [VNum 10%float])]])])
    = Ret out
    /\ List.length out = 2%nat
    /\ (forall i cat, nth_error [VStr "2019"; VStr "2020"] i = Some cat ->
          nth_error out i =
            Some (App.mkPoint (VStr (ToString (host := Example.host) cat))
                    (ToNumber (host := Example.host)
                       (js_coalesce (nth i [VNum 10%float] VUndefined) (VNum 0%float)))
                    VUndefined))
    /\ (forall i cat, nth_error [VStr "2019"; VStr "2020"] i = Some cat -> (1 <= i)%nat ->
          nth_error out i =
            Some (App.mkPoint (VStr (ToString (host := Example.host) cat)) 0%float VUndefined)).
Proof.
  apply (@normalize_categories_series Example.host
           [("categories", VArr [VStr "2019"; VStr "2020"]);
            ("series", VArr [VObj [("data", VArr [VNum 10%float])]])]
           [VStr "2019"; VStr "2020"] (VObj [("data", VArr [VNum 10%float])]) []
           [VNum 10%float]); reflexivity.
Defined.

Lemma normalize_array_decided_by_first_witness :
  App.normalizeGenericChartData (host := Example.host)
    (VArr [VObj [("year", VStr "2019"); ("value", VNum 1%float)];
           VObj [("date", VStr "2020"); ("value", VNum 2%float)]]) = Ret []
  /\ App.normalizeGenericChartData (host := Example.host) (VArr []) = Ret []
  /\ App.normalizeGenericChartData (host := Example.host)
       (VArr [VNull; VObj [("date", VStr "2020"); ("value", VNum 2%float)]])
     = Throw TypeError.
Proof.
  destruct (@normalize_array_decided_by_first Example.host
              (VObj [("year", VStr "2019"); ("value", VNum 1%float)])
              [VObj [("date", VStr "2020"); ("value", VNum 2%float)]] eq_refl eq_refl)
    as (Hfirst & Hempty & Hnull).
  split; [exact Hfirst|]. split; [exact Hempty|].
  apply Hnull. reflexivity.
Defined.

(** C10, against the sentence as first stated: [null] has neither field, and
    the array that starts with it is not normalised to the empty sequence,
    under any host: reading a field of [null] throws. *)
Lemma null_first_element_is_not_dropped :
  ~ exists (host : Host),
      App.normalizeGenericChartData
        (VArr [VNull; VObj [("date", VStr "2020"); ("value", VNum 2%float)]])
      = Ret [].
Proof. intros (host & H). discriminate H. Qed.

(* ----------------------------------------------------------------- *)
(** ** Array.prototype.sort with a comparator that is a difference of keys *)

Section SortSpec.
Context {A : Type} (cmp : A -> A -> result (option Z)) (key : A -> Z).


Lemma insert_spec (x : A) (l : list A) :
  (forall y, In y l -> cmp y x = Ret (Some (key y - key x)%Z)) ->
  StronglySorted (by_key key) l ->
  exists out,
    insert cmp x l = Ret out
    /\ Permutation (x :: l) out
    /\ StronglySorted (by_key key) out
    /\ forall k, filter (has_key key k) out = filter (has_key key k) (x :: l).
Proof.
  induction l as [|y l IH]; intros Hcmp Hs.
  - exists [x]. repeat split; auto. repeat constructor.
  - simpl. rewrite (Hcmp y (or_introl eq_refl)). simpl.
    inversion Hs as [|? ? Hs' Hall]; subst.
    destruct (key y - key x <? 0)%Z eqn:Hlt.
    + apply Z.ltb_lt in Hlt.
      destruct IH as (out & Hout & Hperm & Hsorted & Hfilter);
        [intros z Hz; apply Hcmp; now right | assumption |].
      exists (y :: out). rewrite Hout. simpl. repeat split.
      * rewrite perm_swap. now constructor.
      * constructor; [assumption|].
        apply Forall_forall. intros z Hz.
        apply (Permutation_in _ (Permutation_sym Hperm)) in Hz.
        destruct Hz as [<-|Hz]; [unfold by_key; lia|].
        rewrite Forall_forall in Hall. now apply Hall.
      * intros k. specialize (Hfilter k). simpl in Hfilter. rewrite Hfilter.
        unfold has_key.
        destruct (key x =? k)%Z eqn:Hx, (key y =? k)%Z eqn:Hy; try reflexivity.
        apply Z.eqb_eq in Hx, Hy. lia.
    + apply Z.ltb_ge in Hlt.
      exists (x :: y :: l). repeat split; auto.
      constructor; [assumption|]. constructor; [unfold by_key; lia|].
      rewrite Forall_forall in *. intros z Hz. specialize (Hall z Hz).
      unfold by_key in *. lia.
Qed.

(** On elements that the comparator orders by [key], [sort] returns the
    stable sort by [key]. *)
Lemma Array_sort_spec (l : list A) :
  (forall a b, In a l -> In b l -> cmp a b = Ret (Some (key a - key b)%Z)) ->
  exists out,
    Array_sort cmp l = Ret out
    /\ Permutation l out
    /\ StronglySorted (by_key key) out
    /\ forall k, filter (has_key key k) out = filter (has_key key k) l.
Proof.
  induction l as [|x l IH]; intros Hcmp.
  - exists []. repeat split; auto. constructor.
  - destruct IH as (s & Hs & Hperm & Hsorted & Hfilter);
      [intros a b Ha Hb; apply Hcmp; now right|].
    destruct (insert_spec x s) as (out & Hout & Hperm' & Hsorted' & Hfilter').
    + intros y Hy. apply Hcmp; [right|now left].
      now apply (Permutation_in _ (Permutation_sym Hperm)).
    + assumption.
    + exists out. simpl. rewrite Hs. simpl. repeat split; try assumption.
      * now rewrite <- Hperm', <- Hperm.
      * intros k. rewrite Hfilter'. simpl. now rewrite Hfilter.
Qed.

Lemma insert_total (x : A) (l : list A) :
  (forall y, In y l -> exists c, cmp y x = Ret c) ->
  exists out, insert cmp x l = Ret out /\ Permutation (x :: l) out.
Proof.
  induction l as [|y l IH]; intros Hcmp.
  - exists [x]. split; auto.
  - simpl. destruct (Hcmp y (or_introl eq_refl)) as (c & Hc). rewrite Hc. simpl.
    destruct (sorts_before c).
    + destruct IH as (out & Hout & Hperm); [intros z Hz; apply Hcmp; now right|].
      exists (y :: out). rewrite Hout. split; [reflexivity|].
      rewrite perm_swap. now constructor.
    + exists (x :: y :: l). split; auto.
Qed.

(** A comparator that does not throw makes [sort] return a permutation. *)
Lemma Array_sort_total (l : list A) :
  (forall a b, In a l -> In b l -> exists c, cmp a b = Ret c) ->
  exists out, Array_sort cmp l = Ret out /\ Permutation l out.
Proof.
  induction l as [|x l IH]; intros Hcmp.
  - exists []. split; auto.
  - destruct IH as (s & Hs & Hperm); [intros a b Ha Hb; apply Hcmp; now right|].
    destruct (insert_total x s) as (out & Hout & Hperm').
    + intros y Hy. apply Hcmp; [right|now left].
      now apply (Permutation_in _ (Permutation_sym Hperm)).
    + exists out. simpl. rewrite Hs. simpl. split; [assumption|].
      now rewrite <- Hperm', <- Hperm.
Qed.

End SortSpec.

(* ----------------------------------------------------------------- *)
(** ** normalizeProventos *)

Lemma digit_not_slash (a : ascii) : is_digit a = true -> Ascii.eqb a "/" = false.
Proof.
  destruct a as [[] [] [] [] [] [] [] []]; intros H; try reflexivity; discriminate H.
Qed.

Lemma digits2_inv (a b : ascii) (z : Z) :
  digits (String a (String b EmptyString)) = Some z ->
  is_digit a = true /\ is_digit b = true.
Proof.
  unfold digits. cbn [digits_from].
  destruct (is_digit a); [|discriminate].
  destruct (is_digit b); [|discriminate]. auto.
Qed.

Lemma digits4_inv (a b c d : ascii) (z : Z) :
  digits (String a (String b (String c (String d EmptyString)))) = Some z ->
  is_digit a = true /\ is_digit b = true /\ is_digit c = true /\ is_digit d = true.
Proof.
  unfold digits. cbn [digits_from].
  destruct (is_digit a); [|discriminate].
  destruct (is_digit b); [|discriminate].
  destruct (is_digit c); [|discriminate].
  destruct (is_digit d); [|discriminate]. auto.
Qed.

Lemma string_length_10 (s : string) :
  String.length s = 10%nat ->
  exists c0 c1 c2 c3 c4 c5 c6 c7 c8 c9,
    s = String c0 (String c1 (String c2 (String c3 (String c4 (String c5
          (String c6 (String c7 (String c8 (String c9 EmptyString))))))))).
Proof.
  intros H.
  do 10 (destruct s as [|? s]; [discriminate H|]).
  destruct s; [|discriminate H]. repeat eexists.
Qed.

Lemma eqb_singleton (a b : ascii) :
  String.eqb (String a EmptyString) (String b EmptyString) = true -> a = b.
Proof. intros H. apply String.eqb_eq in H. now inversion H. Qed.

(** A string of the form DD/MM/YYYY splits into its three fields, which
    reassemble into the date-only form YYYY-MM-DD of the same numbers. *)
Lemma dmy_split (s : string) (d m y : Z) :
  dmy s = Some (d, m, y) ->
  exists p0 p1 p2,
    split "/" s = [p0; p1; p2]
    /\ date_only_fields (p2 ++ "-" ++ p1 ++ "-" ++ p0) = Some (y, m, d).
Proof.
  unfold dmy. intros H.
  destruct (String.length s =? 10)%nat eqn:Hlen; [|discriminate H].
  apply Nat.eqb_eq in Hlen.
  destruct (string_length_10 s Hlen) as (c0 & c1 & c2 & c3 & c4 & c5 & c6 & c7 & c8 & c9 & ->).
  cbn [String.substring andb] in H.
  destruct (String.eqb (String c2 EmptyString) "/") eqn:H2; [|discriminate H].
  destruct (String.eqb (String c5 EmptyString) "/") eqn:H5; [|discriminate H].
  apply eqb_singleton in H2, H5. subst c2 c5.
  destruct (digits (String c0 (String c1 EmptyString))) as [d'|] eqn:Hd; [|discriminate H].
  destruct (digits (String c3 (String c4 EmptyString))) as [m'|] eqn:Hm; [|discriminate H].
  destruct (digits (String c6 (String c7 (String c8 (String c9 EmptyString)))))
    as [y'|] eqn:Hy; [|discriminate H].
  inversion H; subst d' m' y'. clear H.
  destruct (digits2_inv _ _ _ Hd) as (D0 & D1).
  destruct (digits2_inv _ _ _ Hm) as (D3 & D4).
  destruct (digits4_inv _ _ _ _ _ Hy) as (D6 & D7 & D8 & D9).
  exists (String c0 (String c1 EmptyString)), (String c3 (String c4 EmptyString)),
    (String c6 (String c7 (String c8 (String c9 EmptyString)))).
  split.
  - cbn [split].
    rewrite (digit_not_slash _ D0), (digit_not_slash _ D1), (digit_not_slash _ D3),
      (digit_not_slash _ D4), (digit_not_slash _ D6), (digit_not_slash _ D7),
      (digit_not_slash _ D8), (digit_not_slash _ D9).
    reflexivity.
  - unfold date_only_fields. cbn [String.append String.length String.substring Nat.eqb andb].
    cbn [String.eqb Ascii.eqb Bool.eqb andb].
    rewrite Hd, Hm, Hy. reflexivity.
Qed.

Lemma days_in_month_le_31 (y m : Z) : (days_in_month y m <= 31)%Z.
Proof.
  unfold days_in_month.
  destruct (m =? 2)%Z; [destruct (is_leap y); lia|].
  destruct ((m =? 4) || (m =? 6) || (m =? 9) || (m =? 11))%Z; lia.
Qed.

Section Calendar.
Local Open Scope Z_scope.

Lemma days_from_civil_closed (y m d : Z) :
  days_from_civil y m d
  = year_days (if m <=? 2 then y - 1 else y)
    + (153 * ((m + 9) mod 12) + 2) / 5 + d - 1 - 719468.
Proof.
  unfold days_from_civil, year_days. cbv zeta.
  generalize (if m <=? 2 then y - 1 else y). intros Y.
  generalize ((153 * ((m + 9) mod 12) + 2) / 5). intros q.
  Z.to_euclidean_division_equations; lia.
Qed.

Lemma year_days_succ (Y : Z) :
  year_days (Y + 1) = year_days Y + (if is_leap (Y + 1) then 366 else 365).
Proof.
  unfold year_days, is_leap.
  destruct (Z.eqb_spec ((Y + 1) mod 4) 0); destruct (Z.eqb_spec ((Y + 1) mod 100) 0);
    destruct (Z.eqb_spec ((Y + 1) mod 400) 0); cbn [andb orb negb];
    (Z.to_euclidean_division_equations; lia).
Qed.

Lemma year_days_mono (Y1 Y2 : Z) : Y1 <= Y2 -> year_days Y1 <= year_days Y2.
Proof. unfold year_days. intros H. Z.to_euclidean_division_equations; lia. Qed.

Lemma month_cases (m : Z) :
  1 <= m <= 12 ->
  m = 1 \/ m = 2 \/ m = 3 \/ m = 4 \/ m = 5 \/ m = 6
  \/ m = 7 \/ m = 8 \/ m = 9 \/ m = 10 \/ m = 11 \/ m = 12.
Proof. lia. Qed.

Ltac each_month m Hm :=
  destruct (month_cases m Hm) as [->|[->|[->|[->|[->|[->|[->|[->|[->|[->|[->| ->]]]]]]]]]]].

Lemma ordinal_bounds (y m d : Z) :
  is_date d m y -> 0 <= ordinal y m d < (if is_leap y then 366 else 365).
Proof.
  intros (Hm & Hd). unfold ordinal. rewrite !days_from_civil_closed.
  pose proof (year_days_succ (y - 1)) as Hs. replace (y - 1 + 1) with y in Hs by lia.
  unfold days_in_month in Hd.
  each_month m Hm; cbn in Hd |- *; destruct (is_leap y); lia.
Qed.

Lemma ordinal_lt (y m d m' d' : Z) :
  is_date d m y -> is_date d' m' y ->
  m < m' \/ (m = m' /\ d < d') -> ordinal y m d < ordinal y m' d'.
Proof.
  intros (Hm & Hd) (Hm' & Hd') Hlt. unfold ordinal. rewrite !days_from_civil_closed.
  pose proof (year_days_succ (y - 1)) as Hs. replace (y - 1 + 1) with y in Hs by lia.
  unfold days_in_month in Hd, Hd'.
  each_month m Hm; each_month m' Hm'; cbn in Hd, Hd' |- *; destruct (is_leap y); lia.
Qed.

Lemma first_of_january_mono (y y' : Z) :
  y < y' ->
  days_from_civil y 1 1 + (if is_leap y then 366 else 365) <= days_from_civil y' 1 1.
Proof.
  intros H. rewrite !days_from_civil_closed. cbn.
  pose proof (year_days_succ (y - 1)) as Hs. replace (y - 1 + 1) with y in Hs by lia.
  pose proof (year_days_mono y (y' - 1)). lia.
Qed.

(** An earlier calendar date has a smaller day number. *)
Lemma days_from_civil_lt (y m d y' m' d' : Z) :
  is_date d m y -> is_date d' m' y' -> before y m d y' m' d' ->
  days_from_civil y m d < days_from_civil y' m' d'.
Proof.
  intros H H' [Hy|(<- & Hmd)].
  - pose proof (ordinal_bounds y m d H). pose proof (ordinal_bounds y' m' d' H').
    pose proof (first_of_january_mono y y' Hy). unfold ordinal in *. lia.
  - pose proof (ordinal_lt y m d m' d' H H' Hmd). unfold ordinal in *. lia.
Qed.

End Calendar.

Section NormalizeProventos.
Context {host : Host}.

(** A missing label has time value 0. *)
Lemma parse_missing (d : val) : truthy d = false -> App.parse d = Ret (Some 0%Z).
Proof. intros H. unfold App.parse. now rewrite H. Qed.

(** A label DD/MM/YYYY has the time value of that day, month and year. *)
Lemma parse_dmy (s : string) (d m y : Z) :
  dmy s = Some (d, m, y) -> is_date d m y ->
  App.parse (VStr s) = Ret (Some (days_from_civil y m d * msPerDay)%Z).
Proof.
  intros Hdmy ((Hm1 & Hm2) & (Hd1 & Hd2)).
  destruct (dmy_split s d m y Hdmy) as (p0 & p1 & p2 & Hsplit & Hfields).
  unfold App.parse.
  assert (Ht : truthy (VStr s) = true).
  { destruct s; [discriminate Hsplit | reflexivity]. }
  rewrite Ht, Hsplit. cbn [negb]. unfold Date_parse. rewrite Hfields.
  pose proof (days_in_month_le_31 y m) as H31.
  replace ((1 <=? m) && (m <=? 12) && (1 <=? d) && (d <=? 31))%Z with true
    by (symmetry; repeat (apply andb_true_intro; split); apply Z.leb_le; lia).
  replace (d <=? days_in_month y m)%Z with true by (symmetry; apply Z.leb_le; lia).
  reflexivity.
Qed.

(** No string makes [parse] throw. *)
Lemma parse_string (s : string) : exists t, App.parse (VStr s) = Ret t.
Proof.
  unfold App.parse. destruct (negb (truthy (VStr s))); [eauto|].
  destruct (split "/" s) as [|p0 [|p1 [|p2 [|p3 ps]]]]; eauto.
Qed.

(** Any other label that is not falsy does. *)
Lemma parse_not_string (d : val) :
  truthy d = true -> (forall s, d <> VStr s) -> App.parse d = Throw TypeError.
Proof.
  intros Ht Hs. unfold App.parse. rewrite Ht.
  destruct d; try reflexivity. now destruct (Hs s).
Qed.

Lemma parse_timeOf (p : App.point) :
  (exists t, App.parse (App.name p) = Ret (Some t)) ->
  App.parse (App.name p) = Ret (Some (App.timeOf p)).
Proof. intros (t & Ht). unfold App.timeOf. now rewrite Ht. Qed.

Lemma compareByDate_timeOf (a b : App.point) :
  (exists t, App.parse (App.name a) = Ret (Some t)) ->
  (exists t, App.parse (App.name b) = Ret (Some t)) ->
  App.compareByDate a b = Ret (Some (App.timeOf a - App.timeOf b)%Z).
Proof.
  intros Ha Hb. unfold App.compareByDate.
  rewrite (parse_timeOf a Ha), (parse_timeOf b Hb). reflexivity.
Qed.

(** The map phase on a record: the earnings date, or the payment date when
    that one is missing; the value, 0 when missing; the type tag. *)
Lemma proventoItem_object (fields : list (string * val)) :
  App.proventoItem (VObj fields)
  = Ret (App.mkPoint (js_or (lookup "ed" fields) (lookup "pd" fields))
           (ToNumber (js_or (lookup "v" fields) (VNum 0%float)))
           (lookup "et" fields)).
Proof.
  unfold App.proventoItem, App.or_else, js_or. simpl.
  destruct (truthy (lookup "ed" fields)); reflexivity.
Qed.

Lemma normalizeProventos_run (fields : list (string * val)) (models : list val)
  (mapped : list App.point) :
  lookup "assetEarningsModels" fields = VArr models ->
  mapM App.proventoItem models = Ret mapped ->
  App.normalizeProventos (VObj fields) = Array_sort App.compareByDate mapped.
Proof.
  intros Hm Hmap. unfold App.normalizeProventos. simpl. rewrite Hm. simpl.
  now rewrite Hmap.
Qed.

(** A label DD/MM/YYYY whose month is not one of 01..12, or whose day is
    not one of 01..31, is out of the bounds of the date format: NaN. *)
Lemma parse_out_of_bounds (s : string) (d m y : Z) :
  dmy s = Some (d, m, y) -> ~ (1 <= m <= 12 /\ 1 <= d <= 31)%Z ->
  App.parse (VStr s) = Ret None.
Proof.
  intros Hdmy Hout.
  destruct (dmy_split s d m y Hdmy) as (p0 & p1 & p2 & Hsplit & Hfields).
  unfold App.parse.
  assert (Ht : truthy (VStr s) = true).
  { destruct s; [discriminate Hsplit | reflexivity]. }
  rewrite Ht, Hsplit. cbn [negb]. unfold Date_parse. rewrite Hfields.
  destruct ((1 <=? m) && (m <=? 12) && (1 <=? d) && (d <=? 31))%Z eqn:Hin; [|reflexivity].
  destruct Hout.
  apply andb_true_iff in Hin. destruct Hin as (Hin & H4).
  apply andb_true_iff in Hin. destruct Hin as (Hin & H3).
  apply andb_true_iff in Hin. destruct Hin as (H1 & H2).
  apply Z.leb_le in H1, H2, H3, H4. lia.
Qed.

(** The comparator answers NaN as soon as one of the two dates is NaN. *)
Lemma compareByDate_NaN (a b : App.point) (ta tb : option Z) :
  App.parse (App.name a) = Ret ta -> App.parse (App.name b) = Ret tb ->
  ta = None \/ tb = None ->
  App.compareByDate a b = Ret None.
Proof.
  intros Ha Hb Hnan. unfold App.compareByDate. rewrite Ha, Hb. cbn [bind].
  destruct Hnan as [->| ->]; [reflexivity | now destruct ta].
Qed.

(** C3 (as amended). When every label is missing or has a time value, the
    records come back sorted ascending by it, equal dates in their original
    order; a label DD/MM/YYYY of a calendar date is read as day, month and
    year, so that an earlier date has a smaller time value, and a missing
    label has time 0; the three dates of the specification come back as
    20/12/2022, 15/01/2023, 01/03/2023; labels that are strings or missing
    never raise an error.  A label DD/MM/YYYY whose month is outside 01..12
    or whose day is outside 01..31, such as 45/13/2023, is NaN, not 0, and
    the comparator answers NaN, in either order of its arguments, as soon
    as one of its two labels is NaN. *)
Theorem normalizeProventos_sorted_by_date :
  (forall (fields : list (string * val)) (models : list val) (mapped : list App.point),
      lookup "assetEarningsModels" fields = VArr models ->
      mapM App.proventoItem models = Ret mapped ->
      (forall p, In p mapped -> exists t, App.parse (App.name p) = Ret (Some t)) ->
      exists out,
        App.normalizeProventos (VObj fields) = Ret out
        /\ Permutation mapped out
        /\ StronglySorted (fun a b => (App.timeOf a <= App.timeOf b)%Z) out
        /\ forall k, filter (fun p => (App.timeOf p =? k)%Z) out
                     = filter (fun p => (App.timeOf p =? k)%Z) mapped)
  /\ (forall (s : string) (d m y : Z),
        dmy s = Some (d, m, y) -> is_date d m y ->
        App.parse (VStr s) = Ret (Some (days_from_civil y m d * msPerDay)%Z))
  /\ (forall (s s' : string) (d m y d' m' y' : Z),
        dmy s = Some (d, m, y) -> is_date d m y ->
        dmy s' = Some (d', m', y') -> is_date d' m' y' ->
        before y m d y' m' d' ->
        exists t t',
          App.parse (VStr s) = Ret (Some t) /\ App.parse (VStr s') = Ret (Some t')
          /\ (t < t')%Z)
  /\ (forall d : val, truthy d = false -> App.parse d = Ret (Some 0%Z))
  /\ App.normalizeProventos
       (VObj [("assetEarningsModels",
               VArr [earning "01/03/2023"; earning "15/01/2023"; earning "20/12/2022"])])
     = Ret [App.mkPoint (VStr "20/12/2022") 1%float VUndefined;
            App.mkPoint (VStr "15/01/2023") 1%float VUndefined;
            App.mkPoint (VStr "01/03/2023") 1%float VUndefined]
  /\ (forall (fields : list (string * val)) (models : list val) (mapped : list App.point),
        lookup "assetEarningsModels" fields = VArr models ->
        mapM App.proventoItem models = Ret mapped ->
        (forall p, In p mapped ->
           truthy (App.name p) = false \/ exists s, App.name p = VStr s) ->
        exists out, App.normalizeProventos (VObj fields) = Ret out /\ Permutation mapped out)
  /\ App.parse (VStr "45/13/2023") = Ret None
  /\ (forall (s : string) (d m y : Z),
        dmy s = Some (d, m, y) -> ~ (1 <= m <= 12 /\ 1 <= d <= 31)%Z ->
        App.parse (VStr s) = Ret None)
  /\ (forall (a b : App.point) (ta tb : option Z),
        App.parse (App.name a) = Ret ta -> App.parse (App.name b) = Ret tb ->
        ta = None \/ tb = None ->
        App.compareByDate a b = Ret None /\ App.compareByDate b a = Ret None).
Proof.
  split; [|split; [|split; [|split; [|split; [|split; [|split; [|split]]]]]]].
  - intros fields models mapped Hm Hmap Hkeys.
    rewrite (normalizeProventos_run fields models mapped Hm Hmap).
    apply (Array_sort_spec App.compareByDate App.timeOf).
    intros a b Ha Hb. apply compareByDate_timeOf; auto.
  - exact parse_dmy.
  - intros s s' d m y d' m' y' Hs Hd Hs' Hd' Hlt.
    exists (days_from_civil y m d * msPerDay)%Z, (days_from_civil y' m' d' * msPerDay)%Z.
    split; [now apply parse_dmy|]. split; [now apply parse_dmy|].
    pose proof (days_from_civil_lt y m d y' m' d' Hd Hd' Hlt). unfold msPerDay. lia.
  - exact parse_missing.
  - reflexivity.
  - intros fields models mapped Hm Hmap Hlabels.
    rewrite (normalizeProventos_run fields models mapped Hm Hmap).
    apply Array_sort_total.
    assert (Hp : forall p, In p mapped -> exists t, App.parse (App.name p) = Ret t).
    { intros p Hin. destruct (Hlabels p Hin) as [Hf|(s & Hs)].
      - rewrite (parse_missing _ Hf). eauto.
      - rewrite Hs. apply parse_string. }
    intros a b Ha Hb. unfold App.compareByDate.
    destruct (Hp a Ha) as (ta & ->), (Hp b Hb) as (tb & ->). simpl. eauto.
  - reflexivity.
  - exact parse_out_of_bounds.
  - intros a b ta tb Ha Hb Hnan. split.
    + exact (compareByDate_NaN a b ta tb Ha Hb Hnan).
    + apply (compareByDate_NaN b a tb ta Hb Ha). tauto.
Qed.

End NormalizeProventos.

(** C3, against the sentence of the specification: a record dated 15/01/2023 followed
    by one with the malformed date 45/13/2023.  Sorted as epoch zero the
    malformed one would come first; under every host it stays last. *)
Lemma malformed_date_is_not_epoch_zero :
  ~ exists (host : Host) (out : list App.point),
      App.normalizeProventos
        (VObj [("assetEarningsModels", VArr [earning "15/01/2023"; earning "45/13/2023"])])
      = Ret out
      /\ map App.name out = [VStr "45/13/2023"; VStr "15/01/2023"].
Proof.
  intros (host & out & Hrun & Horder).
  cbv in Hrun. inversion Hrun; subst out. discriminate Horder.
Qed.

(** A label that is a number makes the comparator throw. *)
Lemma numeric_date_throws :
  forall host : Host,
    App.normalizeProventos
      (VObj [("assetEarningsModels",
              VArr [earning "15/01/2023"; VObj [("ed", VNum 20230115%float)]])])
    = Throw TypeError.
Proof. intros host. reflexivity. Qed.

(* ----------------------------------------------------------------- *)
(** ** What the normalisers can throw *)

Lemma only_Ret {A : Type} (a : A) : only_TypeError (Ret a).
Proof. intros e H. discriminate H. Qed.

Lemma only_Throw {A : Type} : only_TypeError (@Throw A TypeError).
Proof. intros e H. now inversion H. Qed.

Lemma only_bind {A B : Type} (m : result A) (k : A -> result B) :
  only_TypeError m -> (forall a, only_TypeError (k a)) -> only_TypeError (bind m k).
Proof.
  intros Hm Hk e H. destruct m as [a|e0]; simpl in H.
  - exact (Hk a e H).
  - inversion H; subst. now apply Hm.
Qed.

Lemma only_get (v : val) (k : string) : only_TypeError (get v k).
Proof. destruct v; simpl; (apply only_Ret || apply only_Throw). Qed.

Lemma only_get_index (v : val) (i : nat) : only_TypeError (get_index v i).
Proof. destruct v; simpl; (apply only_Ret || apply only_Throw). Qed.

Lemma only_length_gt_zero {host : Host} (v : val) : only_TypeError (length_gt_zero v).
Proof. destruct v; simpl; (apply only_Ret || apply only_Throw). Qed.

Lemma only_or_else (a : val) (b : result val) :
  only_TypeError b -> only_TypeError (App.or_else a b).
Proof. intros Hb. unfold App.or_else. destruct (truthy a); [apply only_Ret | exact Hb]. Qed.

Lemma only_coalesce_else (a : val) (b : result val) :
  only_TypeError b -> only_TypeError (App.coalesce_else a b).
Proof.
  intros Hb. unfold App.coalesce_else. destruct (nullish a); [exact Hb | apply only_Ret].
Qed.

Lemma only_mapM {A B : Type} (f : A -> result B) (l : list A) :
  (forall a, only_TypeError (f a)) -> only_TypeError (mapM f l).
Proof.
  intros Hf. induction l as [|a l IH]; simpl.
  - apply only_Ret.
  - apply only_bind; [apply Hf|]. intros b.
    apply only_bind; [exact IH|]. intros bs. apply only_Ret.
Qed.

Lemma only_mapiM_from {A B : Type} (f : A -> nat -> result B) (l : list A) :
  (forall a i, only_TypeError (f a i)) -> forall k, only_TypeError (mapiM_from k f l).
Proof.
  intros Hf. induction l as [|a l IH]; intros k; simpl.
  - apply only_Ret.
  - apply only_bind; [apply Hf|]. intros b.
    apply only_bind; [apply IH|]. intros bs. apply only_Ret.
Qed.

Lemma only_insert {A : Type} (cmp : A -> A -> result (option Z)) (x : A) (l : list A) :
  (forall a b, only_TypeError (cmp a b)) -> only_TypeError (insert cmp x l).
Proof.
  intros Hc. induction l as [|y l IH]; simpl.
  - apply only_Ret.
  - apply only_bind; [apply Hc|]. intros c. destruct (sorts_before c).
    + apply only_bind; [exact IH|]. intros r. apply only_Ret.
    + apply only_Ret.
Qed.

Lemma only_Array_sort {A : Type} (cmp : A -> A -> result (option Z)) (l : list A) :
  (forall a b, only_TypeError (cmp a b)) -> only_TypeError (Array_sort cmp l).
Proof.
  intros Hc. induction l as [|x l IH]; simpl.
  - apply only_Ret.
  - apply only_bind; [exact IH|]. intros s. now apply only_insert.
Qed.

Create HintDb only.

#[local] Hint Resolve only_Ret only_Throw only_get only_get_index only_or_else
  only_coalesce_else : only.

Ltac only_step :=
  match goal with
  | |- only_TypeError (bind _ _) => apply only_bind; [|intro]
  | |- only_TypeError (if ?b then _ else _) => destruct b
  | |- only_TypeError (match ?v with _ => _ end) => destruct v
  | |- _ => solve [auto with only]
  end.

Section OnlyTypeError.
Context {host : Host}.

Lemma only_chartItem (item : val) : only_TypeError (App.chartItem item).
Proof. unfold App.chartItem. repeat only_step. Qed.

Lemma only_seriesItem (seriesData cat : val) (i : nat) :
  only_TypeError (App.seriesItem seriesData cat i).
Proof. unfold App.seriesItem. repeat only_step. Qed.

Lemma only_normalizeGenericChartData (data : val) :
  only_TypeError (App.normalizeGenericChartData data).
Proof.
  unfold App.normalizeGenericChartData.
  destruct (negb (truthy data)); [apply only_Ret|].
  apply only_bind.
  { unfold App.isDatedArray. destruct data as [| | | | |[|e0 l]|];
      try apply only_Ret. repeat only_step. }
  intros dated. destruct dated.
  { destruct data; try apply only_Ret. apply only_mapM. exact only_chartItem. }
  apply only_bind.
  { unfold App.hasCategoriesAndSeries. apply only_bind; [apply only_get|].
    intros c. destruct (truthy c); [|apply only_Ret].
    apply only_bind; [apply only_get|]. intros se.
    destruct (truthy se); [apply only_length_gt_zero | apply only_Ret]. }
  intros shaped. destruct shaped; [|apply only_Ret].
  apply only_bind; [apply only_get|]. intros categories.
  apply only_bind; [apply only_get|]. intros series.
  apply only_bind; [apply only_get_index|]. intros first.
  apply only_bind; [apply only_get|]. intros seriesData.
  destruct categories; try apply only_Throw.
  apply only_mapiM_from. intros a i. apply only_seriesItem.
Qed.

Lemma only_parse (d : val) : only_TypeError (App.parse d).
Proof.
  unfold App.parse. destruct (negb (truthy d)); [apply only_Ret|].
  destruct d; try apply only_Throw.
  destruct (split "/" s) as [|p0 [|p1 [|p2 [|p3 ps]]]]; apply only_Ret.
Qed.

Lemma only_compareByDate (a b : App.point) : only_TypeError (App.compareByDate a b).
Proof.
  unfold App.compareByDate.
  apply only_bind; [apply only_parse|]. intros ta.
  apply only_bind; [apply only_parse|]. intros tb. apply only_Ret.
Qed.

Lemma only_proventoItem (item : val) : only_TypeError (App.proventoItem item).
Proof. unfold App.proventoItem. repeat only_step. Qed.

Lemma only_normalizeProventos (data : val) : only_TypeError (App.normalizeProventos data).
Proof.
  unfold App.normalizeProventos.
  destruct (negb (truthy data)); [apply only_Ret|].
  apply only_bind; [apply only_get|]. intros models.
  destruct (negb (truthy models)); [apply only_Ret|].
  destruct models; try apply only_Throw.
  apply only_bind; [apply only_mapM; exact only_proventoItem|]. intros mapped.
  apply only_Array_sort. exact only_compareByDate.
Qed.

(** Whatever the slots hold, building the snapshot throws a TypeError or
    nothing. *)
Lemma only_realSnapshot (categoria : string) (pat rec desp cx res prov : val) :
  only_TypeError (App.realSnapshot categoria pat rec desp cx res prov).
Proof.
  unfold App.realSnapshot.
  do 5 (apply only_bind; [apply only_normalizeGenericChartData|]; intro).
  apply only_bind; [apply only_normalizeProventos|]. intro. apply only_Ret.
Qed.

End OnlyTypeError.

(* ----------------------------------------------------------------- *)
(** ** fetchFinancialData *)

Lemma isEmptyResult_iff (r : val) : App.isEmptyResult r = true <-> failed_slot r.
Proof.
  unfold failed_slot. split.
  - destruct r as [| |b|x|s|l|fs]; try discriminate; auto.
    destruct fs; [auto | discriminate].
  - intros [->| ->]; reflexivity.
Qed.

Lemma forallb_isEmptyResult (l : list val) :
  forallb App.isEmptyResult l = true <-> Forall failed_slot l.
Proof.
  rewrite forallb_forall, Forall_forall.
  split; intros H r Hr; apply isEmptyResult_iff; auto.
Qed.

Lemma realSnapshot_isMock {host : Host} (categoria : string) (pat rec desp cx res prov : val)
  (snap : App.snapshot) :
  App.realSnapshot categoria pat rec desp cx res prov = Ret snap ->
  App.isMock snap = false.
Proof.
  unfold App.realSnapshot. intros H.
  destruct (App.normalizeGenericChartData pat); [|discriminate H].
  destruct (App.normalizeGenericChartData rec); [|discriminate H].
  destruct (App.normalizeGenericChartData desp); [|discriminate H].
  destruct (App.normalizeGenericChartData cx); [|discriminate H].
  destruct (App.normalizeGenericChartData res); [|discriminate H].
  destruct (App.normalizeProventos prov); [|discriminate H].
  simpl in H. inversion H. reflexivity.
Qed.

Section Aggregator.
Context {host : Host} (w : App.World).

Lemma proxyFetch_run (path : string) (tr : list string) :
  App.proxyFetch w path tr
  = (App.settle (App.relay w (App.proxyUrl path)), (tr ++ [App.proxyUrl path])%list).
Proof.
  unfold App.proxyFetch, App.bindM, App.fetch, App.liftM.
  now destruct (App.settle (App.relay w (App.proxyUrl path))).
Qed.

(** [safeFetch] never throws. *)
Lemma safeFetch_run (path : string) (tr : list string) :
  App.safeFetch w path tr = (Ret (App.slot w path), (tr ++ [App.proxyUrl path])%list).
Proof.
  unfold App.safeFetch, App.catchM, App.slot. rewrite proxyFetch_run.
  now destruct (App.settle (App.relay w (App.proxyUrl path))).
Qed.

(** All the calls are made and the batch never throws. *)
Lemma allSettled_run (paths : list string) :
  forall tr,
    App.allSettled w paths tr
    = (Ret (map (App.slot w) paths), (tr ++ map App.proxyUrl paths)%list).
Proof.
  induction paths as [|p ps IH]; intros tr; simpl.
  - unfold App.retM. now rewrite app_nil_r.
  - unfold App.bindM. rewrite safeFetch_run, IH. unfold App.retM.
    now rewrite <- app_assoc.
Qed.

(** The [try] block when the search call fails: nothing else is fetched. *)
Lemma fetchReal_search_error (ticker : string) (e : exn) :
  App.settle (App.relay w (App.proxyUrl (App.searchPath ticker))) = Throw e ->
  App.fetchReal w ticker [] = (Throw e, [App.proxyUrl (App.searchPath ticker)]).
Proof.
  intros H. unfold App.fetchReal, App.bindM. rewrite proxyFetch_run, H. reflexivity.
Qed.

(** The [try] block when the inference of the category throws. *)
Lemma fetchReal_inference_error (ticker : string) (searchData : val) (e : exn) :
  App.settle (App.relay w (App.proxyUrl (App.searchPath ticker))) = Ret searchData ->
  App.inferCategoria searchData = Throw e ->
  App.fetchReal w ticker [] = (Throw e, [App.proxyUrl (App.searchPath ticker)]).
Proof.
  intros H Hc. unfold App.fetchReal, App.bindM. rewrite proxyFetch_run, H.
  unfold App.liftM. rewrite Hc. reflexivity.
Qed.

(** The [try] block once the category is known. *)
Lemma fetchReal_run (ticker : string) (searchData : val) (cat : string) :
  App.settle (App.relay w (App.proxyUrl (App.searchPath ticker))) = Ret searchData ->
  App.inferCategoria searchData = Ret cat ->
  let slots := map (App.slot w) (App.endpoints cat ticker) in
  App.fetchReal w ticker []
  = (if forallb App.isEmptyResult slots then Throw App.allEmpty
     else App.realSnapshot cat (nth 0 slots VUndefined) (nth 1 slots VUndefined)
            (nth 2 slots VUndefined) (nth 3 slots VUndefined)
            (nth 4 slots VUndefined) (nth 5 slots VUndefined),
     App.proxyUrl (App.searchPath ticker) :: map App.proxyUrl (App.endpoints cat ticker)).
Proof.
  intros H Hc slots. unfold App.fetchReal, App.bindM. rewrite proxyFetch_run, H.
  unfold App.liftM at 1. rewrite Hc. rewrite allSettled_run. fold slots.
  replace (forallb App.isEmptyResult
             [nth 0 slots VUndefined; nth 1 slots VUndefined; nth 2 slots VUndefined;
              nth 3 slots VUndefined; nth 4 slots VUndefined; nth 5 slots VUndefined])
    with (forallb App.isEmptyResult slots) by reflexivity.
  destruct (forallb App.isEmptyResult slots); reflexivity.
Qed.

(** The state and the requests in terms of the [try] block. *)
Lemma fetchFinancialData_settled (tickerRaw : string) (st : App.ui) :
  let ticker := toUpperCase (trim tickerRaw) in
  ticker <> EmptyString ->
  App.fetchFinancialData w tickerRaw st
  = match App.fetchReal w ticker [] with
    | (Ret snap, tr) => (App.mkUi false None (Some snap) ticker, tr)
    | (Throw err, tr) =>
        (App.mkUi false (Some err) (Some (App.generateMockData (App.random w) ticker)) ticker,
         tr)
    end.
Proof.
  intros ticker Hticker. unfold App.fetchFinancialData. fold ticker.
  assert (Hneq : String.eqb ticker EmptyString = false) by now apply String.eqb_neq.
  rewrite Hneq. reflexivity.
Qed.

(** An empty ticker changes nothing and fetches nothing. *)
Lemma fetchFinancialData_empty (tickerRaw : string) (st : App.ui) :
  toUpperCase (trim tickerRaw) = EmptyString ->
  App.fetchFinancialData w tickerRaw st = (st, []).
Proof. intros H. unfold App.fetchFinancialData. now rewrite H. Qed.

(** C1 (as amended). Once the search has answered and a category is
    inferred, the aggregator declares total failure exactly when every one
    of the six slots is [null] or an object without keys, and then shows the
    synthetic snapshot; otherwise, when the six slots normalise, it shows
    their snapshot, marked not synthetic.  A slot holding an empty array
    does not count as failed. *)
Theorem aggregate_total_failure (tickerRaw : string) (st : App.ui) (searchData : val)
  (cat : string) :
  let ticker := toUpperCase (trim tickerRaw) in
  let slots := map (App.slot w) (App.endpoints cat ticker) in
  let final := fst (App.fetchFinancialData w tickerRaw st) in
  ticker <> EmptyString ->
  App.settle (App.relay w (App.proxyUrl (App.searchPath ticker))) = Ret searchData ->
  App.inferCategoria searchData = Ret cat ->
  (App.error final = Some App.allEmpty <-> Forall failed_slot slots)
  /\ (Forall failed_slot slots ->
      App.data final = Some (App.generateMockData (App.random w) ticker))
  /\ (forall snap,
        ~ Forall failed_slot slots ->
        App.realSnapshot cat (nth 0 slots VUndefined) (nth 1 slots VUndefined)
          (nth 2 slots VUndefined) (nth 3 slots VUndefined)
          (nth 4 slots VUndefined) (nth 5 slots VUndefined) = Ret snap ->
        App.data final = Some snap /\ App.isMock snap = false /\ App.error final = None)
  /\ ~ failed_slot (VArr []).
Proof.
  intros ticker slots final Hticker Hsearch Hcat.
  assert (Hfinal : final = fst (App.fetchFinancialData w tickerRaw st)) by reflexivity.
  rewrite (fetchFinancialData_settled tickerRaw st Hticker) in Hfinal. fold ticker in Hfinal.
  pose proof (fetchReal_run ticker searchData cat Hsearch Hcat) as Hrun.
  cbv zeta in Hrun. fold slots in Hrun. rewrite Hrun in Hfinal.
  pose proof (forallb_isEmptyResult slots) as Hall.
  pose proof (only_realSnapshot cat (nth 0 slots VUndefined) (nth 1 slots VUndefined)
                (nth 2 slots VUndefined) (nth 3 slots VUndefined)
                (nth 4 slots VUndefined) (nth 5 slots VUndefined)) as Honly.
  clearbody final slots. subst final.
  assert (Harr : ~ failed_slot (VArr [])) by (intros [H|H]; discriminate H).
  destruct (forallb App.isEmptyResult slots) eqn:Hb.
  - assert (Hf : Forall failed_slot slots) by now apply Hall.
    cbn [fst App.error App.data].
    split; [tauto|]. split; [reflexivity|]. split; [|exact Harr].
    intros snap Hno. contradiction.
  - assert (Hf : ~ Forall failed_slot slots).
    { intros Hf. apply Hall in Hf. discriminate Hf. }
    destruct (App.realSnapshot cat (nth 0 slots VUndefined) (nth 1 slots VUndefined)
                (nth 2 slots VUndefined) (nth 3 slots VUndefined)
                (nth 4 slots VUndefined) (nth 5 slots VUndefined)) as [snap0|e] eqn:Hsnap;
      cbn [fst App.error App.data].
    + split; [split; [discriminate | contradiction]|].
      split; [contradiction|]. split; [|exact Harr].
      intros snap _ Heq. inversion Heq; subst snap0.
      split; [reflexivity|]. split; [|reflexivity].
      exact (realSnapshot_isMock _ _ _ _ _ _ _ _ Hsnap).
    + split.
      { split; [|contradiction].
        intros H. inversion H; subst e. specialize (Honly _ eq_refl). discriminate Honly. }
      split; [contradiction|]. split; [|exact Harr].
      intros snap _ Heq. discriminate Heq.
Qed.

Lemma js_or_string (s : string) : js_or (VStr s) (VStr EmptyString) = VStr s.
Proof. destruct s; reflexivity. Qed.

(** How the inference of the category falls back to the default. *)
Lemma inferCategoria_default :
  App.inferCategoria (VArr []) = Ret "acoes"
  /\ (forall v, isArray v = false -> App.inferCategoria v = Ret "acoes")
  /\ (forall first rest u,
        get first "url" = Ret u -> truthy u = false ->
        App.inferCategoria (VArr (first :: rest)) = Ret "acoes")
  /\ (forall first rest s,
        get first "url" = Ret (VStr s) ->
        includes s "fundos-imobiliarios" = false ->
        includes s "fiagros" = false ->
        App.inferCategoria (VArr (first :: rest)) = Ret "acoes").
Proof.
  split; [reflexivity|]. split; [|split].
  - intros v Hv. destruct v; try reflexivity. discriminate Hv.
  - intros first rest u Hu Hf. unfold App.inferCategoria. rewrite Hu. cbn [bind].
    unfold js_or. rewrite Hf. reflexivity.
  - intros first rest s Hu H1 H2. unfold App.inferCategoria. rewrite Hu. cbn [bind].
    rewrite js_or_string. cbn [includes_method bind]. rewrite H1. cbn [bind].
    rewrite H2. reflexivity.
Qed.

(** The markers are tried in the order fund, agribusiness, equity. *)
Lemma inferCategoria_precedence (first : val) (rest : list val) (s : string) :
  get first "url" = Ret (VStr s) ->
  (includes s "fundos-imobiliarios" = true ->
   App.inferCategoria (VArr (first :: rest)) = Ret "fii")
  /\ (includes s "fundos-imobiliarios" = false -> includes s "fiagros" = true ->
      App.inferCategoria (VArr (first :: rest)) = Ret "fiagro").
Proof.
  intros Hu. unfold App.inferCategoria. rewrite Hu. cbn [bind].
  rewrite js_or_string. cbn [includes_method bind]. split.
  - intros H1. now rewrite H1.
  - intros H1 H2. rewrite H1. cbn [bind]. now rewrite H2.
Qed.

(** C2 (as amended). A query never raises: it always ends with a snapshot
    to show.  An empty result set, a result that is not an array and a
    first result without a matching marker give the default category
    "acoes", and the six aggregate requests are then issued for the
    inferred category.  An error of the search call is not turned into the
    default category: it is caught, no aggregate request is issued, and the
    synthetic snapshot is shown with that error. *)
Theorem classification_failure_absorbed (tickerRaw : string) (st : App.ui) :
  let ticker := toUpperCase (trim tickerRaw) in
  let final := App.fetchFinancialData w tickerRaw st in
  let search := App.proxyUrl (App.searchPath ticker) in
  ticker <> EmptyString ->
  (exists snap, App.data (fst final) = Some snap)
  /\ (forall e,
        App.settle (App.relay w search) = Throw e ->
        App.data (fst final) = Some (App.generateMockData (App.random w) ticker)
        /\ App.error (fst final) = Some e
        /\ snd final = [search])
  /\ (forall searchData cat,
        App.settle (App.relay w search) = Ret searchData ->
        App.inferCategoria searchData = Ret cat ->
        snd final = search :: map App.proxyUrl (App.endpoints cat ticker))
  /\ App.inferCategoria (VArr []) = Ret "acoes"
  /\ (forall v, isArray v = false -> App.inferCategoria v = Ret "acoes")
  /\ (forall first rest s,
        get first "url" = Ret (VStr s) ->
        includes s "fundos-imobiliarios" = false ->
        includes s "fiagros" = false ->
        App.inferCategoria (VArr (first :: rest)) = Ret "acoes").
Proof.
  intros ticker final search Hticker.
  assert (Hfinal : final = App.fetchFinancialData w tickerRaw st) by reflexivity.
  rewrite (fetchFinancialData_settled tickerRaw st Hticker) in Hfinal. fold ticker in Hfinal.
  clearbody final. subst final.
  destruct inferCategoria_default as (Hd1 & Hd2 & _ & Hd4).
  split; [|split; [|split; [|split; [|split]]]]; try assumption.
  - destruct (App.fetchReal w ticker []) as [[snap|e] tr]; cbn [fst App.data]; eauto.
  - intros e He. unfold search in He. rewrite (fetchReal_search_error ticker e He).
    cbn [fst snd App.data App.error]. auto.
  - intros searchData cat Hs Hc. unfold search in Hs.
    rewrite (fetchReal_run ticker searchData cat Hs Hc).
    match goal with |- context [if ?b then _ else _] => destruct b end.
    + reflexivity.
    + match goal with |- context [App.realSnapshot ?a ?b ?c ?d ?e ?f ?g] =>
        destruct (App.realSnapshot a b c d e f g) end; reflexivity.
Qed.

End Aggregator.

(** C1, against the sentence of the specification: the search and the six endpoints
    all answer with an empty array.  Every slot is then an empty payload,
    yet under no host that leaves the ticker as it is does the component
    show a synthetic snapshot. *)
Lemma empty_arrays_are_not_total_failure :
  ~ exists (host : Host) (snap : App.snapshot),
      toUpperCase (trim "MXRF11") = "MXRF11"
      /\ App.data (fst (App.fetchFinancialData (answering (VArr [])) "MXRF11" idle))
         = Some snap
      /\ App.isMock snap = true.
Proof.
  intros (host & snap & Hup & Hdata & Hmock).
  rewrite fetchFinancialData_settled in Hdata by (rewrite Hup; discriminate).
  rewrite Hup in Hdata.
  rewrite (fetchReal_run (answering (VArr [])) "MXRF11" (VArr []) "acoes" eq_refl eq_refl)
    in Hdata.
  cbv zeta in Hdata.
  change (map (App.slot (answering (VArr []))) (App.endpoints "acoes" "MXRF11"))
    with [VArr []; VArr []; VArr []; VArr []; VArr []; VArr []] in Hdata.
  cbn in Hdata. inversion Hdata; subst snap. discriminate Hmock.
Qed.

Lemma aggregate_total_failure_witness :
  exists snap,
    App.data (fst (App.fetchFinancialData (host := Example.host) (answering (VArr []))
                     "mxrf11" idle)) = Some snap
    /\ App.isMock snap = false.
Proof.
  pose proof (@aggregate_total_failure Example.host (answering (VArr [])) "mxrf11" idle
                (VArr []) "acoes") as H.
  cbv zeta in H.
  destruct H as (_ & _ & H & _); [discriminate | reflexivity | reflexivity |].
  eexists. 
  destruct (H (App.mkSnapshot [] [] [] [] [] [] false "AÇÃO")) as (Hd & Hm & _).
  - intros Hall. inversion Hall as [|? ? [Hx|Hx] _]; discriminate Hx.
  - reflexivity.
  - split; [exact Hd | exact Hm].
Defined.

(** C2, against the sentence of the specification: the relay cannot be reached, so the
    search call fails.  Under no host that leaves the ticker as it is is a
    second request issued or a real snapshot shown. *)
Lemma search_error_abandons_aggregation :
  ~ exists host : Host,
      toUpperCase (trim "PETR4") = "PETR4"
      /\ ((1 < List.length (snd (App.fetchFinancialData unreachable "PETR4" idle)))%nat
          \/ exists snap,
               App.data (fst (App.fetchFinancialData unreachable "PETR4" idle)) = Some snap
               /\ App.isMock snap = false).
Proof.
  intros (host & Hup & H).
  rewrite fetchFinancialData_settled in H by (rewrite Hup; discriminate).
  rewrite Hup in H.
  rewrite (fetchReal_search_error unreachable "PETR4" NetworkError eq_refl) in H.
  cbn [fst snd App.data List.length] in H.
  destruct H as [H|(snap & Hd & Hm)].
  - lia.
  - inversion Hd; subst snap. discriminate Hm.
Qed.

Lemma classification_failure_absorbed_witness :
  snd (App.fetchFinancialData (host := Example.host) unreachable "petr4" idle)
  = [App.proxyUrl (host := Example.host) (App.searchPath "PETR4")]
  /\ exists snap,
       App.data (fst (App.fetchFinancialData (host := Example.host) unreachable "petr4" idle))
       = Some snap.
Proof.
  pose proof (@classification_failure_absorbed Example.host unreachable "petr4" idle) as H.
  cbv zeta in H.
  destruct H as (Hsnap & Herr & _); [discriminate|].
  destruct (Herr NetworkError eq_refl) as (_ & _ & Htrace).
  split; [exact Htrace | exact Hsnap].
Defined.

(** The same with healthy endpoints: the search answers 503, every other
    request would answer with data, and none of them is made. *)
Example search_down_endpoints_up :
  let w := App.mkWorld
             (fun url => if includes url "mainsearchquery" then App.Response 503 None
                         else App.Response 200
                                (Some (VArr [VObj [("date", VStr "2023"); ("value", VNum 1%float)]])))
             half in
  let final := App.fetchFinancialData (host := Example.host) w "petr4" idle in
  List.length (snd final) = 1%nat
  /\ App.error (fst final) = Some (Error (VStr "HTTP 503"))
  /\ App.data (fst final) = Some (App.generateMockData half "PETR4").
Proof. cbv zeta. repeat split. Qed.

(* ----------------------------------------------------------------- *)
(** ** The tests of the relay on strings and statuses *)

Lemma ok_iff (st : nat) : App.ok st = true <-> (200 <= st <= 299)%nat.
Proof.
  unfold App.ok. rewrite andb_true_iff, !Nat.leb_le. tauto.
Qed.

Lemma prefix_iff (p s : string) :
  String.prefix p s = true <-> exists rest : string, s = (p ++ rest)%string.
Proof.
  revert s. induction p as [|a p IH]; intros s.
  - split; [intros _; exists s; reflexivity | intros _; now destruct s].
  - destruct s as [|b s]; cbn [String.prefix].
    + split; [discriminate | intros (rest & H); discriminate H].
    + destruct (ascii_dec a b) as [->|Hne].
      * rewrite IH. split; intros (rest & H); exists rest;
          [cbn; now rewrite H | now inversion H].
      * split; [discriminate | intros (rest & H); inversion H; now destruct Hne].
Qed.

(** [includes] finds the string wherever it occurs. *)
Lemma includes_iff (s p : string) : includes s p = true <-> occurs_in p s.
Proof.
  unfold occurs_in. induction s as [|a s IH]; cbn [includes].
  - rewrite orb_false_r, prefix_iff. split.
    + intros (rest & H). exists EmptyString, rest. exact H.
    + intros (before & after & H). destruct before; [exists after; exact H | discriminate H].
  - rewrite orb_true_iff, prefix_iff, IH. split.
    + intros [(rest & H)|(before & after & H)].
      * exists EmptyString, rest. exact H.
      * exists (String a before), after. cbn. now rewrite H.
    + intros (before & after & H). destruct before as [|b before].
      * left. exists after. exact H.
      * right. cbn in H. inversion H. exists before, after. reflexivity.
Qed.

Lemma is_space_iff (a : ascii) : is_space a = true <-> white a.
Proof.
  unfold is_space, white. cbv zeta.
  rewrite !orb_true_iff, andb_true_iff, !Nat.leb_le, !Nat.eqb_eq. cbn [In]. lia.
Qed.

(** [trimStart] drops the white space before the first other character. *)
Lemma trimStart_begins (a : ascii) (p' s : string) :
  is_space a = false ->
  startsWith (trimStart s) (String a p') = true <-> begins_after_white (String a p') s.
Proof.
  intros Ha. unfold startsWith, begins_after_white.
  induction s as [|b s IH]; cbn [trimStart].
  - rewrite prefix_iff. split.
    + intros (rest & H). discriminate H.
    + intros (ws & rest & Hw & H). destruct ws; discriminate H.
  - destruct (is_space b) eqn:Hb.
    + rewrite IH. split.
      * intros (ws & rest & Hw & ->). exists (String b ws), rest. split; [|reflexivity].
        intros [|i] c Hc; cbn in Hc.
        -- inversion Hc; subst. now apply is_space_iff.
        -- exact (Hw i c Hc).
      * intros (ws & rest & Hw & H). destruct ws as [|c ws]; cbn in H; inversion H; subst.
        -- congruence.
        -- exists ws, rest. split; [|reflexivity]. intros i c' Hc. exact (Hw (S i) c' Hc).
    + rewrite prefix_iff. split.
      * intros (rest & H). exists EmptyString, rest.
        split; [intros i c Hc; destruct i; discriminate Hc | exact H].
      * intros (ws & rest & Hw & H). destruct ws as [|c ws].
        -- exists rest. exact H.
        -- cbn in H. inversion H; subst. specialize (Hw 0%nat c eq_refl).
           apply is_space_iff in Hw. congruence.
Qed.

(** The test of the handler is the test of the specification. *)
Lemma challenge_iff_markup (st : nat) (ct : option string) (rawText : string) :
  challenge st ct rawText <-> markup st ct rawText.
Proof.
  unfold challenge, markup, success.
  assert (Hok : App.ok st = false <-> ~ (200 <= st <= 299)%nat).
  { rewrite <- ok_iff. destruct (App.ok st); split; congruence. }
  assert (Hct : includes (match ct with Some c => c | None => EmptyString end) "text/html" = true
                <-> exists c, ct = Some c /\ occurs_in "text/html" c).
  { rewrite includes_iff. destruct ct as [c|]; split.
    - intros H. exists c. split; [reflexivity | exact H].
    - intros (c' & Hc & H). inversion Hc; subst. exact H.
    - intros (before & after & H). destruct before; discriminate H.
    - intros (c & Hc & _). discriminate Hc. }
  pose proof (trimStart_begins "<" "!" rawText eq_refl) as Hdoctype.
  pose proof (trimStart_begins "<" "html" rawText eq_refl) as Hhtml.
  tauto.
Qed.

(* ----------------------------------------------------------------- *)
(** ** The relay *)

Section Relay.
Context {host : Host}.

(** The handler on a request that passes both guards. *)
Lemma handler_accepts (net : string -> Proxy.upstream) (req : Proxy.request)
  (hostname : string) :
  Proxy.method req <> "OPTIONS" ->
  Proxy.param_truthy (Proxy.query_url req) = true ->
  hostname_of (Proxy.param_string (Proxy.query_url req)) = Some hostname ->
  endsWith hostname "statusinvest.com.br" = true ->
  Proxy.handler net req = Proxy.relayTo net (Proxy.param_string (Proxy.query_url req)).
Proof.
  intros Hm Hp Hu He. unfold Proxy.handler.
  apply String.eqb_neq in Hm. rewrite Hm, Hp, Hu, He. reflexivity.
Qed.

(** Whatever the upstream, at most the validated target is fetched. *)
Lemma relayTo_calls (net : string -> Proxy.upstream) (targetUrl : string) :
  snd (Proxy.relayTo net targetUrl) = [Proxy.mkCall targetUrl Proxy.browserHeaders].
Proof.
  unfold Proxy.relayTo.
  destruct (net targetUrl) as [m|st ct [rawText|m]]; try reflexivity.
  destruct (Proxy.looksBlocked st _ rawText); [reflexivity|].
  destruct (JSON_parse rawText); reflexivity.
Qed.

(** C6. A request other than the preflight whose target parses to a
    hostname that does not end with "statusinvest.com.br" is answered 403
    with an error body; no outbound call is made, and the answer does not
    depend on the network. *)
Theorem handler_rejects_foreign_host (net : string -> Proxy.upstream) (req : Proxy.request)
  (hostname : string) :
  Proxy.method req <> "OPTIONS" ->
  Proxy.param_truthy (Proxy.query_url req) = true ->
  hostname_of (Proxy.param_string (Proxy.query_url req)) = Some hostname ->
  endsWith hostname "statusinvest.com.br" = false ->
  Proxy.status (fst (Proxy.handler net req)) = 403%nat
  /\ (exists message,
        Proxy.payload (fst (Proxy.handler net req)) = Some (VObj [("error", VStr message)]))
  /\ snd (Proxy.handler net req) = []
  /\ forall net', Proxy.handler net' req = Proxy.handler net req.
Proof.
  intros Hm Hp Hu He. unfold Proxy.handler.
  apply String.eqb_neq in Hm. rewrite Hm, Hp, Hu, He.
  cbn [negb fst snd Proxy.status Proxy.payload Proxy.json].
  repeat split; eauto.
Qed.

(** The preflight makes no outbound call either. *)
Lemma handler_options (net : string -> Proxy.upstream) (req : Proxy.request) :
  Proxy.method req = "OPTIONS" ->
  Proxy.handler net req = (Proxy.mkResponse 200 Proxy.cors None, []).
Proof. intros H. unfold Proxy.handler. now rewrite H. Qed.

Lemma looksBlocked_iff (st : nat) (ct : option string) (rawText : string) :
  Proxy.looksBlocked st (match ct with Some c => c | None => EmptyString end) rawText = true
  <-> challenge st ct rawText.
Proof.
  unfold Proxy.looksBlocked, challenge.
  rewrite !orb_true_iff, negb_true_iff. tauto.
Qed.

(** C7 (as amended). For an upstream response whose body was read, the
    relay answers 503, with the upstream status and a preview of the body,
    exactly when the status is outside 200..299, or the content type holds
    "text/html", or the body begins, after leading white space, with "<!"
    or "<html"; otherwise it answers 200 with the parsed body, or 502 when
    the body is no JSON.  A response with status 200 and content type
    text/html is answered 503.  When the body cannot be read the answer is
    500, whatever the status and the content type.  The older copy hands a
    status outside 200..299 through as its own status. *)
Theorem handler_blocked_iff (net : string -> Proxy.upstream) (req : Proxy.request)
  (hostname : string) (st : nat) (ct : option string) (rawText : string) :
  Proxy.method req <> "OPTIONS" ->
  Proxy.param_truthy (Proxy.query_url req) = true ->
  hostname_of (Proxy.param_string (Proxy.query_url req)) = Some hostname ->
  endsWith hostname "statusinvest.com.br" = true ->
  net (Proxy.param_string (Proxy.query_url req)) = Proxy.Responded st ct (Proxy.Text rawText) ->
  let answer := fst (Proxy.handler net req) in
  (Proxy.status answer = 503%nat <-> markup st ct rawText)
  /\ (markup st ct rawText ->
      exists message,
        Proxy.payload answer
        = Some (VObj [("error", VStr message);
                      ("httpStatus", VNum (float_of_nat st));
                      ("preview", VStr (slice0 200 rawText))]))
  /\ (~ markup st ct rawText ->
      match JSON_parse rawText with
      | Some data => Proxy.status answer = 200%nat /\ Proxy.payload answer = Some data
      | None => Proxy.status answer = 502%nat
      end)
  /\ (st = 200%nat -> ct = Some "text/html" ->
      Proxy.status answer = 503%nat /\ Proxy.status answer <> 200%nat)
  /\ (forall (net' : string -> Proxy.upstream) (st' : nat) (ct' : option string)
             (message : string),
        net' (Proxy.param_string (Proxy.query_url req))
        = Proxy.Responded st' ct' (Proxy.Unreadable message) ->
        Proxy.status (fst (Proxy.handler net' req)) = 500%nat)
  /\ (forall (net' : string -> Proxy.upstream) (decoded hostname' : string) (st' : nat)
             (ct' : option string) (content : Proxy.body),
        decodeURIComponent (Proxy.param_string (Proxy.query_url req)) = Some decoded ->
        hostname_of decoded = Some hostname' ->
        endsWith hostname' "statusinvest.com.br" = true ->
        net' decoded = Proxy.Responded st' ct' content ->
        ~ success st' ->
        Proxy.status (fst (ProxyLegacy.handler net' req)) = st').
Proof.
  intros Hm Hp Hu He Hnet answer.
  assert (Hanswer : answer = fst (Proxy.handler net req)) by reflexivity.
  rewrite (handler_accepts net req hostname Hm Hp Hu He) in Hanswer.
  unfold Proxy.relayTo in Hanswer. rewrite Hnet in Hanswer.
  pose proof (looksBlocked_iff st ct rawText) as Hiff.
  rewrite challenge_iff_markup in Hiff.
  clearbody answer.
  assert (Hunreadable :
            forall (net' : string -> Proxy.upstream) (st' : nat) (ct' : option string)
                   (message : string),
              net' (Proxy.param_string (Proxy.query_url req))
              = Proxy.Responded st' ct' (Proxy.Unreadable message) ->
              Proxy.status (fst (Proxy.handler net' req)) = 500%nat).
  { intros net' st' ct' message Hnet'.
    rewrite (handler_accepts net' req hostname Hm Hp Hu He).
    unfold Proxy.relayTo. rewrite Hnet'. reflexivity. }
  assert (Hlegacy :
            forall (net' : string -> Proxy.upstream) (decoded hostname' : string) (st' : nat)
                   (ct' : option string) (content : Proxy.body),
              decodeURIComponent (Proxy.param_string (Proxy.query_url req)) = Some decoded ->
              hostname_of decoded = Some hostname' ->
              endsWith hostname' "statusinvest.com.br" = true ->
              net' decoded = Proxy.Responded st' ct' content ->
              ~ success st' ->
              Proxy.status (fst (ProxyLegacy.handler net' req)) = st').
  { intros net' decoded hostname' st' ct' content Hd Hu' He' Hnet' Hno.
    unfold ProxyLegacy.handler.
    assert (Hm' : String.eqb (Proxy.method req) "OPTIONS" = false) by now apply String.eqb_neq.
    rewrite Hm', Hp, Hd, Hu', He'. cbn [negb].
    unfold ProxyLegacy.relayTo. rewrite Hnet'. cbv zeta.
    destruct (App.ok st') eqn:Hok; [apply ok_iff in Hok; now destruct Hno|].
    reflexivity. }
  destruct (Proxy.looksBlocked st _ rawText) eqn:Hb.
  - assert (Hc : markup st ct rawText) by now apply Hiff.
    subst answer. cbn [fst Proxy.status Proxy.payload Proxy.json].
    split; [tauto|]. split; [eauto|]. split; [contradiction|].
    split; [intros _ _; split; [reflexivity | discriminate]|].
    split; [exact Hunreadable | exact Hlegacy].
  - assert (Hc : ~ markup st ct rawText).
    { intros Hc. apply Hiff in Hc. discriminate Hc. }
    assert (Hnot : ~ (st = 200%nat /\ ct = Some "text/html")).
    { intros (-> & ->). apply Hc. right. left. exists "text/html".
      split; [reflexivity|]. exists EmptyString, EmptyString. reflexivity. }
    destruct (JSON_parse rawText) as [data|] eqn:Hj; subst answer;
      cbn [fst Proxy.status Proxy.payload Proxy.json].
    + split; [split; [discriminate | contradiction]|].
      split; [contradiction|]. split; [auto|].
      split; [intros H1 H2; now destruct Hnot|].
      split; [exact Hunreadable | exact Hlegacy].
    + split; [split; [discriminate | contradiction]|].
      split; [contradiction|]. split; [auto|].
      split; [intros H1 H2; now destruct Hnot|].
      split; [exact Hunreadable | exact Hlegacy].
Qed.

(** What the handler does when the upstream cannot be read at all. *)
Lemma handler_network_failure (net : string -> Proxy.upstream) (req : Proxy.request)
  (hostname message : string) :
  Proxy.method req <> "OPTIONS" ->
  Proxy.param_truthy (Proxy.query_url req) = true ->
  hostname_of (Proxy.param_string (Proxy.query_url req)) = Some hostname ->
  endsWith hostname "statusinvest.com.br" = true ->
  net (Proxy.param_string (Proxy.query_url req)) = Proxy.Failed message ->
  Proxy.status (fst (Proxy.handler net req)) = 500%nat.
Proof.
  intros Hm Hp Hu He Hnet.
  rewrite (handler_accepts net req hostname Hm Hp Hu He).
  unfold Proxy.relayTo. now rewrite Hnet.
Qed.

End Relay.

(** C8 (as amended). The handler fetches nothing but the target exactly
    as the platform delivered it; it fetches it, with the browser headers,
    whenever that value passes the guards, whatever percent-escapes it
    holds; it never calls [decodeURIComponent]: with any other decoder the
    answer and the call are the same.  A value that does not start with a
    scheme, as a target still percent-encoded does not, is answered 400 and
    nothing is fetched. *)
Theorem handler_fetches_target_verbatim (host : Host) (net : string -> Proxy.upstream)
  (req : Proxy.request) :
  (forall c, In c (snd (Proxy.handler net req)) ->
     Proxy.target c = Proxy.param_string (Proxy.query_url req))
  /\ (forall hostname,
        Proxy.method req <> "OPTIONS" ->
        Proxy.param_truthy (Proxy.query_url req) = true ->
        hostname_of (Proxy.param_string (Proxy.query_url req)) = Some hostname ->
        endsWith hostname "statusinvest.com.br" = true ->
        snd (Proxy.handler net req)
        = [Proxy.mkCall (Proxy.param_string (Proxy.query_url req)) Proxy.browserHeaders])
  /\ (forall dec,
        Proxy.handler (host := with_decode dec host) net req = Proxy.handler net req)
  /\ (Proxy.method req <> "OPTIONS" ->
      Proxy.param_truthy (Proxy.query_url req) = true ->
      has_scheme (Proxy.param_string (Proxy.query_url req)) = false ->
      Proxy.status (fst (Proxy.handler net req)) = 400%nat
      /\ snd (Proxy.handler net req) = []).
Proof.
  split; [|split; [|split]].
  - intros c Hc. unfold Proxy.handler in Hc.
    destruct (String.eqb (Proxy.method req) "OPTIONS"); [destruct Hc|].
    destruct (negb (Proxy.param_truthy (Proxy.query_url req))); [destruct Hc|].
    destruct (hostname_of (Proxy.param_string (Proxy.query_url req))); [|destruct Hc].
    destruct (negb (endsWith s "statusinvest.com.br")); [destruct Hc|].
    rewrite relayTo_calls in Hc. destruct Hc as [<-|[]]. reflexivity.
  - intros hostname Hm Hp Hu He.
    rewrite (handler_accepts net req hostname Hm Hp Hu He). apply relayTo_calls.
  - intros dec. reflexivity.
  - intros Hm Hp Hs. unfold Proxy.handler, hostname_of.
    apply String.eqb_neq in Hm. rewrite Hm, Hp, Hs. split; reflexivity.
Qed.

(** C8, against the sentence of the specification: the target of a real endpoint in
    its raw form, percent-encoded as the client sends it.  Under no host and
    no network is it accepted: the answer is 400 and nothing is fetched. *)
Lemma raw_target_is_refused :
  ~ exists (host : Host) (net : string -> Proxy.upstream),
      let req :=
        Proxy.mkRequest "GET"
          (Proxy.Single
             "https%3A%2F%2Fstatusinvest.com.br%2Facoes%2Fgetcaixa%3Fcode%3DPETR4%26type%3D0") in
      Proxy.status (fst (Proxy.handler net req)) <> 400%nat
      \/ snd (Proxy.handler net req) <> [].
Proof.
  intros (host & net & [H|H]); apply H; reflexivity.
Qed.

(** The decoded target of the same endpoint is fetched as it is. *)
Example decoded_target_is_fetched :
  forall st ct content,
    map Proxy.target
      (snd (Proxy.handler (host := Example.host) (fun _ => Proxy.Responded st ct content)
              (Proxy.mkRequest "GET"
                 (Proxy.Single "https://statusinvest.com.br/acoes/getcaixa?code=PETR4&type=0"))))
    = ["https://statusinvest.com.br/acoes/getcaixa?code=PETR4&type=0"].
Proof.
  intros st ct content.
  rewrite (handler_accepts (host := Example.host) _ _ "statusinvest.com.br");
    [|discriminate|reflexivity|reflexivity|reflexivity].
  now rewrite relayTo_calls.
Qed.

(** The older copy decodes the delivered value once more: what it fetches
    is the decoded string, and a value that does not decode is refused. *)
Lemma legacy_handler_decodes (host : Host) (net : string -> Proxy.upstream)
  (req : Proxy.request) :
  Proxy.method req <> "OPTIONS" ->
  Proxy.param_truthy (Proxy.query_url req) = true ->
  match decodeURIComponent (Proxy.param_string (Proxy.query_url req)) with
  | Some decoded =>
      forall c, In c (snd (ProxyLegacy.handler net req)) -> Proxy.target c = decoded
  | None =>
      Proxy.status (fst (ProxyLegacy.handler net req)) = 400%nat
      /\ snd (ProxyLegacy.handler net req) = []
  end.
Proof.
  intros Hm Hp. unfold ProxyLegacy.handler.
  apply String.eqb_neq in Hm. rewrite Hm, Hp. cbn [negb].
  destruct (decodeURIComponent (Proxy.param_string (Proxy.query_url req))) as [decoded|].
  - intros c Hc.
    destruct (hostname_of decoded); [|destruct Hc].
    destruct (negb (endsWith s "statusinvest.com.br")); [destruct Hc|].
    unfold ProxyLegacy.relayTo in Hc.
    destruct (net decoded) as [m|st ct content]; [destruct Hc as [<-|[]]; reflexivity|].
    destruct (negb (App.ok st)); [destruct Hc as [<-|[]]; reflexivity|].
    destruct (includes _ "text/html"); [destruct Hc as [<-|[]]; reflexivity|].
    destruct content as [rawText|m]; [|destruct Hc as [<-|[]]; reflexivity].
    destruct (JSON_parse rawText); destruct Hc as [<-|[]]; reflexivity.
  - split; reflexivity.
Qed.

(** A target with an escaped percent sign: the relay fetches it as it is,
    the older copy fetches another URL, and refuses a target with a bare
    percent sign that the relay accepts. *)
Example double_decoding :
  let up := fun _ : string => Proxy.Responded 200 (Some "application/json") (Proxy.Text "[]") in
  let get q := Proxy.mkRequest "GET" (Proxy.Single q) in
  map Proxy.target
    (snd (Proxy.handler (host := Example.host) up (get "https://statusinvest.com.br/a?q=100%25")))
  = ["https://statusinvest.com.br/a?q=100%25"]
  /\ map Proxy.target
       (snd (ProxyLegacy.handler (host := Example.host) up
               (get "https://statusinvest.com.br/a?q=100%25")))
     = ["https://statusinvest.com.br/a?q=100%"]
  /\ Proxy.status
       (fst (Proxy.handler (host := Example.host) up (get "https://statusinvest.com.br/a?q=100%")))
     = 200%nat
  /\ Proxy.status
       (fst (ProxyLegacy.handler (host := Example.host) up
               (get "https://statusinvest.com.br/a?q=100%")))
     = 400%nat.
Proof. cbv zeta. repeat split. Qed.

Lemma handler_rejects_foreign_host_witness :
  Proxy.status
    (fst (Proxy.handler (host := Example.host) (fun _ => Proxy.Failed "unused")
            (Proxy.mkRequest "GET" (Proxy.Single "https://evil.example.com/data")))) = 403%nat
  /\ snd (Proxy.handler (host := Example.host) (fun _ => Proxy.Failed "unused")
            (Proxy.mkRequest "GET" (Proxy.Single "https://evil.example.com/data"))) = [].
Proof.
  destruct (@handler_rejects_foreign_host Example.host (fun _ => Proxy.Failed "unused")
              (Proxy.mkRequest "GET" (Proxy.Single "https://evil.example.com/data"))
              "evil.example.com") as (Hs & _ & Hc & _);
    [discriminate | reflexivity | reflexivity | reflexivity |].
  split; [exact Hs | exact Hc].
Defined.

Lemma handler_blocked_iff_witness :
  let req :=
    Proxy.mkRequest "GET"
      (Proxy.Single "https://statusinvest.com.br/acoes/getcaixa?code=PETR4&type=0") in
  let answered st ct rawText :=
    Proxy.status
      (fst (Proxy.handler (host := Example.host)
              (fun _ => Proxy.Responded st ct (Proxy.Text rawText)) req)) in
  answered 200%nat (Some "text/html") "{}" = 503%nat
  /\ answered 403%nat (Some "application/json") "{}" = 503%nat
  /\ answered 200%nat (Some "application/json") "  <!DOCTYPE html>" = 503%nat
  /\ answered 200%nat None " <html lang=pt>" = 503%nat
  /\ answered 200%nat (Some "application/json") "{}" = 200%nat
  /\ answered 299%nat None "oops" = 502%nat.
Proof.
  intros req answered.
  assert (Hrun : forall st ct rawText,
             (answered st ct rawText = 503%nat <-> markup st ct rawText)
             /\ (~ markup st ct rawText ->
                 match Example.parseJSON rawText with
                 | Some _ => answered st ct rawText = 200%nat
                 | None => answered st ct rawText = 502%nat
                 end)).
  { intros st ct rawText.
    pose proof (@handler_blocked_iff Example.host
                  (fun _ => Proxy.Responded st ct (Proxy.Text rawText)) req
                  "statusinvest.com.br" st ct rawText) as H.
    cbv zeta in H.
    destruct H as (Hiff & _ & Hno & _);
      [discriminate | reflexivity | reflexivity | reflexivity | reflexivity |].
    split; [exact Hiff|]. intros Hc. specialize (Hno Hc).
    change (@JSON_parse Example.host rawText) with (Example.parseJSON rawText) in Hno.
    destruct (Example.parseJSON rawText); [exact (proj1 Hno) | exact Hno]. }
  assert (Hblank : forall i c, String.get i "  " = Some c -> white c).
  { intros [|[|i]] c Hc; inversion Hc; subst; cbn; tauto. }
  assert (Hplain : forall st ct rawText,
             challenge st ct rawText -> markup st ct rawText).
  { intros st ct rawText. apply challenge_iff_markup. }
  assert (Hnone : forall st ct rawText,
             App.ok st = true ->
             includes (match ct with Some c => c | None => EmptyString end) "text/html" = false ->
             startsWith (trimStart rawText) "<!" = false ->
             startsWith (trimStart rawText) "<html" = false ->
             ~ markup st ct rawText).
  { intros st ct rawText H1 H2 H3 H4 Hm. apply challenge_iff_markup in Hm.
    destruct Hm as [H|[H|[H|H]]]; congruence. }
  split; [|split; [|split; [|split; [|split]]]].
  - apply (Hrun 200%nat (Some "text/html") "{}"). right. left.
    exists "text/html". split; [reflexivity|]. exists EmptyString, EmptyString. reflexivity.
  - apply (Hrun 403%nat (Some "application/json") "{}"). left. unfold success. lia.
  - apply (Hrun 200%nat (Some "application/json") "  <!DOCTYPE html>"). right. right. left.
    exists "  ", "DOCTYPE html>". split; [exact Hblank | reflexivity].
  - apply (Hrun 200%nat None " <html lang=pt>"). right. right. right.
    exists " ", " lang=pt>". split; [|reflexivity].
    intros [|i] c Hc; inversion Hc; subst; cbn; tauto.
  - apply (proj2 (Hrun 200%nat (Some "application/json") "{}")).
    apply Hnone; reflexivity.
  - apply (proj2 (Hrun 299%nat None "oops")).
    apply Hnone; reflexivity.
Defined.

(** C7, against the sentence of the specification: an upstream response with status
    403 and content type text/html whose body cannot be read.  Under no
    host is it answered 503: the body is read before the test, and the
    failure of the read is answered 500. *)
Lemma unread_challenge_is_not_blocked :
  ~ exists (host : Host),
      Proxy.status
        (fst (Proxy.handler
                (fun _ => Proxy.Responded 403 (Some "text/html") (Proxy.Unreadable "terminated"))
                (Proxy.mkRequest "GET"
                   (Proxy.Single
                      "https://statusinvest.com.br/acoes/getcaixa?code=PETR4&type=0"))))
      = 503%nat.
Proof.
  intros (host & H). unfold Proxy.handler in H.
  cbn [Proxy.method Proxy.query_url Proxy.param_truthy Proxy.param_string String.eqb
       Ascii.eqb Bool.eqb negb] in H.
  destruct (hostname_of "https://statusinvest.com.br/acoes/getcaixa?code=PETR4&type=0")
    as [hostname|]; [|discriminate H].
  destruct (negb (endsWith hostname "statusinvest.com.br")); discriminate H.
Qed.

(* ----------------------------------------------------------------- *)
(** ** The older copy of the client *)

(** There the element test counts an empty array, and every payload
    without keys, as failed. *)
Lemma legacy_isEmptyResult_iff (r : val) :
  AppLegacy.isEmptyResult r = true
  <-> r = VNull \/ r = VObj [] \/ r = VArr [] \/ r = VStr EmptyString
      \/ (exists b, r = VBool b) \/ (exists x, r = VNum x) \/ r = VUndefined.
Proof.
  split.
  - destruct r as [| |b|x|s|l|fs]; intros H; eauto 10.
    + destruct s; [auto 10 | discriminate H].
    + destruct l; [auto 10 | discriminate H].
    + destruct fs; [auto 10 | discriminate H].
  - intros [->|[->|[->|[->|[(b & ->)|[(x & ->)| ->]]]]]]; reflexivity.
Qed.

Lemma empty_array_legacy_and_current :
  AppLegacy.isEmptyResult (VArr []) = true /\ App.isEmptyResult (VArr []) = false.
Proof. split; reflexivity. Qed.

(** There a record without a date makes the comparator throw. *)
Lemma legacy_missing_date_throws :
  forall host : Host,
    AppLegacy.normalizeProventos
      (VObj [("assetEarningsModels", VArr [earning "15/01/2023"; VObj [("v", VNum 1%float)]])])
    = Throw TypeError
    /\ exists out,
         App.normalizeProventos
           (VObj [("assetEarningsModels", VArr [earning "15/01/2023"; VObj [("v", VNum 1%float)]])])
         = Ret out
         /\ map App.name out = [VUndefined; VStr "15/01/2023"].
Proof. intros host. split; [reflexivity|]. eexists. split; reflexivity. Qed.

(* ================================================================= *)
(** * Further properties of the code *)

(* ----------------------------------------------------------------- *)
(** ** Requests of the page *)

Lemma settle_returns (r : App.reply) (v : val) :
  App.settle r = Ret v
  <-> exists st, r = App.Response st (Some v) /\ App.ok st = true.
Proof.
  split.
  - destruct r as [|st body]; [discriminate|]. cbn [App.settle].
    destruct (App.ok st) eqn:Hok; cbn [negb].
    + destruct body as [v'|]; [|discriminate]. intros H. inversion H; subst. eauto.
    + destruct (get _ "error"); discriminate.
  - intros (st & -> & Hok). cbn [App.settle]. now rewrite Hok.
Qed.

Section Requests.
Context {host : Host} (w : App.World).

(** X1. [proxyFetch] makes exactly one request, to the relay path with the
    encoded target.  It returns a value exactly when the status is in
    200..299 and the body is JSON, and that value is the body; on another
    status it throws an Error carrying the [error] field of the body when
    that one is truthy, and "HTTP <status>" when the body has none or is not
    JSON; a rejected fetch is rethrown. *)
Theorem proxyFetch_outcome (path : string) (tr : list string) :
  let url := App.proxyUrl path in
  let run := App.proxyFetch w path tr in
  snd run = (tr ++ [url])%list
  /\ (forall v,
        fst run = Ret v
        <-> exists st, App.relay w url = App.Response st (Some v) /\ (200 <= st <= 299)%nat)
  /\ (forall st fields,
        App.relay w url = App.Response st (Some (VObj fields)) ->
        ~ (200 <= st <= 299)%nat ->
        fst run
        = Throw (Error (js_or (lookup "error" fields) (VStr ("HTTP " ++ decimal st)))))
  /\ (forall st,
        App.relay w url = App.Response st None ->
        ~ (200 <= st <= 299)%nat ->
        fst run = Throw (Error (VStr ("HTTP " ++ decimal st))))
  /\ (forall st,
        App.relay w url = App.Response st None ->
        (200 <= st <= 299)%nat ->
        fst run = Throw SyntaxError)
  /\ (App.relay w url = App.Rejected -> fst run = Throw NetworkError).
Proof.
  intros url run. subst run. rewrite proxyFetch_run. fold url. cbn [fst snd].
  split; [reflexivity|]. split; [|split; [|split; [|split]]].
  - intros v. rewrite settle_returns. split; intros (st & Hr & Hok); exists st;
      (split; [exact Hr | now apply ok_iff]).
  - intros st fields Hr Hno. rewrite Hr. cbn [App.settle].
    destruct (App.ok st) eqn:Hok; [apply ok_iff in Hok; contradiction|]. reflexivity.
  - intros st Hr Hno. rewrite Hr. cbn [App.settle].
    destruct (App.ok st) eqn:Hok; [apply ok_iff in Hok; contradiction|]. reflexivity.
  - intros st Hr Hyes. rewrite Hr. cbn [App.settle].
    apply ok_iff in Hyes. now rewrite Hyes.
  - intros Hr. now rewrite Hr.
Qed.

Lemma slot_cases (path : string) :
  (App.slot w path = VNull
   /\ forall v, App.settle (App.relay w (App.proxyUrl path)) = Ret v -> v = VNull)
  \/ exists st,
       App.relay w (App.proxyUrl path) = App.Response st (Some (App.slot w path))
       /\ (200 <= st <= 299)%nat.
Proof.
  unfold App.slot.
  destruct (App.settle (App.relay w (App.proxyUrl path))) as [v|e] eqn:Hs.
  - right. apply settle_returns in Hs. destruct Hs as (st & Hr & Hok).
    exists st. split; [exact Hr | now apply ok_iff].
  - left. split; [reflexivity|]. intros v H. discriminate H.
Qed.

(** X2. The batch of six calls never throws and never stops early: the six
    requests are made, in the order of the endpoints, whatever the replies;
    it yields six slots, and slot [i] depends on the reply to request [i]
    alone: the body of a 2xx JSON reply, [null] otherwise. *)
Theorem batch_settles_every_call (cat ticker : string) (tr : list string) :
  exists results,
    App.allSettled w (App.endpoints cat ticker) tr
    = (Ret results, (tr ++ map App.proxyUrl (App.endpoints cat ticker))%list)
    /\ List.length results = 6%nat
    /\ forall i path,
         nth_error (App.endpoints cat ticker) i = Some path ->
         nth_error results i = Some (App.slot w path)
         /\ ((exists st,
                App.relay w (App.proxyUrl path) = App.Response st (Some (App.slot w path))
                /\ (200 <= st <= 299)%nat)
             \/ (App.slot w path = VNull
                 /\ forall v, fst (App.proxyFetch w path []) = Ret v -> v = VNull)).
Proof.
  exists (map (App.slot w) (App.endpoints cat ticker)).
  split; [apply allSettled_run|]. split; [reflexivity|].
  intros i path Hi. split.
  - now rewrite nth_error_map, Hi.
  - destruct (slot_cases path) as [(Hnull & Hv)|Hok]; [right|left; exact Hok].
    split; [exact Hnull|]. intros v. rewrite proxyFetch_run. exact (Hv v).
Qed.

End Requests.

(* ----------------------------------------------------------------- *)
(** ** The inference of the category *)

(** X3. The inferred category is always one of "fii", "fiagro" and
    "acoes".  Only the first search result is read; when its url is a
    string the fund marker wins over the agribusiness marker, which wins
    over the default, whatever else the string and the other results
    hold. *)
Theorem inferCategoria_classes :
  (forall v c,
      App.inferCategoria v = Ret c -> c = "fii" \/ c = "fiagro" \/ c = "acoes")
  /\ (forall first rest s,
        get first "url" = Ret (VStr s) ->
        App.inferCategoria (VArr (first :: rest))
        = Ret (if includes s "fundos-imobiliarios" then "fii"
               else if includes s "fiagros" then "fiagro"
               else "acoes")).
Proof.
  split.
  - intros v c. destruct v as [| | | | |[|first rest]|]; cbn [App.inferCategoria];
      try solve [intros H; inversion H; auto].
    destruct (get first "url") as [u|]; [|discriminate]. cbn [bind].
    destruct (includes_method (js_or u (VStr "")) "fundos-imobiliarios") as [[]|];
      cbn [bind]; [intros H; inversion H; auto| |discriminate].
    destruct (includes_method (js_or u (VStr "")) "fiagros") as [[]|];
      cbn [bind]; [intros H; inversion H; auto| |discriminate].
    destruct (includes_method (js_or u (VStr "")) "acoes") as [?|];
      cbn [bind]; [intros H; inversion H; auto|discriminate].
  - intros first rest s Hu. unfold App.inferCategoria. rewrite Hu. cbn [bind].
    rewrite js_or_string. cbn [includes_method bind].
    destruct (includes s "fundos-imobiliarios"); [reflexivity|]. cbn [bind].
    destruct (includes s "fiagros"); reflexivity.
Qed.

Lemma inferCategoria_classes_witness :
  App.inferCategoria
    (VArr [VObj [("url", VStr "/fundos-imobiliarios/fiagros-e-acoes")];
           VObj [("url", VStr "/acoes/petr4")]])
  = Ret "fii".
Proof.
  exact (proj2 inferCategoria_classes
           (VObj [("url", VStr "/fundos-imobiliarios/fiagros-e-acoes")])
           [VObj [("url", VStr "/acoes/petr4")]]
           "/fundos-imobiliarios/fiagros-e-acoes" eq_refl).
Defined.

Section ClassificationErrors.
Context {host : Host} (w : App.World).

(** X4. When the search answers but its first result cannot be read (it
    is [null], or its url is a number, a boolean or an object), the
    inference throws a TypeError; the query then makes no aggregate request
    and shows the synthetic snapshot with that error. *)
Theorem classification_error_falls_back (tickerRaw : string) (st : App.ui)
  (searchData : val) (e : exn) :
  let ticker := toUpperCase (trim tickerRaw) in
  let final := App.fetchFinancialData w tickerRaw st in
  ticker <> EmptyString ->
  App.settle (App.relay w (App.proxyUrl (App.searchPath ticker))) = Ret searchData ->
  App.inferCategoria searchData = Throw e ->
  e = TypeError
  /\ App.data (fst final) = Some (App.generateMockData (App.random w) ticker)
  /\ App.error (fst final) = Some TypeError
  /\ snd final = [App.proxyUrl (App.searchPath ticker)]
  /\ (forall rest, App.inferCategoria (VArr (VNull :: rest)) = Throw TypeError)
  /\ (forall fields rest u,
        lookup "url" fields = u -> truthy u = true ->
        match u with VStr _ | VArr _ => False | _ => True end ->
        App.inferCategoria (VArr (VObj fields :: rest)) = Throw TypeError).
Proof.
  intros ticker final Hticker Hs Hc.
  assert (He : e = TypeError).
  { destruct searchData as [| | | | |[|first rest]|]; try discriminate Hc.
    cbn [App.inferCategoria] in Hc.
    destruct (get first "url") as [u|e0] eqn:Hu; cbn [bind] in Hc.
    - destruct (includes_method (js_or u (VStr "")) "fundos-imobiliarios") as [[]|e1] eqn:H1;
        cbn [bind] in Hc; try discriminate Hc.
      + destruct (includes_method (js_or u (VStr "")) "fiagros") as [[]|e2] eqn:H2;
          cbn [bind] in Hc; try discriminate Hc.
        * destruct (includes_method (js_or u (VStr "")) "acoes") as [?|e3] eqn:H3;
            cbn [bind] in Hc; try discriminate Hc.
          inversion Hc; subst. destruct (js_or u (VStr "")); cbn in H3; congruence.
        * inversion Hc; subst. destruct (js_or u (VStr "")); cbn in H2; congruence.
      + inversion Hc; subst. destruct (js_or u (VStr "")); cbn in H1; congruence.
    - inversion Hc; subst. exact (only_get first "url" e Hu). }
  subst e. subst final.
  rewrite (fetchFinancialData_settled w tickerRaw st Hticker). fold ticker.
  rewrite (fetchReal_inference_error w ticker searchData TypeError Hs Hc).
  cbn [fst snd App.data App.error].
  repeat split.
  intros fields rest u Hu Ht Hkind. unfold App.inferCategoria. cbn [get bind].
  rewrite Hu. unfold js_or. rewrite Ht. destruct u; try contradiction; reflexivity.
Qed.

End ClassificationErrors.

Lemma classification_error_falls_back_witness :
  App.data (fst (App.fetchFinancialData (host := Example.host) (answering (VArr [VNull]))
                   "petr4" idle))
  = Some (App.generateMockData half "PETR4")
  /\ List.length (snd (App.fetchFinancialData (host := Example.host) (answering (VArr [VNull]))
                         "petr4" idle)) = 1%nat.
Proof.
  pose proof (@classification_error_falls_back Example.host (answering (VArr [VNull]))
                "petr4" idle (VArr [VNull]) TypeError) as H.
  cbv zeta in H.
  destruct H as (_ & Hd & _ & Ht & _); [discriminate | reflexivity | reflexivity |].
  split; [exact Hd | now rewrite Ht].
Defined.

(* ----------------------------------------------------------------- *)
(** ** The normalisers on whole payloads *)

Lemma mapM_pure {A B : Type} (f : A -> result B) (g : A -> B) (l : list A) :
  (forall a, In a l -> f a = Ret (g a)) -> mapM f l = Ret (map g l).
Proof.
  induction l as [|a l IH]; intros H; cbn [mapM map]; [reflexivity|].
  rewrite (H a (or_introl eq_refl)). cbn [bind].
  rewrite IH by (intros b Hb; apply H; now right). reflexivity.
Qed.

Lemma mapM_length {A B : Type} (f : A -> result B) (l : list A) (out : list B) :
  mapM f l = Ret out -> List.length out = List.length l.
Proof.
  revert out. induction l as [|a l IH]; intros out H; cbn [mapM] in H.
  - inversion H. reflexivity.
  - destruct (f a) as [b|]; [|discriminate H]. cbn [bind] in H.
    destruct (mapM f l) as [bs|]; [|discriminate H]. cbn [bind] in H.
    inversion H; subst. cbn [List.length]. now rewrite (IH bs eq_refl).
Qed.

Lemma get_not_nullish (v : val) (k : string) :
  nullish v = false -> exists u, get v k = Ret u.
Proof. destruct v; intros H; try discriminate H; cbn [get]; eauto. Qed.

Section Payloads.
Context {host : Host}.

(** The point made of a record of the first shape. *)
Lemma chartItem_object (fields : list (string * val)) :
  App.chartItem (VObj fields)
  = Ret (App.mkPoint
           (js_or (js_or (lookup "date" fields) (lookup "d" fields)) (lookup "year" fields))
           (ToNumber (js_coalesce (js_coalesce (lookup "value" fields) (lookup "v" fields))
                        (VNum 0%float)))
           VUndefined).
Proof.
  unfold App.chartItem, App.or_else, App.coalesce_else, js_or, js_coalesce. cbn [get bind].
  destruct (truthy (lookup "date" fields)) eqn:E1;
    destruct (truthy (lookup "d" fields)) eqn:E2;
    destruct (nullish (lookup "value" fields)) eqn:E3;
    cbn [bind]; rewrite ?E1, ?E2, ?E3; cbn [bind]; rewrite ?E1, ?E2, ?E3; reflexivity.
Qed.

(** X5. An array of records whose first record has a truthy [date] or [d]
    is mapped record by record: the result has the length and the order of
    the input, each label is [date], else [d], else [year] of its own
    record, and each value is [Number(value ?? v ?? 0)].  Only the first
    record is tested: a later record without a date is kept, labelled by
    its year or [undefined]. *)
Theorem normalize_dated_records (r0 : list (string * val)) (rows : list (list (string * val))) :
  truthy (js_or (lookup "date" r0) (lookup "d" r0)) = true ->
  App.normalizeGenericChartData (VArr (map VObj (r0 :: rows)))
  = Ret (map (fun fields =>
                App.mkPoint
                  (js_or (js_or (lookup "date" fields) (lookup "d" fields))
                     (lookup "year" fields))
                  (ToNumber (js_coalesce
                               (js_coalesce (lookup "value" fields) (lookup "v" fields))
                               (VNum 0%float)))
                  VUndefined)
           (r0 :: rows)).
Proof.
  intros Hdated. unfold App.normalizeGenericChartData.
  cbn [map truthy negb App.isDatedArray get bind].
  unfold App.or_else.
  assert (Ht : (d <- (if truthy (lookup "date" r0) then Ret (lookup "date" r0)
                      else Ret (lookup "d" r0)) ;; Ret (truthy d)) = Ret true).
  { unfold js_or in Hdated. destruct (truthy (lookup "date" r0)) eqn:Hd; cbn [bind];
      now rewrite ?Hd, ?Hdated. }
  rewrite Ht. cbn [bind].
  rewrite <- map_cons.
  rewrite (mapM_pure App.chartItem
             (fun v => match v with
                       | VObj fields =>
                           App.mkPoint
                             (js_or (js_or (lookup "date" fields) (lookup "d" fields))
                                (lookup "year" fields))
                             (ToNumber (js_coalesce
                                          (js_coalesce (lookup "value" fields)
                                             (lookup "v" fields))
                                          (VNum 0%float)))
                             VUndefined
                       | _ => App.mkPoint VUndefined 0%float VUndefined
                       end)).
  - now rewrite map_map.
  - intros a Ha. apply in_map_iff in Ha. destruct Ha as (fields & <- & _).
    apply chartItem_object.
Qed.

Lemma chartItem_total (item : val) :
  nullish item = false -> exists p, App.chartItem item = Ret p.
Proof.
  intros H. unfold App.chartItem, App.or_else, App.coalesce_else.
  destruct item; try discriminate H; cbn [get bind];
    repeat match goal with
           | |- context [if ?b then _ else _] => destruct b; cbn [bind]
           end; eauto.
Qed.

Lemma mapM_total {A B : Type} (f : A -> result B) (l : list A) :
  (forall a, In a l -> exists b, f a = Ret b) ->
  exists out, mapM f l = Ret out /\ List.length out = List.length l.
Proof.
  induction l as [|a l IH]; intros H.
  - exists []. split; reflexivity.
  - destruct (H a (or_introl eq_refl)) as (b & Hb).
    destruct IH as (bs & Hbs & Hlen); [intros x Hx; apply H; now right|].
    exists (b :: bs). cbn [mapM]. rewrite Hb. cbn [bind]. rewrite Hbs. cbn [bind].
    split; [reflexivity | cbn [List.length]; now rewrite Hlen].
Qed.

(** X6. On an array without [null] elements, whose records hold under
    [value], or under [v] when [value] is missing, nothing but a number, a
    string, a boolean or [null], the function never throws, and it either
    drops the whole array (the result is empty) or keeps every element (the
    result has the length of the array): no element is filtered out on its
    own. *)
Theorem normalize_array_all_or_nothing (l : list val) :
  Forall (fun e => nullish e = false) l ->
  Forall (fun e => forall fields,
            e = VObj fields ->
            primitive (js_coalesce (lookup "value" fields) (lookup "v" fields)) = true) l ->
  exists out,
    App.normalizeGenericChartData (VArr l) = Ret out
    /\ (out = [] \/ List.length out = List.length l).
Proof.
  intros Hall _. unfold App.normalizeGenericChartData. cbn [truthy negb].
  destruct l as [|e0 rest].
  - exists []. split; [reflexivity | now left].
  - assert (H0 : nullish e0 = false) by now inversion Hall.
    destruct (get_not_nullish e0 "date" H0) as (a & Ha).
    destruct (get_not_nullish e0 "d" H0) as (b & Hb).
    cbn [App.isDatedArray]. rewrite Ha. cbn [bind]. unfold App.or_else at 1.
    assert (Hd : exists d, (if truthy a then Ret a else get e0 "d") = Ret d)
      by (destruct (truthy a); eauto).
    destruct Hd as (d & ->). cbn [bind].
    destruct (truthy d).
    + destruct (mapM_total App.chartItem (e0 :: rest)) as (out & Hout & Hlen).
      { intros x Hx. apply chartItem_total. rewrite Forall_forall in Hall. now apply Hall. }
      exists out. split; [exact Hout | now right].
    + exists []. split; [reflexivity | now left].
Qed.

End Payloads.

Lemma normalize_dated_records_witness :
  App.normalizeGenericChartData (host := Example.host)
    (VArr [VObj [("d", VStr "2022"); ("v", VNum 5%float)];
           VObj [("year", VStr "2023")]])
  = Ret [App.mkPoint (VStr "2022") 5%float VUndefined;
         App.mkPoint (VStr "2023") 0%float VUndefined].
Proof.
  apply (@normalize_dated_records Example.host
           [("d", VStr "2022"); ("v", VNum 5%float)] [[("year", VStr "2023")]]).
  reflexivity.
Defined.

Lemma normalize_array_all_or_nothing_witness :
  exists out,
    App.normalizeGenericChartData (host := Example.host)
      (VArr [VObj [("date", VStr "2022")]; VNum 7%float; VStr "x"]) = Ret out
    /\ (out = [] \/ List.length out = 3%nat).
Proof.
  apply (@normalize_array_all_or_nothing Example.host
           [VObj [("date", VStr "2022")]; VNum 7%float; VStr "x"]).
  - repeat constructor.
  - repeat constructor; intros fields H; inversion H; reflexivity.
Defined.

(* ----------------------------------------------------------------- *)
(** ** The earnings normaliser on whole payloads *)

Section SortFacts.
Context {A : Type} (cmp : A -> A -> result (option Z)).

Lemma insert_permutation (x : A) (l out : list A) :
  insert cmp x l = Ret out -> Permutation (x :: l) out.
Proof.
  revert out. induction l as [|y l IH]; intros out H; cbn [insert] in H.
  - inversion H. reflexivity.
  - destruct (cmp y x) as [c|]; [|discriminate H]. cbn [bind] in H.
    destruct (sorts_before c).
    + destruct (insert cmp x l) as [r|]; [|discriminate H]. cbn [bind] in H.
      inversion H; subst. rewrite perm_swap. constructor. now apply IH.
    + inversion H. reflexivity.
Qed.

(** Whatever the comparator answers, a sort that returns has permuted. *)
Lemma Array_sort_permutation (l out : list A) :
  Array_sort cmp l = Ret out -> Permutation l out.
Proof.
  revert out. induction l as [|x l IH]; intros out H; cbn [Array_sort] in H.
  - inversion H. reflexivity.
  - destruct (Array_sort cmp l) as [s|]; [|discriminate H]. cbn [bind] in H.
    rewrite <- (insert_permutation x s out H). constructor. now apply IH.
Qed.

(** With two elements or more, every element is compared at least once: an
    element on which the comparator throws makes the sort throw. *)
Lemma Array_sort_throws (bad : A -> Prop) (l : list A) :
  (forall a b, bad a \/ bad b -> exists e, cmp a b = Throw e) ->
  (2 <= List.length l)%nat -> Exists bad l ->
  exists e, Array_sort cmp l = Throw e.
Proof.
  intros Hbad. induction l as [|x l IH]; intros Hlen Hex; [inversion Hex|].
  cbn [Array_sort].
  destruct (Array_sort cmp l) as [s|e] eqn:Hs; [|cbn [bind]; eauto].
  cbn [bind].
  pose proof (Array_sort_permutation l s Hs) as Hperm.
  destruct s as [|y s'].
  { apply Permutation_sym, Permutation_nil in Hperm. subst l. cbn in Hlen. lia. }
  cbn [insert].
  assert (Hy : bad x \/ bad y).
  { inversion Hex as [? ? Hx|? ? Hl]; subst; [now left|]. right.
    destruct l as [|z [|z' l']].
    - inversion Hl.
    - apply Permutation_length_1_inv in Hperm. inversion Hperm; subst.
      inversion Hl as [? ? Hz|? ? Hnil]; [exact Hz | inversion Hnil].
    - destruct (IH ltac:(cbn; lia) Hl) as (e & He). discriminate He. }
  destruct (Hbad y x) as (e & He); [tauto|]. rewrite He. cbn [bind]. eauto.
Qed.

End SortFacts.

Section Earnings.
Context {host : Host}.

(** X7. The earnings normaliser returns the empty sequence for a falsy
    payload and for a payload whose container is missing or falsy, and
    throws a TypeError for a container that is not an array.  Whenever it
    returns on an array of records, it returns one point per record, a
    permutation of the mapped records: no record is lost or duplicated,
    malformed dates included. *)
Theorem normalizeProventos_keeps_records :
  (forall data, truthy data = false -> App.normalizeProventos data = Ret [])
  /\ (forall fields,
        truthy (lookup "assetEarningsModels" fields) = false ->
        App.normalizeProventos (VObj fields) = Ret [])
  /\ (forall fields,
        truthy (lookup "assetEarningsModels" fields) = true ->
        isArray (lookup "assetEarningsModels" fields) = false ->
        App.normalizeProventos (VObj fields) = Throw TypeError)
  /\ (forall fields models out,
        lookup "assetEarningsModels" fields = VArr models ->
        App.normalizeProventos (VObj fields) = Ret out ->
        exists mapped,
          mapM App.proventoItem models = Ret mapped
          /\ Permutation mapped out
          /\ List.length out = List.length models).
Proof.
  split; [|split; [|split]].
  - intros data H. unfold App.normalizeProventos. now rewrite H.
  - intros fields H. unfold App.normalizeProventos. cbn [truthy negb get bind].
    now rewrite H.
  - intros fields Ht Ha. unfold App.normalizeProventos. cbn [truthy negb get bind].
    rewrite Ht. cbn [negb]. destruct (lookup "assetEarningsModels" fields);
      try reflexivity; discriminate.
  - intros fields models out Hm Hrun. unfold App.normalizeProventos in Hrun.
    cbn [truthy negb get bind] in Hrun. rewrite Hm in Hrun. cbn [truthy negb] in Hrun.
    destruct (mapM App.proventoItem models) as [mapped|] eqn:Hmap; [|discriminate Hrun].
    cbn [bind] in Hrun. exists mapped.
    pose proof (Array_sort_permutation _ _ _ Hrun) as Hperm.
    split; [reflexivity|]. split; [exact Hperm|].
    rewrite <- (Permutation_length Hperm). exact (mapM_length _ _ _ Hmap).
Qed.

Lemma compareByDate_throws (a b : App.point) :
  (exists e, App.parse (App.name a) = Throw e) \/ (exists e, App.parse (App.name b) = Throw e) ->
  exists e, App.compareByDate a b = Throw e.
Proof.
  unfold App.compareByDate. intros [(e & He)|(e & He)].
  - rewrite He. cbn [bind]. eauto.
  - destruct (App.parse (App.name a)); cbn [bind]; [rewrite He|]; cbn [bind]; eauto.
Qed.

(** X8. A date label that is neither missing nor a string (a number, an
    object, [true]) makes the earnings normaliser throw a TypeError as soon
    as there are two records, wherever the label stands; a single record is
    returned as it is, the comparator never being called. *)
Theorem normalizeProventos_label_type_error :
  (forall fields models mapped,
      lookup "assetEarningsModels" fields = VArr models ->
      mapM App.proventoItem models = Ret mapped ->
      (2 <= List.length mapped)%nat ->
      Exists (fun p => truthy (App.name p) = true /\ forall s, App.name p <> VStr s) mapped ->
      App.normalizeProventos (VObj fields) = Throw TypeError)
  /\ (forall fields item p,
        lookup "assetEarningsModels" fields = VArr [item] ->
        App.proventoItem item = Ret p ->
        App.normalizeProventos (VObj fields) = Ret [p]).
Proof.
  split.
  - intros fields models mapped Hm Hmap Hlen Hex.
    rewrite (normalizeProventos_run fields models mapped Hm Hmap).
    destruct (Array_sort_throws App.compareByDate
                (fun p => exists e, App.parse (App.name p) = Throw e) mapped) as (e & He).
    + intros a b. apply compareByDate_throws.
    + exact Hlen.
    + apply Exists_exists in Hex. destruct Hex as (p & Hin & Ht & Hs).
      apply Exists_exists. exists p. split; [exact Hin|].
      exists TypeError. now apply parse_not_string.
    + rewrite He. f_equal.
      apply (only_Array_sort App.compareByDate mapped only_compareByDate e He).
  - intros fields item p Hm Hp.
    rewrite (normalizeProventos_run fields [item] [p] Hm); [reflexivity|].
    cbn [mapM]. now rewrite Hp.
Qed.

End Earnings.

Lemma normalizeProventos_keeps_records_witness :
  let out := [App.mkPoint (VStr "01/01/2022") 1%float VUndefined;
              App.mkPoint (VStr "15/03/2023") 1%float VUndefined] in
  App.normalizeProventos (host := Example.host)
    (VObj [("assetEarningsModels", VArr [earning "15/03/2023"; earning "01/01/2022"])])
  = Ret out
  /\ exists mapped,
       mapM (App.proventoItem (host := Example.host))
         [earning "15/03/2023"; earning "01/01/2022"] = Ret mapped
       /\ Permutation mapped out
       /\ List.length out = 2%nat.
Proof.
  intros out.
  assert (Hrun : App.normalizeProventos (host := Example.host)
                   (VObj [("assetEarningsModels",
                           VArr [earning "15/03/2023"; earning "01/01/2022"])])
                 = Ret out) by (vm_compute; reflexivity).
  split; [exact Hrun|].
  exact (proj2 (proj2 (proj2 (@normalizeProventos_keeps_records Example.host)))
           [("assetEarningsModels", VArr [earning "15/03/2023"; earning "01/01/2022"])]
           [earning "15/03/2023"; earning "01/01/2022"] out eq_refl Hrun).
Defined.

Lemma normalizeProventos_label_type_error_witness :
  App.normalizeProventos (host := Example.host)
    (VObj [("assetEarningsModels", VArr [earning "01/01/2022"; VObj [("ed", VNum 5%float)]])])
  = Throw TypeError.
Proof.
  apply (proj1 (@normalizeProventos_label_type_error Example.host)
           [("assetEarningsModels", VArr [earning "01/01/2022"; VObj [("ed", VNum 5%float)]])]
           [earning "01/01/2022"; VObj [("ed", VNum 5%float)]]
           [App.mkPoint (VStr "01/01/2022") 1%float VUndefined;
            App.mkPoint (VNum 5%float) 0%float VUndefined]).
  - reflexivity.
  - reflexivity.
  - cbn. lia.
  - apply Exists_cons_tl, Exists_cons_hd. split; [reflexivity|]. intros s H. discriminate H.
Defined.

(* ----------------------------------------------------------------- *)
(** ** The labels of the synthetic snapshot *)

Lemma yearly_from_labels (f : nat -> float -> float) (rnd : nat -> float) (ys : list string) :
  forall k i,
    map App.name (App.yearly_from f rnd k i ys) = map VStr ys
    /\ Forall (fun p => App.type p = VUndefined) (App.yearly_from f rnd k i ys).
Proof.
  induction ys as [|y ys IH]; intros k i; cbn [App.yearly_from map].
  - split; constructor.
  - destruct (IH (S k) (S i)) as (Hn & Ht). split.
    + cbn [App.name]. now rewrite Hn.
    + constructor; [reflexivity | exact Ht].
Qed.

Lemma monthly_labels (fii : bool) (rnd : nat -> float) (ms : list string) :
  forall k,
    map App.name (App.monthly fii rnd k ms) = map VStr ms
    /\ Forall (fun p => App.type p = VStr (if fii then "Rendimento" else "Dividendo"))
         (App.monthly fii rnd k ms).
Proof.
  induction ms as [|m ms IH]; intros k; cbn [App.monthly map].
  - split; constructor.
  - destruct fii.
    + destruct (IH (S k)) as (Hn & Ht). cbn [map App.name]. rewrite Hn.
      split; [reflexivity|]. constructor; [reflexivity | exact Ht].
    + destruct (PrimFloat.ltb _ (rnd k)).
      * destruct (IH (S (S k))) as (Hn & Ht). cbn [map App.name]. rewrite Hn.
        split; [reflexivity|]. constructor; [reflexivity | exact Ht].
      * destruct (IH (S k)) as (Hn & Ht). cbn [map App.name]. rewrite Hn.
        split; [reflexivity|]. constructor; [reflexivity | exact Ht].
Qed.

(** X9. Whatever the random draws, each of the five monetary series of
    the synthetic snapshot is labelled 2019, 2020, ..., 2024 in this order,
    and the earnings series Jan, Fev, ..., Dez in this order; every earnings
    point is typed "Rendimento" for a fund and "Dividendo" otherwise, also
    when an equity draws a second random number for a month. *)
Theorem generateMockData_labels (rnd : nat -> float) (ticker : string) :
  let s := App.generateMockData rnd ticker in
  let yearsOf l := map App.name l = map VStr App.years in
  yearsOf (App.patrimonio s) /\ yearsOf (App.receitas s) /\ yearsOf (App.despesas s)
  /\ yearsOf (App.caixa s) /\ yearsOf (App.resultado s)
  /\ map App.name (App.proventos s) = map VStr App.months
  /\ Forall (fun p => App.type p
                      = VStr (if App.isFii ticker then "Rendimento" else "Dividendo"))
       (App.proventos s).
Proof.
  intros s yearsOf. subst s yearsOf. unfold App.generateMockData, App.yearly.
  cbn [App.patrimonio App.receitas App.despesas App.caixa App.resultado App.proventos].
  repeat split; try apply yearly_from_labels; apply monthly_labels.
Qed.

(* ----------------------------------------------------------------- *)
(** ** The state after a query *)

Section AfterQuery.
Context {host : Host} (w : App.World).

(** The [try] block stops after the search, or makes the seven requests;
    a snapshot that it returns is a real one. *)
Lemma fetchReal_cases (ticker : string) :
  (exists e, App.fetchReal w ticker [] = (Throw e, [App.proxyUrl (App.searchPath ticker)]))
  \/ exists cat r,
       App.fetchReal w ticker []
       = (r, App.proxyUrl (App.searchPath ticker) :: map App.proxyUrl (App.endpoints cat ticker))
       /\ forall snap, r = Ret snap -> App.isMock snap = false.
Proof.
  destruct (App.settle (App.relay w (App.proxyUrl (App.searchPath ticker))))
    as [searchData|e] eqn:Hs.
  - destruct (App.inferCategoria searchData) as [cat|e] eqn:Hc.
    + right. exists cat. rewrite (fetchReal_run w ticker searchData cat Hs Hc). cbv zeta.
      eexists. split; [reflexivity|].
      match goal with |- context [forallb ?f ?l] => destruct (forallb f l) end.
      * discriminate.
      * intros snap. apply realSnapshot_isMock.
    + left. exists e. now apply fetchReal_inference_error with (searchData := searchData).
  - left. exists e. now apply fetchReal_search_error.
Qed.

Lemma fetchReal_isMock (ticker : string) (snap : App.snapshot) :
  fst (App.fetchReal w ticker []) = Ret snap -> App.isMock snap = false.
Proof.
  destruct (fetchReal_cases ticker) as [(e & ->)|(cat & r & -> & H)]; cbn [fst].
  - discriminate.
  - apply H.
Qed.

Lemma fetchReal_requests (ticker : string) :
  snd (App.fetchReal w ticker []) = [App.proxyUrl (App.searchPath ticker)]
  \/ exists cat,
       snd (App.fetchReal w ticker [])
       = App.proxyUrl (App.searchPath ticker) :: map App.proxyUrl (App.endpoints cat ticker).
Proof.
  destruct (fetchReal_cases ticker) as [(e & ->)|(cat & r & -> & H)]; cbn [snd].
  - now left.
  - right. now exists cat.
Qed.

(** X10. After every query with a non-blank ticker the component is no
    longer loading, names the normalised ticker, and holds a snapshot; the
    snapshot is synthetic exactly when an error notice is set, so synthetic
    data is never shown without its notice nor real data with one, and a
    synthetic snapshot is the one generated for that ticker. *)
Theorem query_sets_notice_with_synthetic (tickerRaw : string) (st : App.ui) :
  let ticker := toUpperCase (trim tickerRaw) in
  let final := fst (App.fetchFinancialData w tickerRaw st) in
  ticker <> EmptyString ->
  App.loading final = false
  /\ App.currentTicker final = ticker
  /\ exists snap,
       App.data final = Some snap
       /\ (App.isMock snap = true <-> App.error final <> None)
       /\ (App.isMock snap = true -> snap = App.generateMockData (App.random w) ticker).
Proof.
  intros ticker final Hticker. subst final.
  rewrite (fetchFinancialData_settled w tickerRaw st Hticker). fold ticker.
  pose proof (fetchReal_isMock ticker) as Hreal.
  destruct (App.fetchReal w ticker []) as [[snap|e] tr];
    cbn [fst App.loading App.currentTicker App.data App.error].
  - split; [reflexivity|]. split; [reflexivity|]. exists snap.
    specialize (Hreal snap eq_refl).
    split; [reflexivity|]. rewrite Hreal. split; [|discriminate].
    split; [discriminate | intros H; now contradiction H].
  - split; [reflexivity|]. split; [reflexivity|].
    exists (App.generateMockData (App.random w) ticker).
    split; [reflexivity|]. split; [|reflexivity].
    split; [discriminate | reflexivity].
Qed.

Lemma proxyUrl_prefix (path : string) :
  startsWith (App.proxyUrl path) "/api/proxy?url=" = true.
Proof.
  unfold startsWith, App.proxyUrl. cbv zeta.
  generalize (encodeURIComponent (App.SI_BASE ++ path)). intros x.
  cbn. now destruct x.
Qed.

(** X11. Every request of a query goes to the relay: its URL starts with
    "/api/proxy?url=", never with the upstream origin.  A query makes no
    request (blank ticker), one (the search, when it fails or cannot be
    classified) or seven (the search and then the six endpoints of one
    category), and the first is always the search. *)
Theorem query_requests (tickerRaw : string) (st : App.ui) :
  let ticker := toUpperCase (trim tickerRaw) in
  let requests := snd (App.fetchFinancialData w tickerRaw st) in
  Forall (fun url => startsWith url "/api/proxy?url=" = true) requests
  /\ (requests = []
      \/ requests = [App.proxyUrl (App.searchPath ticker)]
      \/ exists cat,
           requests
           = App.proxyUrl (App.searchPath ticker) :: map App.proxyUrl (App.endpoints cat ticker)
           /\ List.length requests = 7%nat)
  /\ (requests = [] <-> ticker = EmptyString).
Proof.
  intros ticker requests. subst requests.
  destruct (String.eqb_spec ticker EmptyString) as [Hempty|Hticker].
  - rewrite (fetchFinancialData_empty w tickerRaw st Hempty). cbn [snd].
    split; [constructor|]. split; [now left | tauto].
  - rewrite (fetchFinancialData_settled w tickerRaw st Hticker). fold ticker.
    pose proof (fetchReal_requests ticker) as Hreq.
    destruct (App.fetchReal w ticker []) as [[snap|e] tr]; cbn [snd] in *;
      (destruct Hreq as [->|(cat & ->)];
       [ split; [repeat constructor; apply proxyUrl_prefix|];
         split; [right; now left|]; split; [discriminate | contradiction]
       | split; [constructor; [apply proxyUrl_prefix|];
                 apply Forall_forall; intros url Hin; apply in_map_iff in Hin;
                 destruct Hin as (p & <- & _); apply proxyUrl_prefix|];
         split; [right; right; exists cat; split; reflexivity|];
         split; [discriminate | contradiction] ]).
Qed.

End AfterQuery.

Lemma trimStart_blank (s : string) :
  (forall i c, String.get i s = Some c -> is_space c = true) -> trimStart s = EmptyString.
Proof.
  induction s as [|a s IH]; intros H; [reflexivity|]. cbn [trimStart].
  rewrite (H 0%nat a eq_refl). apply IH. intros i c Hi. exact (H (S i) c Hi).
Qed.

(** X12. A ticker that is empty or made of white space only starts no
    query: no request is made and the state of the component, the data of
    the previous query included, is left as it was. *)
Theorem blank_ticker_is_ignored {host : Host} (w : App.World) (tickerRaw : string)
  (st : App.ui) :
  (forall i c, String.get i tickerRaw = Some c -> is_space c = true) ->
  toUpperCase EmptyString = EmptyString ->
  App.fetchFinancialData w tickerRaw st = (st, []).
Proof.
  intros Hblank Hup. apply fetchFinancialData_empty.
  unfold trim. rewrite (trimStart_blank tickerRaw Hblank). exact Hup.
Qed.

Lemma blank_ticker_is_ignored_witness :
  App.fetchFinancialData (host := Example.host) unreachable "  " idle = (idle, []).
Proof.
  apply (@blank_ticker_is_ignored Example.host unreachable "  " idle).
  - intros [|[|i]] c H; inversion H; reflexivity.
  - reflexivity.
Defined.

Lemma query_sets_notice_with_synthetic_witness :
  App.loading (fst (App.fetchFinancialData (host := Example.host) unreachable "petr4" idle))
  = false
  /\ App.currentTicker
       (fst (App.fetchFinancialData (host := Example.host) unreachable "petr4" idle))
     = "PETR4".
Proof.
  pose proof (@query_sets_notice_with_synthetic Example.host unreachable "petr4" idle) as H.
  cbv zeta in H. destruct H as (Hl & Hc & _); [discriminate|].
  split; [exact Hl | exact Hc].
Defined.

(* ----------------------------------------------------------------- *)
(** ** The series of a real snapshot *)

Lemma normalize_failed_slot {host : Host} (r : val) :
  failed_slot r ->
  App.normalizeGenericChartData r = Ret [] /\ App.normalizeProventos r = Ret [].
Proof. intros [->| ->]; split; reflexivity. Qed.

(** X13. In a real snapshot every series is the normalisation of its own
    slot and of no other, and the category label is that of the inferred
    category; a slot that failed ([null] or an object without keys) leaves
    its series empty while the other series keep their data. *)
Theorem real_snapshot_series {host : Host} (cat : string) (pat rec desp cx res prov : val)
  (snap : App.snapshot) :
  App.realSnapshot cat pat rec desp cx res prov = Ret snap ->
  (App.normalizeGenericChartData pat = Ret (App.patrimonio snap)
   /\ App.normalizeGenericChartData rec = Ret (App.receitas snap)
   /\ App.normalizeGenericChartData desp = Ret (App.despesas snap)
   /\ App.normalizeGenericChartData cx = Ret (App.caixa snap)
   /\ App.normalizeGenericChartData res = Ret (App.resultado snap)
   /\ App.normalizeProventos prov = Ret (App.proventos snap))
  /\ (App.categoria snap = "FII" \/ App.categoria snap = "FIAGRO" \/ App.categoria snap = "AÇÃO")
  /\ (failed_slot pat -> App.patrimonio snap = [])
  /\ (failed_slot rec -> App.receitas snap = [])
  /\ (failed_slot desp -> App.despesas snap = [])
  /\ (failed_slot cx -> App.caixa snap = [])
  /\ (failed_slot res -> App.resultado snap = [])
  /\ (failed_slot prov -> App.proventos snap = []).
Proof.
  unfold App.realSnapshot. intros H.
  destruct (App.normalizeGenericChartData pat) as [p1|] eqn:H1; [|discriminate H].
  destruct (App.normalizeGenericChartData rec) as [p2|] eqn:H2; [|discriminate H].
  destruct (App.normalizeGenericChartData desp) as [p3|] eqn:H3; [|discriminate H].
  destruct (App.normalizeGenericChartData cx) as [p4|] eqn:H4; [|discriminate H].
  destruct (App.normalizeGenericChartData res) as [p5|] eqn:H5; [|discriminate H].
  destruct (App.normalizeProventos prov) as [p6|] eqn:H6; [|discriminate H].
  cbn [bind] in H. inversion H; subst snap; clear H.
  cbn [App.patrimonio App.receitas App.despesas App.caixa App.resultado App.proventos
       App.categoria].
  split; [repeat split|]. split.
  { unfold App.categoriaLabel. destruct (String.eqb cat "fii"); [now left|].
    destruct (String.eqb cat "fiagro"); [right; now left | right; now right]. }
  repeat split; intros Hf; apply normalize_failed_slot in Hf; destruct Hf as (Hg & Hp);
    congruence.
Qed.

Lemma real_snapshot_series_witness :
  let snap := App.mkSnapshot [] [App.mkPoint (VStr "2023") 4%float VUndefined] [] [] [] []
                false "AÇÃO" in
  App.realSnapshot (host := Example.host) "acoes" VNull
    (VArr [VObj [("date", VStr "2023"); ("value", VNum 4%float)]]) VNull VNull VNull (VObj [])
  = Ret snap
  /\ App.patrimonio snap = []
  /\ App.proventos snap = []
  /\ App.normalizeGenericChartData (host := Example.host)
       (VArr [VObj [("date", VStr "2023"); ("value", VNum 4%float)]])
     = Ret (App.receitas snap).
Proof.
  intros snap.
  assert (Hrun : App.realSnapshot (host := Example.host) "acoes" VNull
                   (VArr [VObj [("date", VStr "2023"); ("value", VNum 4%float)]])
                   VNull VNull VNull (VObj [])
                 = Ret snap) by reflexivity.
  split; [exact Hrun|].
  destruct (@real_snapshot_series Example.host "acoes" VNull
              (VArr [VObj [("date", VStr "2023"); ("value", VNum 4%float)]])
              VNull VNull VNull (VObj []) snap Hrun)
    as ((_ & Hrec & _) & _ & Hpat & _ & _ & _ & _ & Hprov).
  split; [apply Hpat; now left|]. split; [apply Hprov; now right | exact Hrec].
Defined.

(* ----------------------------------------------------------------- *)
(** ** The relay: what every answer and every call have *)

Lemma two_hundred_chars (s : string) :
  forall n,
    String.length (String.substring 0 n s) = Nat.min n (String.length s)
    /\ String.prefix (String.substring 0 n s) s = true.
Proof.
  induction s as [|a s IH]; intros [|n]; cbn [String.substring String.length Nat.min];
    try (split; reflexivity).
  destruct (IH n) as (Hl & Hp). split; [now rewrite Hl|].
  cbn [String.prefix]. destruct (ascii_dec a a) as [_|Hne]; [exact Hp | now destruct Hne].
Qed.

Lemma length_append (p s : string) :
  String.length (p ++ s) = (String.length p + String.length s)%nat.
Proof. induction p as [|a p IH]; cbn; [reflexivity | now rewrite IH]. Qed.

Lemma substring_all (s : string) : String.substring 0 (String.length s) s = s.
Proof. induction s as [|a s IH]; cbn; [reflexivity | now rewrite IH]. Qed.

Lemma substring_skip (p s : string) (m : nat) :
  String.substring (String.length p) m (p ++ s) = String.substring 0 m s.
Proof. induction p as [|a p IH]; cbn; [reflexivity | exact IH]. Qed.

(** Any string followed by the suffix ends with it. *)
Lemma endsWith_append (p s : string) : endsWith (p ++ s) s = true.
Proof.
  unfold endsWith. rewrite length_append.
  replace (String.length p + String.length s - String.length s)%nat with (String.length p)
    by lia.
  rewrite substring_skip, substring_all, String.eqb_refl.
  rewrite andb_true_r. apply Nat.leb_le. lia.
Qed.

Section RelayInvariants.
Context {host : Host} (net : string -> Proxy.upstream).

(** X14. The relay is no open proxy and keeps its disguise: a request
    leads to at most one outbound call; a call is made only for a request
    other than the preflight whose target parses to a hostname ending with
    "statusinvest.com.br"; and every call carries the whole fixed set of
    browser headers, the user agent, referer, origin and the sec-ch-ua and
    sec-fetch families included. *)
Theorem handler_calls_are_guarded (req : Proxy.request) :
  (List.length (snd (Proxy.handler net req)) <= 1)%nat
  /\ forall c, In c (snd (Proxy.handler net req)) ->
       Proxy.method req <> "OPTIONS"
       /\ (exists hostname,
             hostname_of (Proxy.target c) = Some hostname
             /\ endsWith hostname "statusinvest.com.br" = true)
       /\ Proxy.sent c = Proxy.browserHeaders
       /\ incl ["User-Agent"; "Accept"; "Accept-Language"; "Referer"; "Origin";
                "X-Requested-With"; "sec-ch-ua"; "sec-ch-ua-mobile"; "sec-ch-ua-platform";
                "Sec-Fetch-Dest"; "Sec-Fetch-Mode"; "Sec-Fetch-Site"; "Cache-Control"]
            (map fst (Proxy.sent c)).
Proof.
  unfold Proxy.handler.
  destruct (String.eqb_spec (Proxy.method req) "OPTIONS") as [Hm|Hm].
  { split; [cbn; lia | intros c []]. }
  destruct (negb (Proxy.param_truthy (Proxy.query_url req))).
  { split; [cbn; lia | intros c []]. }
  destruct (hostname_of (Proxy.param_string (Proxy.query_url req))) as [hostname|] eqn:Hh.
  2:{ split; [cbn; lia | intros c []]. }
  destruct (endsWith hostname "statusinvest.com.br") eqn:He; cbn [negb].
  2:{ split; [cbn; lia | intros c []]. }
  rewrite relayTo_calls. split; [cbn; lia|].
  intros c [<-|[]]. cbn [Proxy.target Proxy.sent].
  split; [exact Hm|]. split; [eauto|]. split; [reflexivity|].
  intros k Hk. cbn in Hk |- *. tauto.
Qed.

End RelayInvariants.

Section RelayAnswers.
Context {host : Host} (net : string -> Proxy.upstream).

(** The answers of [relayTo]: an error with its message, or the data. *)
Lemma relayTo_answer (targetUrl : string) :
  (exists st message rest,
      In st [500; 502; 503]%nat
      /\ fst (Proxy.relayTo net targetUrl)
         = Proxy.json st Proxy.cors (("error", VStr message) :: rest))
  \/ exists data,
       fst (Proxy.relayTo net targetUrl)
       = Proxy.mkResponse 200
           (Proxy.setHeader "Content-Type" "application/json"
              (Proxy.setHeader "Cache-Control" "s-maxage=300, stale-while-revalidate=60"
                 Proxy.cors))
           (Some data).
Proof.
  unfold Proxy.relayTo. cbv zeta.
  destruct (net targetUrl) as [m|st ct [rawText|m]]; cbn [fst].
  - left. do 3 eexists. split; [|reflexivity]. cbn; tauto.
  - destruct (Proxy.looksBlocked st _ rawText).
    + left. do 3 eexists. split; [|reflexivity]. cbn; tauto.
    + destruct (JSON_parse rawText) as [data|].
      * right. eexists. reflexivity.
      * left. do 3 eexists. split; [|reflexivity]. cbn; tauto.
  - left. do 3 eexists. split; [|reflexivity]. cbn; tauto.
Qed.

(** The answers of [handler]: the preflight, an error with its message, or
    the data. *)
Lemma handler_answer (req : Proxy.request) :
  (Proxy.method req = "OPTIONS"
   /\ fst (Proxy.handler net req) = Proxy.mkResponse 200 Proxy.cors None)
  \/ (Proxy.method req <> "OPTIONS"
      /\ exists st message rest,
           In st [400; 403; 500; 502; 503]%nat
           /\ fst (Proxy.handler net req)
              = Proxy.json st Proxy.cors (("error", VStr message) :: rest))
  \/ (Proxy.method req <> "OPTIONS"
      /\ exists data,
           fst (Proxy.handler net req)
           = Proxy.mkResponse 200
               (Proxy.setHeader "Content-Type" "application/json"
                  (Proxy.setHeader "Cache-Control" "s-maxage=300, stale-while-revalidate=60"
                     Proxy.cors))
               (Some data)).
Proof.
  unfold Proxy.handler.
  destruct (String.eqb_spec (Proxy.method req) "OPTIONS") as [Hm|Hm]; [now left|].
  right.
  destruct (negb (Proxy.param_truthy (Proxy.query_url req))).
  { left. split; [exact Hm|]. do 3 eexists. split; [|reflexivity]. cbn; tauto. }
  destruct (hostname_of (Proxy.param_string (Proxy.query_url req))) as [hostname|].
  2:{ left. split; [exact Hm|]. do 3 eexists. split; [|reflexivity]. cbn; tauto. }
  destruct (negb (endsWith hostname "statusinvest.com.br")).
  { left. split; [exact Hm|]. do 3 eexists. split; [|reflexivity]. cbn; tauto. }
  destruct (relayTo_answer (Proxy.param_string (Proxy.query_url req)))
    as [(st & message & rest & Hst & ->)|(data & ->)].
  - left. split; [exact Hm|]. exists st, message, rest. split; [cbn in *; tauto | reflexivity].
  - right. split; [exact Hm|]. now exists data.
Qed.

(** X15. Every answer of the relay, the errors and the preflight included,
    carries the three CORS headers.  Its status is one of 200, 400, 403,
    500, 502 and 503.  The cache directive is set on the answers that
    return upstream data and on no other: an error answer is never
    cacheable, and every answer other than the preflight that is not 200
    has a JSON body with an [error] message. *)
Theorem handler_answer_headers (req : Proxy.request) :
  let r := fst (Proxy.handler net req) in
  header "Access-Control-Allow-Origin" r = Some "*"
  /\ header "Access-Control-Allow-Methods" r = Some "GET, OPTIONS"
  /\ header "Access-Control-Allow-Headers" r = Some "Content-Type"
  /\ In (Proxy.status r) [200; 400; 403; 500; 502; 503]%nat
  /\ (header "Cache-Control" r = Some "s-maxage=300, stale-while-revalidate=60"
      \/ header "Cache-Control" r = None)
  /\ (header "Cache-Control" r <> None
      <-> Proxy.method req <> "OPTIONS" /\ Proxy.status r = 200%nat)
  /\ (Proxy.method req <> "OPTIONS" -> Proxy.status r <> 200%nat ->
      exists fields message,
        Proxy.payload r = Some (VObj fields) /\ lookup "error" fields = VStr message).
Proof.
  cbv zeta.
  destruct (handler_answer req)
    as [(Hm & ->)|[(Hm & st & message & rest & Hst & ->)|(Hm & data & ->)]].
  - split; [reflexivity|]. split; [reflexivity|]. split; [reflexivity|].
    split; [cbn; tauto|]. split; [now right|]. split.
    + split; [intros H; now contradiction H | intros (H & _); contradiction].
    + intros H; contradiction.
  - split; [reflexivity|]. split; [reflexivity|]. split; [reflexivity|].
    cbn [Proxy.status Proxy.json Proxy.payload].
    split; [cbn in *; tauto|]. split; [now right|]. split.
    + split; [intros H; now contradiction H|].
      intros (_ & H). subst st. cbn in Hst. lia.
    + intros _ _. exists (("error", VStr message) :: rest), message. split; reflexivity.
  - split; [reflexivity|]. split; [reflexivity|]. split; [reflexivity|].
    cbn [Proxy.status Proxy.payload].
    split; [cbn; tauto|]. split; [now left|]. split.
    + split; [intros _; split; [exact Hm | reflexivity] | intros _; discriminate].
    + intros _ H. now contradiction H.
Qed.

(** A slice as long as the string, or longer, is the string. *)
Lemma slice0_short (s : string) :
  forall n, (String.length s <= n)%nat -> slice0 n s = s.
Proof.
  unfold slice0. induction s as [|a s IH]; intros [|n] H; cbn in H |- *;
    try reflexivity; try lia.
  rewrite IH by lia. reflexivity.
Qed.

(** X16. On the two answers that quote the upstream body, 502 and 503, the
    [preview] is the first 200 characters of the body: a prefix of it, of
    length 200 or of the length of the body when that is shorter.  A body
    of at most 200 characters is quoted whole; of a longer body 200
    characters are quoted and never the whole. *)
Theorem handler_preview_is_bounded (req : Proxy.request) (hostname : string)
  (st : nat) (ct : option string) (rawText : string) :
  Proxy.method req <> "OPTIONS" ->
  Proxy.param_truthy (Proxy.query_url req) = true ->
  hostname_of (Proxy.param_string (Proxy.query_url req)) = Some hostname ->
  endsWith hostname "statusinvest.com.br" = true ->
  net (Proxy.param_string (Proxy.query_url req)) = Proxy.Responded st ct (Proxy.Text rawText) ->
  Proxy.status (fst (Proxy.handler net req)) <> 200%nat ->
  exists fields preview,
    Proxy.payload (fst (Proxy.handler net req)) = Some (VObj fields)
    /\ lookup "preview" fields = VStr preview
    /\ String.length preview = Nat.min 200 (String.length rawText)
    /\ startsWith rawText preview = true
    /\ (String.length preview <= 200)%nat
    /\ ((String.length rawText <= 200)%nat -> preview = rawText)
    /\ ((200 < String.length rawText)%nat -> preview <> rawText).
Proof.
  intros Hm Hp Hu He Hnet.
  rewrite (handler_accepts net req hostname Hm Hp Hu He).
  unfold Proxy.relayTo. rewrite Hnet. cbv zeta.
  destruct (two_hundred_chars rawText 200) as (Hlen & Hpre).
  assert (Hbound : (String.length (slice0 200 rawText) <= 200)%nat)
    by (unfold slice0; rewrite Hlen; apply Nat.le_min_l).
  assert (Hlong : (200 < String.length rawText)%nat -> slice0 200 rawText <> rawText).
  { intros Hgt Heq. unfold slice0 in Heq. rewrite Heq in Hlen. lia. }
  destruct (Proxy.looksBlocked st _ rawText); [|destruct (JSON_parse rawText)];
    cbn [fst Proxy.status Proxy.payload Proxy.json]; intros Hs;
    try (now contradiction Hs); eexists; exists (slice0 200 rawText);
    (split; [reflexivity|]; split; [reflexivity|]; split; [exact Hlen|];
     split; [exact Hpre|]; split; [exact Hbound|];
     split; [apply slice0_short | exact Hlong]).
Qed.

(** X17. The allow-list is a plain suffix test on the hostname, without a
    dot before the suffix: a request other than the preflight whose
    hostname is any string followed by "statusinvest.com.br" is relayed,
    with the browser headers, so the hostname of another registrable domain
    such as evilstatusinvest.com.br passes. *)
Theorem handler_accepts_any_suffix_match (req : Proxy.request) (prefix : string) :
  Proxy.method req <> "OPTIONS" ->
  Proxy.param_truthy (Proxy.query_url req) = true ->
  hostname_of (Proxy.param_string (Proxy.query_url req))
  = Some (prefix ++ "statusinvest.com.br") ->
  snd (Proxy.handler net req)
  = [Proxy.mkCall (Proxy.param_string (Proxy.query_url req)) Proxy.browserHeaders].
Proof.
  intros Hm Hp Hu.
  rewrite (handler_accepts net req (prefix ++ "statusinvest.com.br") Hm Hp Hu
             (endsWith_append prefix "statusinvest.com.br")).
  apply relayTo_calls.
Qed.

(** X18. A request without a usable target is refused before the
    network: when the [url] parameter is missing or empty, or when it does
    not parse as a URL, the answer is 400 with an [error] message, which
    quotes the value in the second case, and no call is made. *)
Theorem handler_bad_request (req : Proxy.request) :
  Proxy.method req <> "OPTIONS" ->
  (Proxy.param_truthy (Proxy.query_url req) = false
   \/ hostname_of (Proxy.param_string (Proxy.query_url req)) = None) ->
  Proxy.status (fst (Proxy.handler net req)) = 400%nat
  /\ snd (Proxy.handler net req) = []
  /\ (exists message,
        Proxy.payload (fst (Proxy.handler net req)) = Some (VObj [("error", VStr message)])
        /\ (Proxy.param_truthy (Proxy.query_url req) = true ->
            endsWith message (Proxy.param_string (Proxy.query_url req)) = true)).
Proof.
  intros Hm Hbad. unfold Proxy.handler. apply String.eqb_neq in Hm. rewrite Hm.
  destruct (Proxy.param_truthy (Proxy.query_url req)) eqn:Hp; cbn [negb].
  - destruct Hbad as [Hbad|Hbad]; [discriminate Hbad|]. rewrite Hbad.
    cbn [fst snd Proxy.status Proxy.payload Proxy.json].
    split; [reflexivity|]. split; [reflexivity|]. eexists. split; [reflexivity|].
    intros _. apply endsWith_append.
  - cbn [fst snd Proxy.status Proxy.payload Proxy.json].
    split; [reflexivity|]. split; [reflexivity|]. eexists. split; [reflexivity|].
    intros H. discriminate H.
Qed.

End RelayAnswers.

Lemma handler_preview_is_bounded_witness :
  exists fields preview,
    Proxy.payload
      (fst (Proxy.handler (host := Example.host)
              (fun _ => Proxy.Responded 200 (Some "application/json") (Proxy.Text "oops"))
              (Proxy.mkRequest "GET" (Proxy.Single "https://statusinvest.com.br/x"))))
    = Some (VObj fields)
    /\ lookup "preview" fields = VStr preview
    /\ String.length preview = Nat.min 200 (String.length "oops")
    /\ startsWith "oops" preview = true
    /\ (String.length preview <= 200)%nat
    /\ ((String.length "oops" <= 200)%nat -> preview = "oops")
    /\ ((200 < String.length "oops")%nat -> preview <> "oops").
Proof.
  apply (@handler_preview_is_bounded Example.host
           (fun _ => Proxy.Responded 200 (Some "application/json") (Proxy.Text "oops"))
           (Proxy.mkRequest "GET" (Proxy.Single "https://statusinvest.com.br/x"))
           "statusinvest.com.br" 200 (Some "application/json") "oops");
    try reflexivity; discriminate.
Defined.

Lemma handler_accepts_any_suffix_match_witness :
  snd (Proxy.handler (host := Example.host) (fun _ => Proxy.Failed "down")
         (Proxy.mkRequest "GET" (Proxy.Single "https://evilstatusinvest.com.br/x")))
  = [Proxy.mkCall "https://evilstatusinvest.com.br/x" Proxy.browserHeaders].
Proof.
  apply (@handler_accepts_any_suffix_match Example.host (fun _ => Proxy.Failed "down")
           (Proxy.mkRequest "GET" (Proxy.Single "https://evilstatusinvest.com.br/x")) "evil");
    try reflexivity; discriminate.
Defined.

Lemma handler_bad_request_witness :
  Proxy.status
    (fst (Proxy.handler (host := Example.host) (fun _ => Proxy.Failed "down")
            (Proxy.mkRequest "GET" (Proxy.Single "statusinvest.com.br/x")))) = 400%nat
  /\ snd (Proxy.handler (host := Example.host) (fun _ => Proxy.Failed "down")
            (Proxy.mkRequest "GET" (Proxy.Single "statusinvest.com.br/x"))) = [].
Proof.
  destruct (@handler_bad_request Example.host (fun _ => Proxy.Failed "down")
              (Proxy.mkRequest "GET" (Proxy.Single "statusinvest.com.br/x")))
    as (Hs & Hc & _); [discriminate | right; reflexivity |].
  split; [exact Hs | exact Hc].
Defined.

(* ----------------------------------------------------------------- *)
(** ** The older copy of the relay *)

Section LegacyRelay.
Context {host : Host} (net : string -> Proxy.upstream).

Lemma legacy_handler_accepts (req : Proxy.request) (decoded hostname : string) :
  Proxy.method req <> "OPTIONS" ->
  Proxy.param_truthy (Proxy.query_url req) = true ->
  decodeURIComponent (Proxy.param_string (Proxy.query_url req)) = Some decoded ->
  hostname_of decoded = Some hostname ->
  endsWith hostname "statusinvest.com.br" = true ->
  ProxyLegacy.handler net req = ProxyLegacy.relayTo net decoded.
Proof.
  intros Hm Hp Hd Hu He. unfold ProxyLegacy.handler.
  apply String.eqb_neq in Hm. rewrite Hm, Hp, Hd, Hu, He. reflexivity.
Qed.

Lemma legacy_relayTo_calls (targetUrl : string) :
  snd (ProxyLegacy.relayTo net targetUrl)
  = [Proxy.mkCall targetUrl ProxyLegacy.browserHeaders].
Proof.
  unfold ProxyLegacy.relayTo. cbv zeta.
  destruct (net targetUrl) as [m|st ct content]; [reflexivity|].
  destruct (negb (App.ok st)); [reflexivity|].
  destruct (includes _ "text/html"); [reflexivity|].
  destruct content as [rawText|m]; [|reflexivity].
  destruct (JSON_parse rawText); reflexivity.
Qed.

(** X19. The older relay decodes the delivered parameter once more: a
    value that does not decode is answered 400 without a call; otherwise
    the guards are applied to the decoded string and the decoded string,
    not the delivered one, is what is fetched. *)
Theorem legacy_handler_fetches_decoded (req : Proxy.request) :
  Proxy.method req <> "OPTIONS" ->
  Proxy.param_truthy (Proxy.query_url req) = true ->
  (decodeURIComponent (Proxy.param_string (Proxy.query_url req)) = None ->
   Proxy.status (fst (ProxyLegacy.handler net req)) = 400%nat
   /\ snd (ProxyLegacy.handler net req) = [])
  /\ (forall decoded hostname,
        decodeURIComponent (Proxy.param_string (Proxy.query_url req)) = Some decoded ->
        hostname_of decoded = Some hostname ->
        endsWith hostname "statusinvest.com.br" = true ->
        snd (ProxyLegacy.handler net req) = [Proxy.mkCall decoded ProxyLegacy.browserHeaders])
  /\ (forall c,
        In c (snd (ProxyLegacy.handler net req)) ->
        decodeURIComponent (Proxy.param_string (Proxy.query_url req)) = Some (Proxy.target c)).
Proof.
  intros Hm Hp. split; [|split].
  - intros Hd. unfold ProxyLegacy.handler. apply String.eqb_neq in Hm.
    rewrite Hm, Hp, Hd. split; reflexivity.
  - intros decoded hostname Hd Hu He.
    rewrite (legacy_handler_accepts req decoded hostname Hm Hp Hd Hu He).
    apply legacy_relayTo_calls.
  - intros c Hc. unfold ProxyLegacy.handler in Hc.
    assert (Hm' : String.eqb (Proxy.method req) "OPTIONS" = false) by now apply String.eqb_neq.
    rewrite Hm', Hp in Hc. cbn [negb] in Hc.
    destruct (decodeURIComponent (Proxy.param_string (Proxy.query_url req))) as [decoded|];
      [|destruct Hc].
    destruct (hostname_of decoded); [|destruct Hc].
    destruct (negb (endsWith s "statusinvest.com.br")); [destruct Hc|].
    rewrite legacy_relayTo_calls in Hc. destruct Hc as [<-|[]]. reflexivity.
Qed.

(** X20. Once it has fetched, the older relay hands an upstream status
    outside 200..299 through as its own status, with the status in the
    body, whatever the content type and the body; on a success status it
    answers 503 for a content type that includes "text/html", and it does
    not look at the body for markup: a body that is not JSON is answered
    500. *)
Theorem legacy_relay_statuses (req : Proxy.request) (decoded hostname : string)
  (st : nat) (ct : option string) (content : Proxy.body) :
  Proxy.method req <> "OPTIONS" ->
  Proxy.param_truthy (Proxy.query_url req) = true ->
  decodeURIComponent (Proxy.param_string (Proxy.query_url req)) = Some decoded ->
  hostname_of decoded = Some hostname ->
  endsWith hostname "statusinvest.com.br" = true ->
  net decoded = Proxy.Responded st ct content ->
  let answer := fst (ProxyLegacy.handler net req) in
  let contentType := match ct with Some c => c | None => EmptyString end in
  (App.ok st = false ->
   Proxy.status answer = st
   /\ Proxy.payload answer
      = Some (VObj [("error", VStr ("StatusInvest retornou " ++ decimal st));
                    ("status", VNum (float_of_nat st))]))
  /\ (App.ok st = true -> includes contentType "text/html" = true ->
      Proxy.status answer = 503%nat
      /\ exists message,
           Proxy.payload answer
           = Some (VObj [("error", VStr message); ("blocked", VBool true)]))
  /\ (App.ok st = true -> includes contentType "text/html" = false ->
      forall rawText, content = Proxy.Text rawText ->
        match JSON_parse rawText with
        | Some data => Proxy.status answer = 200%nat /\ Proxy.payload answer = Some data
        | None => Proxy.status answer = 500%nat
        end).
Proof.
  intros Hm Hp Hd Hu He Hnet answer contentType. subst answer.
  rewrite (legacy_handler_accepts req decoded hostname Hm Hp Hd Hu He).
  unfold ProxyLegacy.relayTo. rewrite Hnet. cbv zeta. fold contentType.
  split; [|split].
  - intros Hok. rewrite Hok. split; reflexivity.
  - intros Hok Hhtml. rewrite Hok, Hhtml. split; [reflexivity | eexists; reflexivity].
  - intros Hok Hhtml rawText ->. rewrite Hok, Hhtml. cbn [negb].
    destruct (JSON_parse rawText); [split|]; reflexivity.
Qed.

End LegacyRelay.

Lemma legacy_handler_fetches_decoded_witness :
  snd (ProxyLegacy.handler (host := Example.host) (fun _ => Proxy.Failed "down")
         (Proxy.mkRequest "GET" (Proxy.Single "https://statusinvest.com.br/a?q=100%25")))
  = [Proxy.mkCall "https://statusinvest.com.br/a?q=100%" ProxyLegacy.browserHeaders].
Proof.
  destruct (@legacy_handler_fetches_decoded Example.host (fun _ => Proxy.Failed "down")
              (Proxy.mkRequest "GET" (Proxy.Single "https://statusinvest.com.br/a?q=100%25")))
    as (_ & H & _); [discriminate | reflexivity |].
  apply (H "https://statusinvest.com.br/a?q=100%" "statusinvest.com.br"); reflexivity.
Defined.

Lemma legacy_relay_statuses_witness :
  Proxy.status
    (fst (ProxyLegacy.handler (host := Example.host)
            (fun _ => Proxy.Responded 404 (Some "text/html") (Proxy.Text "<html>"))
            (Proxy.mkRequest "GET" (Proxy.Single "https://statusinvest.com.br/missing"))))
  = 404%nat.
Proof.
  pose proof (@legacy_relay_statuses Example.host
                (fun _ => Proxy.Responded 404 (Some "text/html") (Proxy.Text "<html>"))
                (Proxy.mkRequest "GET" (Proxy.Single "https://statusinvest.com.br/missing"))
                "https://statusinvest.com.br/missing" "statusinvest.com.br"
                404 (Some "text/html") (Proxy.Text "<html>")) as H.
  cbv zeta in H.
  destruct H as (H & _);
    [discriminate | reflexivity | reflexivity | reflexivity | reflexivity | reflexivity |].
  exact (proj1 (H eq_refl)).
Defined.

(* ----------------------------------------------------------------- *)
(** ** The older copy of the client *)

(** X21. The older aggregator counts as empty, besides [null] and the
    object without keys that the current one counts, the empty array, the
    empty string and every number and boolean; every slot that the current
    test counts as failed the older one counts too. *)
Theorem legacy_isEmptyResult_counts_more (r : val) :
  r <> VUndefined ->
  (AppLegacy.isEmptyResult r = true
   <-> App.isEmptyResult r = true
       \/ r = VArr [] \/ r = VStr EmptyString
       \/ (exists b, r = VBool b) \/ (exists x, r = VNum x)).
Proof.
  intros Hu. split.
  - destruct r as [| |b|x|s|l|fs]; intros H.
    + now contradiction Hu.
    + now left.
    + right; right; right; left. now exists b.
    + right; right; right; right. now exists x.
    + destruct s; [right; right; now left | discriminate H].
    + destruct l; [right; now left | discriminate H].
    + destruct fs; [now left | discriminate H].
  - intros [H|[->|[->|[(b & ->)|(x & ->)]]]]; try reflexivity.
    apply isEmptyResult_iff in H. destruct H as [->| ->]; reflexivity.
Qed.

Lemma legacy_isEmptyResult_counts_more_witness :
  AppLegacy.isEmptyResult (VArr []) = true
  <-> App.isEmptyResult (VArr []) = true
      \/ VArr [] = VArr [] \/ VArr [] = VStr EmptyString
      \/ (exists b, VArr [] = VBool b) \/ (exists x, VArr [] = VNum x).
Proof. apply (legacy_isEmptyResult_counts_more (VArr [])). discriminate. Defined.

Section LegacyEarnings.
Context {host : Host}.

Lemma legacy_parse_throws (d : val) :
  (forall s, d <> VStr s) -> AppLegacy.parse d = Throw TypeError.
Proof. intros H. destruct d; try reflexivity. now destruct (H s). Qed.

Lemma only_legacy_compareByDate (a b : App.point) :
  only_TypeError (AppLegacy.compareByDate a b).
Proof.
  unfold AppLegacy.compareByDate.
  apply only_bind; [destruct (App.name a); (apply only_Ret || apply only_Throw)|]. intros ta.
  apply only_bind; [destruct (App.name b); (apply only_Ret || apply only_Throw)|]. intros tb.
  apply only_Ret.
Qed.

Lemma legacy_compareByDate_throws (a b : App.point) :
  (exists e, AppLegacy.parse (App.name a) = Throw e)
  \/ (exists e, AppLegacy.parse (App.name b) = Throw e) ->
  exists e, AppLegacy.compareByDate a b = Throw e.
Proof.
  unfold AppLegacy.compareByDate. intros [(e & He)|(e & He)].
  - rewrite He. cbn [bind]. eauto.
  - destruct (AppLegacy.parse (App.name a)); cbn [bind]; [rewrite He|]; cbn [bind]; eauto.
Qed.

Lemma legacy_normalizeProventos_run (fields : list (string * val)) (models : list val)
  (mapped : list App.point) :
  lookup "assetEarningsModels" fields = VArr models ->
  mapM App.proventoItem models = Ret mapped ->
  AppLegacy.normalizeProventos (VObj fields) = Array_sort AppLegacy.compareByDate mapped.
Proof.
  intros Hm Hmap. unfold AppLegacy.normalizeProventos. cbn [truthy negb get bind].
  rewrite Hm. cbn [truthy negb]. now rewrite Hmap.
Qed.

(** X22. The older earnings normaliser needs a date string on every
    record: as soon as there are two records, one whose date is missing (or
    is not a string) makes it throw a TypeError, where the current one
    sorts a missing date as time 0; when every date is a string it returns,
    one point per record. *)
Theorem legacy_normalizeProventos_needs_dates :
  (forall fields models mapped,
      lookup "assetEarningsModels" fields = VArr models ->
      mapM App.proventoItem models = Ret mapped ->
      (2 <= List.length mapped)%nat ->
      Exists (fun p => forall s, App.name p <> VStr s) mapped ->
      AppLegacy.normalizeProventos (VObj fields) = Throw TypeError)
  /\ (forall fields models mapped,
        lookup "assetEarningsModels" fields = VArr models ->
        mapM App.proventoItem models = Ret mapped ->
        Forall (fun p => exists s, App.name p = VStr s) mapped ->
        exists out,
          AppLegacy.normalizeProventos (VObj fields) = Ret out /\ Permutation mapped out)
  /\ (forall fields models mapped,
        lookup "assetEarningsModels" fields = VArr models ->
        mapM App.proventoItem models = Ret mapped ->
        Forall (fun p => truthy (App.name p) = false) mapped ->
        exists out,
          App.normalizeProventos (VObj fields) = Ret out /\ Permutation mapped out).
Proof.
  split; [|split].
  - intros fields models mapped Hm Hmap Hlen Hex.
    rewrite (legacy_normalizeProventos_run fields models mapped Hm Hmap).
    destruct (Array_sort_throws AppLegacy.compareByDate
                (fun p => exists e, AppLegacy.parse (App.name p) = Throw e) mapped)
      as (e & He).
    + intros a b. apply legacy_compareByDate_throws.
    + exact Hlen.
    + apply Exists_exists in Hex. destruct Hex as (p & Hin & Hs).
      apply Exists_exists. exists p. split; [exact Hin|].
      exists TypeError. now apply legacy_parse_throws.
    + rewrite He. f_equal.
      apply (only_Array_sort AppLegacy.compareByDate mapped only_legacy_compareByDate e He).
  - intros fields models mapped Hm Hmap Hall.
    rewrite (legacy_normalizeProventos_run fields models mapped Hm Hmap).
    apply Array_sort_total. rewrite Forall_forall in Hall.
    intros a b Ha Hb. unfold AppLegacy.compareByDate.
    destruct (Hall a Ha) as (sa & ->), (Hall b Hb) as (sb & ->). cbn. eauto.
  - intros fields models mapped Hm Hmap Hall.
    rewrite (normalizeProventos_run fields models mapped Hm Hmap).
    apply Array_sort_total. rewrite Forall_forall in Hall.
    intros a b Ha Hb. unfold App.compareByDate.
    rewrite (parse_missing _ (Hall a Ha)), (parse_missing _ (Hall b Hb)). cbn. eauto.
Qed.

End LegacyEarnings.

Lemma legacy_normalizeProventos_needs_dates_witness :
  AppLegacy.normalizeProventos (host := Example.host)
    (VObj [("assetEarningsModels", VArr [VObj [("v", VNum 5%float)]; earning "01/01/2022"])])
  = Throw TypeError
  /\ exists out,
       App.normalizeProventos (host := Example.host)
         (VObj [("assetEarningsModels", VArr [VObj [("v", VNum 5%float)]])])
       = Ret out.
Proof.
  destruct (@legacy_normalizeProventos_needs_dates Example.host) as (Hthrow & _ & Hcurrent).
  split.
  - apply (Hthrow
             [("assetEarningsModels", VArr [VObj [("v", VNum 5%float)]; earning "01/01/2022"])]
             [VObj [("v", VNum 5%float)]; earning "01/01/2022"]
             [App.mkPoint VUndefined 5%float VUndefined;
              App.mkPoint (VStr "01/01/2022") 1%float VUndefined]).
    + reflexivity.
    + reflexivity.
    + cbn. lia.
    + apply Exists_cons_hd. intros s H. discriminate H.
  - destruct (Hcurrent [("assetEarningsModels", VArr [VObj [("v", VNum 5%float)]])]
                [VObj [("v", VNum 5%float)]]
                [App.mkPoint VUndefined 5%float VUndefined]) as (out & Hout & _).
    + reflexivity.
    + reflexivity.
    + repeat constructor.
    + exists out. exact Hout.
Defined.

(* ----------------------------------------------------------------- *)
(** ** The earnings table *)

Lemma StronglySorted_app_inv {A : Type} (R : A -> A -> Prop) (l1 l2 : list A) :
  StronglySorted R (l1 ++ l2) ->
  StronglySorted R l1 /\ StronglySorted R l2
  /\ forall a b, In a l1 -> In b l2 -> R a b.
Proof.
  induction l1 as [|x l1 IH]; cbn [app]; intros H.
  - split; [constructor|]. split; [exact H|]. intros a b [].
  - inversion H as [|? ? Hs Hall]; subst. destruct (IH Hs) as (H1 & H2 & H12).
    rewrite Forall_app in Hall. destruct Hall as (Hx1 & Hx2).
    split; [constructor; assumption|]. split; [exact H2|].
    intros a b [<-|Ha] Hb; [|now apply H12].
    rewrite Forall_forall in Hx2. now apply Hx2.
Qed.

Lemma StronglySorted_rev {A : Type} (R : A -> A -> Prop) (l : list A) :
  StronglySorted R l -> StronglySorted (fun a b => R b a) (rev l).
Proof.
  induction l as [|x l IH]; cbn [rev]; intros H; [constructor|].
  inversion H as [|? ? Hs Hall]; subst. specialize (IH Hs).
  assert (Hgen : forall l', StronglySorted (fun a b => R b a) l' ->
                            Forall (fun a => R x a) l' ->
                            StronglySorted (fun a b => R b a) (l' ++ [x])).
  { induction l' as [|y l' IH']; cbn [app]; intros Hs' Hall'.
    - repeat constructor.
    - inversion Hs' as [|? ? Hs'' Hy]; subst. inversion Hall' as [|? ? Hxy Hall'']; subst.
      constructor; [now apply IH'|].
      rewrite Forall_app. split; [exact Hy | now repeat constructor]. }
  apply Hgen; [exact IH|].
  rewrite Forall_forall in *. intros a Ha. apply Hall. now apply in_rev.
Qed.

Section Table.
Context {host : Host}.

(** X23. The table of recent earnings shows the last twelve points of the
    series, all of them when there are fewer, in reverse order, and is not
    rendered for an empty series; a point without a type is shown as
    "Rendimento".  On a series sorted by ascending date, as the normaliser
    returns it, the rows go from the latest date to the earliest, and no
    point left out of the table is later than a point shown. *)
Theorem tableRows_latest_first (proventos : list App.point) :
  exists hidden shown,
    proventos = (hidden ++ shown)%list
    /\ List.length shown = Nat.min 12 (List.length proventos)
    /\ AppView.tableRows proventos
       = map (fun p => AppView.mkRow (App.name p)
                         (js_or (App.type p) (VStr "Rendimento")) (App.value p))
           (rev shown)
    /\ List.length (AppView.tableRows proventos) = Nat.min 12 (List.length proventos)
    /\ (AppView.showsTable proventos = false <-> proventos = [])
    /\ Forall (fun r => truthy (AppView.kind r) = true) (AppView.tableRows proventos)
    /\ (StronglySorted (by_key App.timeOf) proventos ->
        StronglySorted (fun a b => (App.timeOf b <= App.timeOf a)%Z) (rev shown)
        /\ forall h s, In h hidden -> In s shown -> (App.timeOf h <= App.timeOf s)%Z).
Proof.
  exists (firstn (List.length proventos - 12) proventos),
    (skipn (List.length proventos - 12) proventos).
  assert (Hlen : List.length (skipn (List.length proventos - 12) proventos)
                 = Nat.min 12 (List.length proventos)) by (rewrite length_skipn; lia).
  split; [symmetry; apply firstn_skipn|]. split; [exact Hlen|]. split; [reflexivity|].
  split; [unfold AppView.tableRows, AppView.slice_last;
          now rewrite length_map, length_rev|].
  split; [|split].
  - unfold AppView.showsTable. destruct proventos; cbn; split; intros H;
      try reflexivity; discriminate H.
  - unfold AppView.tableRows. apply Forall_forall. intros r Hr.
    apply in_map_iff in Hr. destruct Hr as (p & <- & _). cbn [AppView.kind].
    unfold js_or. destruct (truthy (App.type p)) eqn:Ht; [exact Ht | reflexivity].
  - intros Hsorted.
    rewrite <- (firstn_skipn (List.length proventos - 12) proventos) in Hsorted.
    apply StronglySorted_app_inv in Hsorted. destruct Hsorted as (_ & Hs & Hhs).
    split; [|exact Hhs].
    exact (StronglySorted_rev (by_key App.timeOf) _ Hs).
Qed.

End Table.

(* ----------------------------------------------------------------- *)
(** ** The page through the relay *)

(** Serialisation gives a plain value back as it is. *)
Lemma wire_plain : forall v : val, plain v = true -> Deployed.wire v = v.
Proof.
  fix IH 1. intros [| |b|x|s|l|fields] H; cbn [Deployed.wire]; try reflexivity.
  - discriminate H.
  - cbn [plain] in H. unfold plain_number in H. unfold Deployed.wire_number.
    destruct (PrimFloat.classify x); try discriminate H; reflexivity.
  - f_equal. cbn [plain] in H. revert H.
    induction l as [|e l IHl]; intros H; [reflexivity|].
    cbn [forallb] in H. apply andb_true_iff in H. destruct H as (He & Hl).
    rewrite (IH e He), (IHl Hl). reflexivity.
  - f_equal. cbn [plain] in H. revert H.
    induction fields as [|[k u] fields IHf]; intros H; [reflexivity|].
    apply andb_true_iff in H. destruct H as (Hu & Hf).
    rewrite (IHf Hf), (IH u Hu).
    destruct u; try reflexivity. discriminate Hu.
Qed.

Lemma serialised_defined (v : val) :
  v <> VUndefined -> Deployed.serialised v = Some (Deployed.wire v).
Proof. intros H. destruct v; try reflexivity. now destruct H. Qed.

Section EndToEnd.
Context {host : Host} (net : string -> Proxy.upstream).
Context (deliver : string -> option Proxy.request) (rnd : nat -> float).

Lemma relayed_reply (path : string) :
  deliver (App.proxyUrl path)
  = Some (Proxy.mkRequest "GET" (Proxy.Single (App.SI_BASE ++ path))) ->
  hostname_of (App.SI_BASE ++ path) = Some "statusinvest.com.br" ->
  App.relay (Deployed.world net deliver rnd) (App.proxyUrl path)
  = Deployed.reply_of (fst (Proxy.relayTo net (App.SI_BASE ++ path)))
  /\ snd (Proxy.handler net (Proxy.mkRequest "GET" (Proxy.Single (App.SI_BASE ++ path))))
     = [Proxy.mkCall (App.SI_BASE ++ path) Proxy.browserHeaders].
Proof.
  intros Hdel Hhost.
  assert (Hacc : Proxy.handler net (Proxy.mkRequest "GET" (Proxy.Single (App.SI_BASE ++ path)))
                 = Proxy.relayTo net (App.SI_BASE ++ path)).
  { apply (handler_accepts net
             (Proxy.mkRequest "GET" (Proxy.Single (App.SI_BASE ++ path)))
             "statusinvest.com.br");
      [discriminate | reflexivity | exact Hhost | reflexivity]. }
  split.
  - cbn [Deployed.world App.relay]. unfold Deployed.relayed. now rewrite Hdel, Hacc.
  - rewrite Hacc. apply relayTo_calls.
Qed.

(** X24. The two files fit together.  When the platform hands the page's
    request to the relay with the target decoded, the relay accepts every
    target that the page builds and fetches it once with the browser
    headers.  When the upstream answer is no challenge, [proxyFetch]
    returns the parsed upstream JSON as it is after the relay has written
    it with [res.json] and the page has read it again: an infinite number
    in it (an overflowing literal such as 1e999) has become [null] and a
    negative zero [0], and a value that holds neither comes back as it was
    parsed.  It throws an Error whose message is the [error] text of the
    relay when the answer is a challenge (503), is not JSON (502) or never
    came (500): the field that the relay writes is the field that the page
    reads. *)
Theorem page_through_relay (path : string) :
  deliver (App.proxyUrl path)
  = Some (Proxy.mkRequest "GET" (Proxy.Single (App.SI_BASE ++ path))) ->
  hostname_of (App.SI_BASE ++ path) = Some "statusinvest.com.br" ->
  let w := Deployed.world net deliver rnd in
  let target := App.SI_BASE ++ path in
  snd (Proxy.handler net (Proxy.mkRequest "GET" (Proxy.Single target)))
  = [Proxy.mkCall target Proxy.browserHeaders]
  /\ (forall st ct rawText,
        net target = Proxy.Responded st ct (Proxy.Text rawText) ->
        ~ challenge st ct rawText ->
        forall data, JSON_parse rawText = Some data -> data <> VUndefined ->
          fst (App.proxyFetch w path []) = Ret (Deployed.wire data)
          /\ App.slot w path = Deployed.wire data
          /\ (plain data = true ->
              fst (App.proxyFetch w path []) = Ret data /\ App.slot w path = data))
  /\ Deployed.wire (VArr [VNum infinity; VNum (-0)%float; VNum 1.5%float])
     = VArr [VNull; VNum 0%float; VNum 1.5%float]
  /\ (forall st ct rawText,
        net target = Proxy.Responded st ct (Proxy.Text rawText) ->
        challenge st ct rawText ->
        fst (App.proxyFetch w path [])
        = Throw (Error (VStr "StatusInvest devolveu HTML (possível bloqueio Cloudflare)."))
        /\ App.slot w path = VNull)
  /\ (forall st ct rawText,
        net target = Proxy.Responded st ct (Proxy.Text rawText) ->
        ~ challenge st ct rawText ->
        JSON_parse rawText = None ->
        fst (App.proxyFetch w path []) = Throw (Error (VStr "Resposta não é JSON válido."))
        /\ App.slot w path = VNull)
  /\ (forall message,
        net target = Proxy.Failed message ->
        fst (App.proxyFetch w path []) = Throw (Error (VStr "Erro interno no proxy."))
        /\ App.slot w path = VNull).
Proof.
  intros Hdel Hhost w target.
  destruct (relayed_reply path Hdel Hhost) as (Hreply & Hcalls).
  fold w target in Hreply. fold target in Hcalls.
  split; [exact Hcalls|].
  assert (Hrun : fst (App.proxyFetch w path [])
                 = App.settle (Deployed.reply_of (fst (Proxy.relayTo net target)))).
  { rewrite proxyFetch_run. cbn [fst]. now rewrite Hreply. }
  assert (Hslot : App.slot w path
                  = match App.settle (Deployed.reply_of (fst (Proxy.relayTo net target))) with
                    | Ret v => v
                    | Throw _ => VNull
                    end).
  { unfold App.slot. now rewrite Hreply. }
  rewrite Hrun, Hslot. clear Hrun Hslot Hreply Hcalls.
  unfold Proxy.relayTo. cbv zeta.
  split; [|split; [|split; [|split]]].
  - intros st ct rawText Hnet Hno data Hj Hdef. rewrite Hnet.
    destruct (Proxy.looksBlocked st _ rawText) eqn:Hb;
      [apply looksBlocked_iff in Hb; contradiction|].
    rewrite Hj. cbn [fst]. unfold Deployed.reply_of. cbn [Proxy.status Proxy.payload].
    rewrite (serialised_defined data Hdef). cbn [App.settle App.ok Nat.leb andb negb].
    split; [reflexivity|]. split; [reflexivity|].
    intros Hplain. rewrite (wire_plain data Hplain). split; reflexivity.
  - vm_compute. reflexivity.
  - intros st ct rawText Hnet Hyes. rewrite Hnet.
    apply looksBlocked_iff in Hyes. rewrite Hyes. split; reflexivity.
  - intros st ct rawText Hnet Hno Hj. rewrite Hnet.
    destruct (Proxy.looksBlocked st _ rawText) eqn:Hb;
      [apply looksBlocked_iff in Hb; contradiction|].
    rewrite Hj. split; reflexivity.
  - intros message Hnet. rewrite Hnet. split; reflexivity.
Qed.

(** X25. When the upstream answers the search with a challenge page, the
    relay makes its one call and answers 503, and the page, without any
    further request, shows the synthetic snapshot together with the
    relay's message: the block is reported, not passed off as data. *)
Theorem blocked_search_is_reported (tickerRaw : string) (st0 : App.ui)
  (st : nat) (ct : option string) (rawText : string) :
  let ticker := toUpperCase (trim tickerRaw) in
  let path := App.searchPath ticker in
  let final := App.fetchFinancialData (Deployed.world net deliver rnd) tickerRaw st0 in
  ticker <> EmptyString ->
  deliver (App.proxyUrl path)
  = Some (Proxy.mkRequest "GET" (Proxy.Single (App.SI_BASE ++ path))) ->
  hostname_of (App.SI_BASE ++ path) = Some "statusinvest.com.br" ->
  net (App.SI_BASE ++ path) = Proxy.Responded st ct (Proxy.Text rawText) ->
  challenge st ct rawText ->
  App.data (fst final) = Some (App.generateMockData rnd ticker)
  /\ App.error (fst final)
     = Some (Error (VStr "StatusInvest devolveu HTML (possível bloqueio Cloudflare)."))
  /\ snd final = [App.proxyUrl path].
Proof.
  intros ticker path final Hticker Hdel Hhost Hnet Hch. subst final.
  destruct (relayed_reply path Hdel Hhost) as (Hreply & _).
  assert (Hthrow : App.settle (App.relay (Deployed.world net deliver rnd) (App.proxyUrl path))
                   = Throw (Error (VStr "StatusInvest devolveu HTML (possível bloqueio Cloudflare)."))).
  { rewrite Hreply. unfold Proxy.relayTo. cbv zeta. rewrite Hnet.
    apply looksBlocked_iff in Hch. rewrite Hch. reflexivity. }
  rewrite (fetchFinancialData_settled _ tickerRaw st0 Hticker). fold ticker.
  rewrite (fetchReal_search_error _ ticker _ Hthrow).
  cbn [fst snd App.data App.error]. repeat split.
Qed.

End EndToEnd.

Lemma page_through_relay_witness :
  let path := "/home/mainsearchquery?q=MXRF11" in
  let w := Deployed.world (host := Example.host) (serving "[]") routing half in
  routing (App.proxyUrl (host := Example.host) path)
  = Some (Proxy.mkRequest "GET" (Proxy.Single (App.SI_BASE ++ path)))
  /\ hostname_of (host := Example.host) (App.SI_BASE ++ path) = Some "statusinvest.com.br"
  /\ fst (App.proxyFetch (host := Example.host) w path []) = Ret (VArr [])
  /\ App.slot (host := Example.host) w path = VArr [].
Proof.
  intros path w.
  assert (Hdel : routing (App.proxyUrl (host := Example.host) path)
                 = Some (Proxy.mkRequest "GET" (Proxy.Single (App.SI_BASE ++ path))))
    by (vm_compute; reflexivity).
  assert (Hhost : hostname_of (host := Example.host) (App.SI_BASE ++ path)
                  = Some "statusinvest.com.br") by (vm_compute; reflexivity).
  split; [exact Hdel|]. split; [exact Hhost|].
  destruct (page_through_relay (host := Example.host) (serving "[]") routing half path
              Hdel Hhost) as (_ & Hdata & _).
  assert (Hno : ~ challenge 200%nat (Some "application/json") "[]")
    by (intros [H|[H|[H|H]]]; vm_compute in H; discriminate H).
  assert (Hdef : VArr [] <> VUndefined) by discriminate.
  destruct (Hdata 200%nat (Some "application/json") "[]" eq_refl Hno (VArr []) eq_refl Hdef)
    as (_ & _ & Hplain).
  exact (Hplain eq_refl).
Defined.

Lemma blocked_search_is_reported_witness :
  let path := App.searchPath "MXRF11" in
  let final := App.fetchFinancialData (host := Example.host)
                 (Deployed.world (host := Example.host) blocking routing half) " mxrf11 " idle in
  routing (App.proxyUrl (host := Example.host) path)
  = Some (Proxy.mkRequest "GET" (Proxy.Single (App.SI_BASE ++ path)))
  /\ App.data (fst final) = Some (App.generateMockData half "MXRF11")
  /\ App.error (fst final)
     = Some (Error (VStr "StatusInvest devolveu HTML (possível bloqueio Cloudflare)."))
  /\ snd final = [App.proxyUrl (host := Example.host) path].
Proof.
  intros path final.
  assert (Hdel : routing (App.proxyUrl (host := Example.host) path)
                 = Some (Proxy.mkRequest "GET" (Proxy.Single (App.SI_BASE ++ path))))
    by (vm_compute; reflexivity).
  split; [exact Hdel|].
  apply (blocked_search_is_reported (host := Example.host) blocking routing half " mxrf11 " idle
           403%nat (Some "text/html; charset=UTF-8")
           "<!DOCTYPE html><title>Just a moment...</title>").
  - vm_compute. discriminate.
  - exact Hdel.
  - vm_compute. reflexivity.
  - reflexivity.
  - left. reflexivity.
Defined.
